(** * Pipeline status reconciliation and credential resolution

  A shallow embedding of the orchestration logic of the e-commerce
  analytics dashboard: [app.py] (state probe, session initialisation,
  dbt invocation, secrets lookup, the Data Pipeline page handlers) and
  [scripts/download_and_load_data.py], [scripts/load_raw_data.py]
  (credential setup, download, bulk load).

  Python exceptions are modelled by a [result] type, mutable process
  state (the environment, the session, the files) by explicit state
  passing; the external collaborators (DuckDB, the Kaggle client, the
  dbt executable, Streamlit's secrets) are parameters. *)

From Stdlib Require Import ZArith QArith Bool Ascii String Lia.
From stdpp Require Import base option list strings pretty sorting gmap fin_maps.

Set Warnings "-register-all,-clear-no-such-hyp".

Local Open Scope string_scope.
Local Open Scope Z_scope.

(** ** Python values, exceptions and control flow *)

Module Py.

(** The exception classes that occur in the modelled code.  The three
    last ones derive from [BaseException] only: an [except Exception]
    clause lets them through. *)
Inductive exn_class :=
| ValueError
| TypeError
| KeyError
| FileNotFoundError
| TimeoutExpired
| OtherException (name : string)
| RerunException
| SystemExit
| KeyboardInterrupt.

(** An exception instance: its class and [str(e)]. *)
Record exn := Exn { exn_cls : exn_class; exn_str : string }.

Definition is_Exception (c : exn_class) : bool :=
  match c with
  | RerunException | SystemExit | KeyboardInterrupt => false
  | _ => true
  end.

Definition is_TimeoutExpired (c : exn_class) : bool :=
  match c with TimeoutExpired => true | _ => false end.

(** The outcome of evaluating an expression or running a block. *)
Inductive result (A : Type) :=
| Ok (a : A)
| Raise (e : exn).
Arguments Ok {A} a.
Arguments Raise {A} e.

(** Sequencing: a block stops at the first statement that raises. *)
Definition bind_result {A B} (m : result A) (f : A → result B) : result B :=
  match m with Ok a => f a | Raise e => Raise e end.

(** An [except] clause: the classes it catches, and its handler. *)
Definition clause (R : Type) : Type := (exn_class → bool) * (exn → R).

Definition except_Exception {R} (h : exn → R) : clause R := (is_Exception, h).
Definition except_TimeoutExpired {R} (h : exn → R) : clause R := (is_TimeoutExpired, h).
(** A bare [except:] catches everything. *)
Definition except_all {R} (h : exn → R) : clause R := (λ _, true, h).

(** The first clause that matches handles the exception; with none,
    it propagates. *)
Fixpoint dispatch {R} (e : exn) (unhandled : R) (cs : list (clause R)) : R :=
  match cs with
  | [] => unhandled
  | (catches, h) :: cs' =>
      if catches (exn_cls e) then h e else dispatch e unhandled cs'
  end.

(** [try: body  except ...: ...] for code without state. *)
Definition try_except {A} (body : result A) (cs : list (clause (result A)))
  : result A :=
  match body with
  | Ok a => Ok a
  | Raise e => dispatch e (Raise e) cs
  end.

(** Truthiness of a [str]. *)
Definition str_truthy (s : string) : bool :=
  match s with EmptyString => false | String _ _ => true end.

(** Truthiness of a value that is [None] or a [str], as [os.getenv]
    returns. *)
Definition opt_truthy (o : option string) : bool :=
  match o with None => false | Some s => str_truthy s end.

(** Code with mutable state of type [S]: the state survives an
    exception, as Python's does. *)
Definition ST (S A : Type) : Type := S → result A * S.

Definition ret {S A} (a : A) : ST S A := λ s, (Ok a, s).
Definition bind {S A B} (m : ST S A) (f : A → ST S B) : ST S B :=
  λ s, match m s with
       | (Ok a, s') => f a s'
       | (Raise e, s') => (Raise e, s')
       end.

Definition get {S} : ST S S := fun s => (Ok s, s).
Definition modify {S} (f : S → S) : ST S unit := fun s => (Ok tt, f s).
Definition raise {S A} (e : exn) : ST S A := fun s => (Raise e, s).
Definition lift {S A} (r : result A) : ST S A := fun s => (r, s).

(** [try: body  except ...: ...] for code with state: the handler runs
    in the state the body left. *)
Definition try_exceptS {S A} (body : ST S A) (cs : list (clause (ST S A)))
  : ST S A :=
  λ s, match body s with
       | (Ok a, s') => (Ok a, s')
       | (Raise e, s') => dispatch e (raise e) cs s'
       end.

End Py.
Import Py.

Declare Scope result_scope.
Delimit Scope result_scope with R.
Declare Scope st_scope.
Delimit Scope st_scope with S.

(** Statement sequences: in [result_scope] for code without state, in
  [st_scope] for code that changes the state. *)
Notation "'do' x <- m ; k" := (bind_result m (λ x, k))
(at level 10, x name, m at level 100, k at level 200, only parsing)
: result_scope.
Notation "m ;; k" := (bind_result m (λ _, k))
(at level 100, k at level 200, right associativity, only parsing)
: result_scope.
Notation "'do' x <- m ; k" := (bind m (λ x, k))
(at level 10, x name, m at level 100, k at level 200, only parsing)
: st_scope.
Notation "'do' ' pat <- m ; k" := (bind m (λ x, match x with pat => k end))
(at level 10, pat pattern, m at level 100, k at level 200, only parsing)
: st_scope.
Notation "m ;; k" := (bind m (λ _, k))
(at level 100, k at level 200, right associativity, only parsing)
: st_scope.
Local Open Scope st_scope.

(** ** The embedded database, as the application sees it *)

Module DuckDB.

(** An open connection: the one query the probe issues,
    [SELECT COUNT( * ) FROM information_schema.tables WHERE table_schema = s],
    and [close]. *)
Record connection := Connection {
  count_tables : string → result Z;
  close : result unit
}.

(** The database file at [DB_PATH]: whether it exists, and what
    [duckdb.connect(str(DB_PATH), read_only=True)] does. *)
Record storage := Storage {
  path_exists : bool;
  connect_read_only : result connection
}.

End DuckDB.

(** ** Text: the [str] and [pathlib] operations the code uses *)

Module Text.

(** [s.endswith(suffix)] *)
Fixpoint ends_with (suffix s : string) : bool :=
  String.eqb suffix s ||
  match s with
  | EmptyString => false
  | String _ s' => ends_with suffix s'
  end.

(** [sub in s] for two [str]. *)
Fixpoint contains (sub s : string) : bool :=
  String.prefix sub s ||
  match s with
  | EmptyString => false
  | String _ s' => contains sub s'
  end.

(** [s.rfind(ch)]; [None] is Python's [-1]. *)
Fixpoint rfind (ch : ascii) (s : string) : option nat :=
  match s with
  | EmptyString => None
  | String c s' =>
      match rfind ch s' with
      | Some i => Some (S i)
      | None => if Ascii.eqb c ch then Some O else None
      end
  end.

(** [PurePath.stem]: the final component without its last suffix.  A
    leading or a trailing dot does not start a suffix. *)
Definition stem (name : string) : string :=
  match rfind "."%char name with
  | Some i =>
      if ((0 <? i) && (i <? String.length name - 1))%nat
      then String.substring 0 i name
      else name
  | None => name
  end.

(** [PurePath.name]: the final component of a path. *)
Definition basename (path : string) : string :=
  match rfind "/"%char path with
  | Some i => String.substring (S i) (String.length path - S i) path
  | None => path
  end.

(** A line feed. *)
Definition nl : string := String (ascii_of_nat 10) "".

(** [path / name] *)
Definition joinpath (dir name : string) : string := dir +:+ "/" +:+ name.

(** [s * n] *)
Fixpoint str_mul (s : string) (n : nat) : string :=
  match n with O => "" | S n' => s +:+ str_mul s n' end.

(** [str(n)] for a non-negative [int]. *)
Definition str_of_nat (n : nat) : string := pretty n.

(** The digits of [f"{n:,}"], least significant first: a comma after
    every third digit that has a successor. *)
Fixpoint group3 (digits_rev : list ascii) (k : nat) : list ascii :=
  match digits_rev with
  | [] => []
  | d :: ds =>
      match k, ds with
      | 2%nat, _ :: _ => d :: ","%char :: group3 ds 0
      | _, _ => d :: group3 ds (S k)
      end
  end.

(** [f"{n:,}"] *)
Definition format_thousands (n : nat) : string :=
  string_of_list_ascii
    (rev (group3 (rev (list_ascii_of_string (str_of_nat n))) 0)).

(** Whether [os.environ] accepts the value: an embedded NUL raises
    [ValueError]. *)
Definition has_nul (s : string) : bool :=
  existsb (Ascii.eqb Ascii.zero) (list_ascii_of_string s).

End Text.

(** ** The database file and what the loader does to it *)

Module Store.

Definition row : Type := list string.

(** What the [CREATE OR REPLACE TABLE ... read_csv_auto(file)]
    statement makes of a file: [Ok rows] when [read_csv_auto] reads
    [rows] from it, [Raise e] when the statement on this file raises [e]
    (a file that cannot be opened or parsed). *)
Definition csv : Type := result (list row).

(** The table name is put into the statement as it is, without quotes.
    DuckDB takes it for a name when it is a plain identifier: a letter,
    an underscore or a character outside ASCII, followed by such
    characters, digits or dollar signs. *)
Definition is_ident_start (a : ascii) : bool :=
  let n := nat_of_ascii a in
  ((65 <=? n) && (n <=? 90) || (97 <=? n) && (n <=? 122) || (n =? 95)
   || (128 <=? n))%nat.

Definition is_ident_cont (a : ascii) : bool :=
  let n := nat_of_ascii a in
  (is_ident_start a || (48 <=? n) && (n <=? 57) || (n =? 36))%nat.

Definition is_identifier (t : string) : bool :=
  match t with
  | EmptyString => false
  | String a t' => is_ident_start a && forallb is_ident_cont (list_ascii_of_string t')
  end.

(** DuckDB compares the names of tables without regard to the case of
    the ASCII letters: the catalog is keyed by the folded name. *)
Definition fold_ascii (a : ascii) : ascii :=
  let n := nat_of_ascii a in
  if ((65 <=? n) && (n <=? 90))%nat then ascii_of_nat (n + 32) else a.

Fixpoint fold_case (t : string) : string :=
  match t with
  | EmptyString => EmptyString
  | String a t' => String (fold_ascii a) (fold_case t')
  end.

(** The error of a statement whose table name is not a plain
    identifier (a dot, a hyphen, a space, a leading digit): DuckDB does
    not run it.  The text stands for DuckDB's, which depends on the
    name; a name that spells SQL which DuckDB accepts, such as a quoted
    identifier, is not told apart. *)
Definition rejected_name (t : string) : exn :=
  Exn (OtherException "ParserException")
    ("Parser Error: syntax error at or near the table name " +:+ t).

(** A database: its schemas, and its tables by schema and folded table
    name. *)
Record database := Database {
  schemas : gset string;
  tables : gmap (string * string) (list row)
}.

Definition empty_database : database :=
  {| schemas := ∅; tables := ∅ |}.

(** The file at [db_path], when there is one: a database, or
    something [duckdb.connect] raises on. *)
Inductive db_file :=
| Healthy (d : database)
| Unreadable (e : exn).

(** [CREATE SCHEMA IF NOT EXISTS s] *)
Definition create_schema_if_not_exists (s : string) (d : database) : database :=
  {| schemas := {[ s ]} ∪ schemas d; tables := tables d |}.

(** [CREATE OR REPLACE TABLE s.t AS SELECT * FROM read_csv_auto(file)] *)
Definition create_or_replace_table (s t : string) (file : csv) (d : database)
  : result database :=
  match file with
  | Raise e => Raise e
  | Ok rows =>
      if negb (is_identifier t) then Raise (rejected_name t)
      else if decide (s ∈ schemas d)
      then Ok {| schemas := schemas d;
                 tables := <[(s, fold_case t) := rows]> (tables d) |}
      else Raise (Exn (OtherException "CatalogException")
                    ("Catalog Error: Schema with name " +:+ s +:+ " does not exist!"))
  end.

(** [SELECT COUNT( * ) FROM s.t] *)
Definition select_count (s t : string) (d : database) : result nat :=
  match tables d !! (s, fold_case t) with
  | Some rows => Ok (length rows)
  | None =>
      Raise (Exn (OtherException "CatalogException")
               ("Catalog Error: Table with name " +:+ t +:+ " does not exist!"))
  end.

(** [SELECT COUNT( * ) FROM information_schema.tables WHERE table_schema = s] *)
Definition count_schema_tables (s : string) (d : database) : Z :=
  Z.of_nat (size (filter (λ kv, kv.1.1 = s) (tables d))).

(** The read-only view of the file that the state probe gets. *)
Definition storage_of (f : option db_file) : DuckDB.storage :=
  {| DuckDB.path_exists := bool_decide (is_Some f);
     DuckDB.connect_read_only :=
       match f with
       | Some (Healthy d) =>
           Ok {| DuckDB.count_tables := λ s, Ok (count_schema_tables s d);
                 DuckDB.close := Ok tt |}
       | Some (Unreadable e) => Raise e
       | None =>
           Raise (Exn (OtherException "IOException")
                    "IO Error: Cannot open database in read-only mode: database does not exist")
       end |}.

End Store.

(** ** Streamlit: secrets, session state and what the page shows *)

Module Streamlit.

(** A value of [secrets.toml].  (Floats and date-times are left out:
    like integers they are neither containers nor [str].) *)
Inductive toml :=
| TStr (s : string)
| TInt (z : Z)
| TBool (b : bool)
| TArray (items : list toml)
| TTable (entries : list (string * toml)).

(** A Python value of the credential parameters: [None], or a value
    that came out of the secrets. *)
Definition value : Type := option toml.

(** [bool(v)] *)
Definition truthy (v : value) : bool :=
  match v with
  | None => false
  | Some (TStr s) => str_truthy s
  | Some (TInt z) => negb (z =? 0)
  | Some (TBool b) => b
  | Some (TArray items) => if items is [] then false else true
  | Some (TTable entries) => if entries is [] then false else true
  end.

(** The first entry with the key, as in a table without duplicate keys. *)
Fixpoint lookup_key (key : string) (entries : list (string * toml)) : option toml :=
  match entries with
  | [] => None
  | (k, v) :: rest => if String.eqb k key then Some v else lookup_key key rest
  end.

Definition is_str (key : string) (v : toml) : bool :=
  match v with TStr s => String.eqb s key | _ => false end.

(** [key in v] *)
Definition contains_key (key : string) (v : toml) : result bool :=
  match v with
  | TTable entries => Ok (bool_decide (is_Some (lookup_key key entries)))
  | TStr s => Ok (Text.contains key s)
  | TArray items => Ok (existsb (is_str key) items)
  | TInt _ => Raise (Exn TypeError "argument of type 'int' is not iterable")
  | TBool _ => Raise (Exn TypeError "argument of type 'bool' is not iterable")
  end.

(** [v[key]] *)
Definition getitem (v : toml) (key : string) : result toml :=
  match v with
  | TTable entries =>
      match lookup_key key entries with
      | Some x => Ok x
      | None => Raise (Exn KeyError key)
      end
  | TStr _ => Raise (Exn TypeError "string indices must be integers")
  | TArray _ => Raise (Exn TypeError "list indices must be integers or slices, not str")
  | TInt _ => Raise (Exn TypeError "'int' object is not subscriptable")
  | TBool _ => Raise (Exn TypeError "'bool' object is not subscriptable")
  end.

(** [st.secrets]: the parsed file, or the error that reading it
    raises (no secrets file, a file that does not parse). *)
Definition secrets : Type := result (list (string * toml)).

(** [st.secrets.get(key, {})] *)
Definition secrets_get (sec : secrets) (key : string) : result toml :=
  (do entries <- sec;
   Ok (default (TTable []) (lookup_key key entries)))%R.

(** [st.secrets[key]] *)
Definition secrets_getitem (sec : secrets) (key : string) : result toml :=
  (do entries <- sec;
   getitem (TTable entries) key)%R.

(** [st.session_state.pipeline_status] takes these four values. *)
Inductive status := not_started | loading | data_loaded | dbt_built.

#[global] Instance status_eq_dec : EqDecision status.
Proof. solve_decision. Defined.

(** [st.session_state]: a key that is absent is [None]. *)
Record session_state := Session {
  ss_data_loaded : option bool;
  ss_dbt_built : option bool;
  ss_pipeline_status : option status
}.

Definition set_data_loaded (b : bool) (s : session_state) : session_state :=
  {| ss_data_loaded := Some b; ss_dbt_built := ss_dbt_built s;
     ss_pipeline_status := ss_pipeline_status s |}.
Definition set_dbt_built (b : bool) (s : session_state) : session_state :=
  {| ss_data_loaded := ss_data_loaded s; ss_dbt_built := Some b;
     ss_pipeline_status := ss_pipeline_status s |}.
Definition set_pipeline_status (p : status) (s : session_state) : session_state :=
  {| ss_data_loaded := ss_data_loaded s; ss_dbt_built := ss_dbt_built s;
     ss_pipeline_status := Some p |}.

(** What the page shows, in the order of the calls. *)
Inductive ui_event :=
| st_spinner (text : string)
| st_expander (label : string)
| st_text (text : string)
| st_code (body language : string)
| st_success (text : string)
| st_info (text : string)
| st_error (text : string).

End Streamlit.

(** ** The process and its surroundings *)

Module World.
Import Store Streamlit.

(** The text of one [print] call. *)
Definition line : Type := string.

(** A call to an external collaborator. *)
Inductive call :=
| KaggleAuthenticate
| KaggleDownload (dataset path : string)
| SubprocessRun (cmd : list string).

Record world := World {
  environ : gmap string string;        (* os.environ *)
  kaggle_json : bool;                  (* ~/.kaggle/kaggle.json exists *)
  raw_dir : option (gmap string csv);  (* data/raw: its files by name *)
  db : option db_file;                 (* the file at DB_PATH *)
  stdout : list line;
  calls : list call;
  session : session_state;
  ui : list ui_event
}.

Definition set_environ (f : gmap string string → gmap string string) (w : world) :=
  {| environ := f (environ w); kaggle_json := kaggle_json w; raw_dir := raw_dir w;
     db := db w; stdout := stdout w; calls := calls w; session := session w;
     ui := ui w |}.
Definition set_raw_dir (f : option (gmap string csv) → option (gmap string csv))
    (w : world) :=
  {| environ := environ w; kaggle_json := kaggle_json w; raw_dir := f (raw_dir w);
     db := db w; stdout := stdout w; calls := calls w; session := session w;
     ui := ui w |}.
Definition set_db (f : option db_file → option db_file) (w : world) :=
  {| environ := environ w; kaggle_json := kaggle_json w; raw_dir := raw_dir w;
     db := f (db w); stdout := stdout w; calls := calls w; session := session w;
     ui := ui w |}.
Definition set_stdout (f : list line → list line) (w : world) :=
  {| environ := environ w; kaggle_json := kaggle_json w; raw_dir := raw_dir w;
     db := db w; stdout := f (stdout w); calls := calls w; session := session w;
     ui := ui w |}.
Definition set_calls (f : list call → list call) (w : world) :=
  {| environ := environ w; kaggle_json := kaggle_json w; raw_dir := raw_dir w;
     db := db w; stdout := stdout w; calls := f (calls w); session := session w;
     ui := ui w |}.
Definition set_session (f : session_state → session_state) (w : world) :=
  {| environ := environ w; kaggle_json := kaggle_json w; raw_dir := raw_dir w;
     db := db w; stdout := stdout w; calls := calls w; session := f (session w);
     ui := ui w |}.
Definition set_ui (f : list ui_event → list ui_event) (w : world) :=
  {| environ := environ w; kaggle_json := kaggle_json w; raw_dir := raw_dir w;
     db := db w; stdout := stdout w; calls := calls w; session := session w;
     ui := f (ui w) |}.

(** [print(text)] *)
Definition print (text : line) : ST world unit :=
  modify (set_stdout (λ out, (out ++ [text])%list)).

Definition record_call (c : call) : ST world unit :=
  modify (set_calls (λ cs, (cs ++ [c])%list)).

Definition show (e : ui_event) : ST world unit :=
  modify (set_ui (λ es, (es ++ [e])%list)).

(** What a command line does once started. *)
Record completed := Completed {
  returncode : Z;
  proc_stdout : string;
  proc_stderr : string
}.

Inductive behaviour :=
| CannotStart (e : exn)               (* [subprocess.run] raises at once *)
| Exits (seconds : Q) (p : completed) (* the process ends after [seconds] *)
| Undecodable (seconds : Q) (code : Z) (reason : string)
    (* the process ends after [seconds] with exit status [code]; its
       output is not text in the encoding of the locale, and decoding it
       raises [UnicodeDecodeError] with the text [reason] *)
| Hangs.                              (* the process never ends *)

(** The collaborators outside the repository. *)
Record collaborators := Collaborators {
  PROJECT_ROOT : string;
  home : string;                                   (* [Path.home()] *)
  st_secrets : secrets;
  kaggle_import : result unit;                     (* importing [KaggleApi] *)
  kaggle_authenticate : gmap string string → bool → result unit;
  kaggle_download : string → result (gmap string csv);
  mkdir_raw : result unit;                         (* [raw_data_dir.mkdir(...)] *)
  unlink_db : result unit;                         (* [DB_PATH.unlink()] *)
  run_process : list string → option db_file → behaviour * option db_file
}.

End World.

(** ** [scripts/download_and_load_data.py] and [scripts/load_raw_data.py] *)

Module Scripts.
Import Text Store Streamlit World.

Section WithCollaborators.
Variable c : collaborators.

(** [os.getenv(name)] *)
Definition getenv (name : string) : ST world (option string) :=
  do w <- get; ret (environ w !! name).

Definition type_name (v : value) : string :=
  match v with
  | None => "NoneType"
  | Some (TStr _) => "str"
  | Some (TInt _) => "int"
  | Some (TBool _) => "bool"
  | Some (TArray _) => "list"
  | Some (TTable _) => "AttrDict"
  end.

(** [os.environ[name] = v]: only a [str] without NUL is accepted. *)
Definition setenv (name : string) (v : value) : ST world unit :=
  match v with
  | Some (TStr s) =>
      if has_nul s then raise (Exn ValueError "embedded null byte")
      else modify (set_environ (insert name s))
  | _ => raise (Exn TypeError ("str expected, not " +:+ type_name v))
  end.

Definition credentials_not_found : string :=
  "Kaggle credentials not found! Please provide them via:" +:+ nl +:+
  nl +:+ "NEW FORMAT (recommended):" +:+ nl +:+
  "  - Environment: export KAGGLE_API_TOKEN='your_token_here'" +:+ nl +:+
  "  - Parameter: download_and_load_data(api_token='your_token_here')" +:+ nl +:+
  nl +:+ "LEGACY FORMAT:" +:+ nl +:+
  "  - Environment: export KAGGLE_USERNAME='...' KAGGLE_KEY='...'" +:+ nl +:+
  "  - Parameters: download_and_load_data(username='...', key='...')" +:+ nl +:+
  "  - File: ~/.kaggle/kaggle.json".

Definition kaggle_json_path : string :=
  joinpath (joinpath (home c) ".kaggle") "kaggle.json".

Definition setup_kaggle_credentials (api_token username key : value)
  : ST world unit :=
  if truthy api_token then
    setenv "KAGGLE_API_TOKEN" api_token;;
    print "Using provided Kaggle API token (new format)"
  else
    do env_token <- getenv "KAGGLE_API_TOKEN";
    if opt_truthy env_token then
      print "Using Kaggle API token from environment variable (new format)"
    else if truthy username && truthy key then
      setenv "KAGGLE_USERNAME" username;;
      setenv "KAGGLE_KEY" key;;
      print "Using provided Kaggle credentials (legacy format)"
    else
      do env_username <- getenv "KAGGLE_USERNAME";
      do env_key <- getenv "KAGGLE_KEY";
      if opt_truthy env_username && opt_truthy env_key then
        print "Using Kaggle credentials from environment variables (legacy format)"
      else
        do w <- get;
        if kaggle_json w then
          print ("Using Kaggle credentials from " +:+ kaggle_json_path)
        else raise (Exn ValueError credentials_not_found).

Definition download_kaggle_dataset (dataset_name download_path : string)
    (api_token username key : value) : ST world unit :=
  lift (kaggle_import c);;
  setup_kaggle_credentials api_token username key;;
  record_call KaggleAuthenticate;;
  do w <- get;
  lift (kaggle_authenticate c (environ w) (kaggle_json w));;
  print (nl +:+ "Downloading dataset: " +:+ dataset_name);;
  print ("Destination: " +:+ download_path);;
  record_call (KaggleDownload dataset_name download_path);;
  do files <- lift (kaggle_download c dataset_name);
  modify (set_raw_dir (λ d, Some (files ∪ default ∅ d)));;
  print "Download complete!".

(** [list(Path(csv_dir).glob("*.csv"))]: the files of the directory
    whose name ends in [.csv]; a directory that is absent has none. *)
Definition glob_csv (dir : option (gmap string csv)) : list (string * csv) :=
  filter (λ f, ends_with ".csv" f.1 = true) (map_to_list (default ∅ dir)).

(** [sorted(csv_files)]: by name. *)
Definition sorted (files : list (string * csv)) : list (string * csv) :=
  merge_sort (λ f g, String.le f.1 g.1) files.

(** [duckdb.connect(str(db_path))]: opens the file, creating it when
    it is absent. *)
Definition connect : ST world unit :=
  do w <- get;
  match db w with
  | None => modify (set_db (λ _, Some (Healthy empty_database)))
  | Some (Healthy _) => ret tt
  | Some (Unreadable e) => raise e
  end.

Definition closed_connection : exn :=
  Exn (OtherException "ConnectionException") "Connection Error: database is not open".

(** [con.execute(stmt)] for a statement that changes the database. *)
Definition execute (stmt : database → result database) : ST world unit :=
  do w <- get;
  match db w with
  | Some (Healthy d) =>
      do d' <- lift (stmt d);
      modify (set_db (λ _, Some (Healthy d')))
  | _ => raise closed_connection
  end.

(** [con.execute(q).fetchone()[0]] *)
Definition query {A} (q : database → result A) : ST world A :=
  do w <- get;
  match db w with
  | Some (Healthy d) => lift (q d)
  | _ => raise closed_connection
  end.

(** The body of [for csv_file in sorted(csv_files)]. *)
Fixpoint load_files (schema : string) (files : list (string * csv))
  : ST world unit :=
  match files with
  | [] => ret tt
  | (name, file) :: rest =>
      let table_name := stem name in
      execute (create_or_replace_table schema table_name file);;
      do row_count <- query (select_count schema table_name);
      print ("[OK] " +:+ table_name +:+ ": " +:+ format_thousands row_count
             +:+ " rows");;
      load_files schema rest
  end.

Definition load_csv_to_duckdb (csv_dir db_path schema : string) : ST world unit :=
  do w <- get;
  let csv_files := glob_csv (raw_dir w) in
  if csv_files is [] then
    raise (Exn FileNotFoundError ("No CSV files found in " +:+ csv_dir))
  else
    print (nl +:+ "Loading " +:+ str_of_nat (length csv_files)
           +:+ " CSV files into " +:+ basename db_path);;
    print ("Schema: " +:+ schema +:+ nl);;
    connect;;
    execute (λ d, Ok (create_schema_if_not_exists schema d));;
    load_files schema (sorted csv_files);;
    print (nl +:+ "Complete! Database: " +:+ db_path).

(** [load_raw_data()] of [scripts/load_raw_data.py] *)
Definition load_raw_data : ST world unit :=
  let project_root := PROJECT_ROOT c in
  let db_path := joinpath project_root "ecommerce.duckdb" in
  do w <- get;
  let csv_files := glob_csv (raw_dir w) in
  if csv_files is [] then
    print "No CSV files found. Run: python scripts/download_data.py"
  else
    print ("Loading " +:+ str_of_nat (length csv_files) +:+ " tables into "
           +:+ basename db_path +:+ "..." +:+ nl);;
    connect;;
    execute (λ d, Ok (create_schema_if_not_exists "raw" d));;
    load_files "raw" (sorted csv_files);;
    print (nl +:+ "Complete! Database: " +:+ db_path).

Definition banner : string := str_mul "=" 60.

Definition download_and_load_data
    (kaggle_api_token kaggle_username kaggle_key : value)
    (dataset_name : string) (project_root : option string) (db_name : string)
  : ST world string :=
  let project_root := default (PROJECT_ROOT c) project_root in
  let raw_data_dir := joinpath (joinpath project_root "data") "raw" in
  let db_path := joinpath project_root db_name in
  lift (mkdir_raw c);;
  modify (set_raw_dir (λ d, Some (default ∅ d)));;
  print banner;;
  print "STEP 1: DOWNLOADING DATA FROM KAGGLE";;
  print banner;;
  download_kaggle_dataset dataset_name raw_data_dir
    kaggle_api_token kaggle_username kaggle_key;;
  print (nl +:+ banner);;
  print "STEP 2: LOADING DATA INTO DUCKDB";;
  print banner;;
  load_csv_to_duckdb raw_data_dir db_path "raw";;
  print (nl +:+ banner);;
  print "SUCCESS! Data pipeline complete";;
  print banner;;
  print ("Database: " +:+ db_path);;
  print "Run 'dbt run' to build analytics models";;
  ret db_path.

End WithCollaborators.

End Scripts.

(** ** [app.py] *)

Module App.
Import DuckDB Text Store Streamlit World.

Definition msg_not_found : string := "Database not found".
Definition msg_ready : string := "✅ Ready - Database & models built".
Definition msg_data_loaded : string := "⚠️ Data loaded - Run dbt build".
Definition msg_empty : string := "⚠️ Database exists but empty".

(** The body of the [try] block of [check_database_status]. *)
Definition probe_body (db : storage) : result (bool * string) :=
  (do con <- connect_read_only db;
   do raw <- count_tables con "raw";
   let raw_exists := 0 <? raw in
   do marts <- count_tables con "marts";
   let marts_exist := 0 <? marts in
   close con;;
   if marts_exist then Ok (true, msg_ready)
   else if raw_exists then Ok (false, msg_data_loaded)
   else Ok (false, msg_empty))%R.

Definition check_database_status (db : storage) : result (bool * string) :=
  if negb (path_exists db) then Ok (false, msg_not_found)
  else try_except (probe_body db)
         [except_Exception (λ e, Ok (false, "Database error: " +:+ exn_str e))].

Definition unless_present {A} (field : session_state → option A)
    (init : ST session_state unit) : ST session_state unit :=
  do s <- get; if field s is Some _ then ret tt else init.

Definition init_session_state (db : storage) : ST session_state unit :=
  unless_present ss_data_loaded (modify (set_data_loaded false));;
  unless_present ss_dbt_built (modify (set_dbt_built false));;
  unless_present ss_pipeline_status
    (if path_exists db then
       do '(db_ready, _) <- lift (check_database_status db);
       if db_ready then modify (set_pipeline_status dbt_built)
       else modify (set_pipeline_status not_started)
     else modify (set_pipeline_status not_started)).

(** The triple [get_kaggle_credentials] returns: [(api_token, username, key)]. *)
Definition credentials : Type := value * value * value.

(** The [try] block of [get_kaggle_credentials]: the value it returns,
    or [None] when it ends without a [return]. *)
Definition secrets_body (sec : secrets) : result (option credentials) :=
  (do kaggle <- secrets_get sec "kaggle";
   do has_token <- contains_key "api_token" kaggle;
   if has_token then
     do kaggle <- secrets_getitem sec "kaggle";
     do api_token <- getitem kaggle "api_token";
     Ok (Some (Some api_token, None, None))
   else
     do kaggle <- secrets_get sec "kaggle";
     do has_username <- contains_key "username" kaggle;
     do has_both <-
       (if has_username then
          do kaggle <- secrets_get sec "kaggle";
          contains_key "key" kaggle
        else Ok false);
     if has_both then
       do kaggle <- secrets_getitem sec "kaggle";
       do username <- getitem kaggle "username";
       do kaggle <- secrets_getitem sec "kaggle";
       do key <- getitem kaggle "key";
       Ok (Some (None, Some username, Some key))
     else Ok None)%R.

Definition get_kaggle_credentials (sec : secrets) : result credentials :=
  (do returned <- try_except (secrets_body sec) [except_all (λ _, Ok None)];
   match returned with
   | Some triple => Ok triple
   | None => Ok (None, None, None)
   end)%R.

Section WithCollaborators.
Variable c : collaborators.

Definition DB_PATH : string := joinpath (PROJECT_ROOT c) "ecommerce.duckdb".
Definition DBT_PROJECT_DIR : string :=
  joinpath (joinpath (PROJECT_ROOT c) "dbt") "ecommerce_analytics".
Definition DBT_PROFILES_DIR : string := joinpath (PROJECT_ROOT c) "dbt".

(** [subprocess.run(cmd, cwd=PROJECT_ROOT, capture_output=True,
    text=True, timeout=...)]: a process that has not ended within the
    timeout is killed and [TimeoutExpired] is raised; the output of a
    process that has ended is decoded ([text=True]), and
    [UnicodeDecodeError] is raised when it cannot be. *)
Definition subprocess_run (cmd : list string) (timeout : Z) : ST world completed :=
  record_call (SubprocessRun cmd);;
  do w <- get;
  let '(b, db') := run_process c cmd (db w) in
  match b with
  | CannotStart e => raise e
  | Exits seconds p =>
      modify (set_db (λ _, db'));;
      if Qle_bool seconds (inject_Z timeout) then ret p
      else raise (Exn TimeoutExpired "Command timed out")
  | Undecodable seconds code reason =>
      modify (set_db (λ _, db'));;
      if Qle_bool seconds (inject_Z timeout)
      then raise (Exn (OtherException "UnicodeDecodeError") reason)
      else raise (Exn TimeoutExpired "Command timed out")
  | Hangs =>
      modify (set_db (λ _, db'));;
      raise (Exn TimeoutExpired "Command timed out")
  end.

Definition msg_timeout : string := "Command timed out after 5 minutes".

(** The command line [cmd] of [run_dbt_command]. *)
Definition dbt_cmd (command : string) (args : list string) : list string :=
  (["dbt"; command;
    "--profiles-dir"; DBT_PROFILES_DIR;
    "--project-dir"; DBT_PROJECT_DIR] ++ args)%list.

Definition run_dbt_command (command : string) (args : list string)
  : ST world (bool * string) :=
  try_exceptS
    (do result <- subprocess_run (dbt_cmd command args) 300;
     ret (returncode result =? 0, proc_stdout result +:+ proc_stderr result))
    [except_TimeoutExpired (λ _, ret (false, msg_timeout));
     except_Exception (λ e, ret (false, "Error running dbt: " +:+ exn_str e))].

Definition set_status (p : status) : ST world unit :=
  modify (set_session (set_pipeline_status p)).

(** [st.rerun()] *)
Definition st_rerun : ST world unit := raise (Exn RerunException "").

Definition hint_credentials : string :=
  "💡 Make sure you have configured Kaggle credentials in `.streamlit/secrets.toml`".

(** What the [except Exception as e] clause of both download handlers does. *)
Definition on_download_error (e : exn) : ST world unit :=
  set_status not_started;;
  show (st_error ("❌ Error: " +:+ exn_str e));;
  show (st_info hint_credentials).

(** [DB_PATH.exists()] *)
Definition db_path_exists : ST world bool :=
  do w <- get; ret (bool_decide (is_Some (db w))).

(** [DB_PATH.unlink()] *)
Definition db_path_unlink : ST world unit :=
  lift (unlink_db c);; modify (set_db (λ _, None)).

Definition DATASET : string := "olistbr/brazilian-ecommerce".
Definition DB_NAME : string := "ecommerce.duckdb".

(** The [try] block of the handler of "Refresh from Kaggle". *)
Definition refresh_body : ST world unit :=
  do present <- db_path_exists;
  (if present then db_path_unlink else ret tt);;
  do '(api_token, username, key) <- lift (get_kaggle_credentials (st_secrets c));
  do db_path <- Scripts.download_and_load_data c api_token username key
                  DATASET (Some (PROJECT_ROOT c)) DB_NAME;
  modify (set_session (set_data_loaded true));;
  set_status data_loaded;;
  show (st_success "✅ Data refreshed successfully!");;
  st_rerun.

(** The handler of the button "Refresh from Kaggle". *)
Definition refresh_handler : ST world unit :=
  set_status loading;;
  show (st_spinner "Downloading fresh dataset from Kaggle...");;
  try_exceptS refresh_body [except_Exception on_download_error].

(** The [try] block of the handler of "Download from Kaggle & Load". *)
Definition download_body : ST world unit :=
  do '(api_token, username, key) <- lift (get_kaggle_credentials (st_secrets c));
  show (st_text "Downloading data from Kaggle...");;
  do db_path <- Scripts.download_and_load_data c api_token username key
                  DATASET (Some (PROJECT_ROOT c)) DB_NAME;
  modify (set_session (set_data_loaded true));;
  set_status data_loaded;;
  show (st_success "✅ Data downloaded and loaded successfully!");;
  st_rerun.

(** The handler of the button "Download from Kaggle & Load". *)
Definition download_handler : ST world unit :=
  set_status loading;;
  show (st_spinner "Downloading dataset from Kaggle...");;
  try_exceptS download_body [except_Exception on_download_error].

(** The handler of the button "Build All Models" / "Rebuild Models". *)
Definition build_handler : ST world unit :=
  show (st_spinner "Running dbt build...");;
  do '(success, output) <- run_dbt_command "build" [];
  show (st_expander "dbt Output");;
  show (st_code output "bash");;
  if success then
    show (st_success "✅ dbt build completed successfully!");;
    modify (set_session (set_dbt_built true));;
    set_status dbt_built
  else show (st_error "❌ dbt build failed. Check output above.").

(** The handler of the button "Run Tests Only". *)
Definition test_handler : ST world unit :=
  show (st_spinner "Running dbt tests...");;
  show (st_expander "Test Results");;
  do '(success, output) <- run_dbt_command "test" [];
  show (st_code output "bash");;
  if success then show (st_success "✅ All tests passed!")
  else show (st_error "❌ Some tests failed. Check output above.").

End WithCollaborators.

End App.

(** ** The spec's view of the state probe *)

Module Spec.
Import DuckDB Streamlit.

(** The probe triple of the spec's data model,
    [(databaseExists, hasRawSchema, hasMartsSchema)], as the queries of
    the code determine it: a schema without tables counts as absent,
    and a file that is absent gives [(false, false, false)]. *)
Inductive probe (db : storage) : bool * bool * bool → Prop :=
| probe_absent :
    path_exists db = false → probe db (false, false, false)
| probe_present con raw marts :
    path_exists db = true →
    connect_read_only db = Ok con →
    count_tables con "raw" = Ok raw →
    count_tables con "marts" = Ok marts →
    close con = Ok tt →
    probe db (true, 0 <? raw, 0 <? marts).

(** The classification of the spec, in its words: no file is
    [NotStarted]; a file with neither raw nor marts is [NotStarted]; a
    file with raw and without marts is [DataLoaded]; a file with marts
    is [DbtBuilt]. *)
Definition spec_status (t : bool * bool * bool) : status :=
  match t with
  | (false, _, _) => not_started
  | (true, _, true) => dbt_built
  | (true, true, false) => data_loaded
  | (true, false, false) => not_started
  end.

(** The message of the probe for a triple. *)
Definition probe_message (t : bool * bool * bool) : string :=
  match t with
  | (false, _, _) => App.msg_not_found
  | (true, _, true) => App.msg_ready
  | (true, true, false) => App.msg_data_loaded
  | (true, false, false) => App.msg_empty
  end.

(** A session in which [init_session_state] has not run yet. *)
Definition fresh_session : session_state :=
  {| ss_data_loaded := None; ss_dbt_built := None; ss_pipeline_status := None |}.

(** A store on which opening or querying raises [e]. *)
Inductive access_raises (db : storage) (e : exn) : Prop :=
| raises_on_connect :
    connect_read_only db = Raise e → access_raises db e
| raises_on_raw_query con :
    connect_read_only db = Ok con →
    count_tables con "raw" = Raise e → access_raises db e
| raises_on_marts_query con raw :
    connect_read_only db = Ok con →
    count_tables con "raw" = Ok raw →
    count_tables con "marts" = Raise e → access_raises db e
| raises_on_close con raw marts :
    connect_read_only db = Ok con →
    count_tables con "raw" = Ok raw →
    count_tables con "marts" = Ok marts →
    close con = Raise e → access_raises db e.

(** The world once a download handler has set the status to [loading]
    and shown its spinner. *)
Definition loading_started (spinner : string) (w : World.world) : World.world :=
  World.set_ui (λ es, (es ++ [st_spinner spinner])%list)
    (World.set_session (set_pipeline_status loading) w).

(** The world once the refresh handler has deleted the database file. *)
Definition store_deleted (w : World.world) : World.world :=
  if World.db w is Some _ then World.set_db (λ _, None) w else w.

(** The world once the [except] clause of a download handler has run
    for [e]: the status is [not_started] and the error is shown. *)
Definition rolled_back (e : exn) (w : World.world) : World.world :=
  World.set_ui (λ es, (es ++ [st_info App.hint_credentials])%list)
    (World.set_ui (λ es, (es ++ [st_error ("❌ Error: " +:+ exn_str e)])%list)
       (World.set_session (set_pipeline_status not_started) w)).

(** A computation leaves a component of the world as it was. *)
Definition preserves {A B} (f : World.world → A) (m : ST World.world B) : Prop :=
  ∀ w, f (m w).2 = f w.

(** Every CSV file of the directory can be loaded: DuckDB reads it,
    and its stem is a plain identifier. *)
Definition readable (dir : gmap string Store.csv) : Prop :=
  ∀ name file, dir !! name = Some file → Text.ends_with ".csv" name = true →
               (∃ rows, file = Ok rows) ∧
               Store.is_identifier (Text.stem name) = true.

(** The tables that loading a list of files in order leaves: each
    file replaces the table named by its stem, up to the case of the
    letters. *)
Definition load_tables (schema : string) (files : list (string * Store.csv))
    (m : gmap (string * string) (list Store.row))
  : gmap (string * string) (list Store.row) :=
  foldl (λ m file,
           match file.2 with
           | Ok rows => <[(schema, Store.fold_case (Text.stem file.1)) := rows]> m
           | Raise _ => m
           end) m files.

(** The names of the tables that a list of files is loaded into. *)
Definition table_keys (schema : string) (files : list (string * Store.csv))
  : list (string * string) :=
  (λ file, (schema, Store.fold_case (Text.stem file.1))) <$> files.

(** Every file of the list can be loaded. *)
Definition all_readable (files : list (string * Store.csv)) : Prop :=
  ∀ name file, (name, file) ∈ files →
               (∃ rows, file = Ok rows) ∧
               Store.is_identifier (Text.stem name) = true.

(** The database a load starts from: the one in the file, or an empty
    one when there is no file. *)
Definition opened (f : option Store.db_file) : option Store.database :=
  match f with
  | None => Some Store.empty_database
  | Some (Store.Healthy d) => Some d
  | Some (Store.Unreadable _) => None
  end.

(** The three shapes of the triple of [get_kaggle_credentials]. *)
Definition token_shape (t : App.credentials) : Prop :=
  ∃ token, t = (Some token, None, None).
Definition legacy_shape (t : App.credentials) : Prop :=
  ∃ username key, t = (None, Some username, Some key).
Definition absent_shape (t : App.credentials) : Prop :=
  t = (None, None, None).

End Spec.

(** ** Concrete inputs *)

Module Examples.
Import DuckDB Text Store Streamlit World.

(** A database file with one raw table and no marts. *)
Definition raw_only : database :=
  {| schemas := {[ "raw" ]}; tables := {[ ("raw", "orders") := [["1"]; ["2"]; ["3"]] ]} |}.

Definition raw_only_storage : storage := storage_of (Some (Healthy raw_only)).

Definition io_error : exn :=
  Exn (OtherException "IOException") "IO Error: Could not set lock on file".

Definition locked_storage : storage := storage_of (Some (Unreadable io_error)).

Definition network_error : exn :=
  Exn (OtherException "ConnectionError") "Network is unreachable".

Definition orders_csv : csv := Ok [["1"; "a"]; ["2"; "b"]; ["3"; "c"]].

Definition dbt_ok : completed :=
  {| returncode := 0; proc_stdout := "Completed successfully"; proc_stderr := "" |}.
Definition dbt_failed : completed :=
  {| returncode := 1; proc_stdout := "Compilation Error"; proc_stderr := "exit 1" |}.

(** Collaborators that all work: no secrets configured, a download
    that delivers [orders.csv], a dbt run that succeeds in 42 s. *)
Definition working : collaborators :=
  {| PROJECT_ROOT := "/app"; home := "/home/user";
     st_secrets := Ok [];
     kaggle_import := Ok tt;
     kaggle_authenticate := λ _ _, Ok tt;
     kaggle_download := λ _, Ok {[ "orders.csv" := orders_csv ]};
     mkdir_raw := Ok tt;
     unlink_db := Ok tt;
     run_process := λ _ d, (Exits (inject_Z 42) dbt_ok, d) |}.

(** The same with a token in the secrets. *)
Definition online : collaborators :=
  {| PROJECT_ROOT := "/app"; home := "/home/user";
     st_secrets := Ok [("kaggle", TTable [("api_token", TStr "KGAT_123")])];
     kaggle_import := Ok tt;
     kaggle_authenticate := λ _ _, Ok tt;
     kaggle_download := λ _, Ok {[ "orders.csv" := orders_csv ]};
     mkdir_raw := Ok tt;
     unlink_db := Ok tt;
     run_process := λ _ d, (Exits (inject_Z 42) dbt_ok, d) |}.

(** The same with a token in the secrets and a network that is down. *)
Definition offline : collaborators :=
  {| PROJECT_ROOT := "/app"; home := "/home/user";
     st_secrets := Ok [("kaggle", TTable [("api_token", TStr "KGAT_123")])];
     kaggle_import := Ok tt;
     kaggle_authenticate := λ _ _, Ok tt;
     kaggle_download := λ _, Raise network_error;
     mkdir_raw := Ok tt;
     unlink_db := Ok tt;
     run_process := λ _ d, (Exits (inject_Z 7) dbt_failed, d) |}.

(** The same with a dbt run that takes 301 s. *)
Definition slow_dbt : collaborators :=
  {| PROJECT_ROOT := "/app"; home := "/home/user";
     st_secrets := Ok [];
     kaggle_import := Ok tt;
     kaggle_authenticate := λ _ _, Ok tt;
     kaggle_download := λ _, Ok ∅;
     mkdir_raw := Ok tt;
     unlink_db := Ok tt;
     run_process := λ _ d, (Exits (inject_Z 301) dbt_ok, d) |}.

(** A machine on which the dbt executable is not installed. *)
Definition dbt_missing : exn :=
  Exn FileNotFoundError "[Errno 2] No such file or directory: 'dbt'".
Definition no_dbt : collaborators :=
  {| PROJECT_ROOT := "/app"; home := "/home/user";
     st_secrets := Ok [];
     kaggle_import := Ok tt;
     kaggle_authenticate := λ _ _, Ok tt;
     kaggle_download := λ _, Ok ∅;
     mkdir_raw := Ok tt;
     unlink_db := Ok tt;
     run_process := λ _ d, (CannotStart dbt_missing, d) |}.


(** A process just started on a machine without anything. *)
Definition bare : world :=
  {| environ := ∅; kaggle_json := false; raw_dir := None; db := None;
     stdout := []; calls := [];
     session := Session None None None; ui := [] |}.

(** The directory [data/raw] after a download, and the same after the
    file has been replaced by one with a single row. *)
Definition orders_dir : gmap string csv := {[ "orders.csv" := orders_csv ]}.
Definition orders_dir_updated : gmap string csv :=
  {[ "orders.csv" := Ok [["9"; "z"]] ]}.
Definition downloaded : world := set_raw_dir (λ _, Some orders_dir) bare.

(** A machine with legacy credentials in the environment. *)
Definition with_legacy_env : world :=
  set_environ (λ _, {[ "KAGGLE_USERNAME" := "alice"; "KAGGLE_KEY" := "s3cret" ]}) bare.

(** A session that reached [dbt_built] on a database with marts. *)
Definition built_db : database :=
  {| schemas := {[ "raw"; "marts" ]};
     tables := {[ ("raw", "orders") := [["1"]]; ("marts", "fct_orders") := [["1"]] ]} |}.
Definition built : world :=
  set_session (λ _, Session (Some true) (Some true) (Some dbt_built))
    (set_db (λ _, Some (Healthy built_db)) bare).

(** A machine with a token in the environment beside the legacy pair. *)
Definition with_token_env : world :=
  set_environ (insert "KAGGLE_API_TOKEN" "KGAT_env") with_legacy_env.


(** A directory without any CSV file. *)
Definition notes_dir : gmap string csv := {[ "README.md" := Ok [] ]}.
Definition unpacked_notes : world := set_raw_dir (λ _, Some notes_dir) bare.

(** A dbt run that exits with code 0 after 7 s and whose output is not
    valid UTF-8. *)
Definition garbled_dbt : collaborators :=
  {| PROJECT_ROOT := "/app"; home := "/home/user";
     st_secrets := Ok [];
     kaggle_import := Ok tt;
     kaggle_authenticate := λ _ _, Ok tt;
     kaggle_download := λ _, Ok ∅;
     mkdir_raw := Ok tt;
     unlink_db := Ok tt;
     run_process := λ _ d,
       (Undecodable (inject_Z 7) 0
          "'utf-8' codec can't decode byte 0xff in position 0: invalid start byte",
        d) |}.

(** A dbt run that exits with code 1 after 7 s and prints the sentence
    of the timeout report. *)
Definition dbt_echo : completed :=
  {| returncode := 1; proc_stdout := "Command timed out after 5 minutes";
     proc_stderr := "" |}.
Definition echoing_dbt : collaborators :=
  {| PROJECT_ROOT := "/app"; home := "/home/user";
     st_secrets := Ok [];
     kaggle_import := Ok tt;
     kaggle_authenticate := λ _ _, Ok tt;
     kaggle_download := λ _, Ok ∅;
     mkdir_raw := Ok tt;
     unlink_db := Ok tt;
     run_process := λ _ d, (Exits (inject_Z 7) dbt_echo, d) |}.

(** A directory with two files whose names differ in the case of one
    letter. *)
Definition case_dir : gmap string csv :=
  {[ "Orders.csv" := Ok [["1"]]; "orders.csv" := Ok [["1"]; ["2"]] ]}.
Definition case_downloaded : world := set_raw_dir (λ _, Some case_dir) bare.

(** A directory with a file whose base name contains a dot. *)
Definition dotted_dir : gmap string csv := {[ "a.b.csv" := Ok [["1"]] ]}.
Definition dotted_downloaded : world := set_raw_dir (λ _, Some dotted_dir) bare.

(** A Kaggle client that rejects the credentials. *)
Definition unauthorized : exn :=
  Exn (OtherException "ApiException") "(401) Reason: Unauthorized".
Definition rejecting : collaborators :=
  {| PROJECT_ROOT := "/app"; home := "/home/user";
     st_secrets := Ok [];
     kaggle_import := Ok tt;
     kaggle_authenticate := λ _ _, Raise unauthorized;
     kaggle_download := λ _, Ok {[ "orders.csv" := orders_csv ]};
     mkdir_raw := Ok tt;
     unlink_db := Ok tt;
     run_process := λ _ d, (Exits (inject_Z 42) dbt_ok, d) |}.


End Examples.

(** ** [app.py]: what the pages show for a status and a database *)

Module Pages.
Import DuckDB Streamlit App.

(** What a page shows, in the order of the calls; titles and other
    text that does not depend on the state are left out.  A page that
    opens the database to query it is recorded as [database_view]. *)
Inductive element :=
| caption (text : string)
| warning (text : string)
| info (text : string)
| success (text : string)
| button (label : string)
| database_view.

#[global] Instance element_eq_dec : EqDecision element.
Proof. solve_decision. Defined.

Definition emit (e : element) : ST (list element) unit :=
  modify (λ es, (es ++ [e])%list).

(** [st.session_state.pipeline_status]: a key that is absent raises. *)
Definition pipeline_status (s : session_state) : result status :=
  match ss_pipeline_status s with
  | Some p => Ok p
  | None =>
      Raise (Exn (OtherException "AttributeError")
               "st.session_state has no attribute 'pipeline_status'")
  end.

(** The status block of the sidebar. *)
Definition sidebar (db : storage) (s : session_state) : ST (list element) unit :=
  do '(db_ready, db_status) <- lift (check_database_status db);
  emit (caption db_status);;
  do status <- lift (pipeline_status s);
  match status with
  | not_started =>
      if negb (path_exists db) then emit (warning "⏳ Setup required")
      else emit (info "📊 Build dbt models")
  | loading => emit (info "⏳ Loading data...")
  | data_loaded => emit (info "📊 Build dbt models")
  | dbt_built => emit (success "✅ Dashboard ready")
  end.

(** The page "Home". *)
Definition home_page (s : session_state) : ST (list element) unit :=
  do status <- lift (pipeline_status s);
  match status with
  | not_started => emit (info "👉 Go to **Data Pipeline** to get started!")
  | data_loaded | dbt_built => emit database_view
  | loading => ret tt
  end.

(** The page "Data Pipeline", no button pressed. *)
Definition pipeline_page (db : storage) : ST (list element) unit :=
  (if path_exists db then
     emit (success "✅ Database exists with data");;
     emit (warning "⚠️ This will delete the existing database and download fresh data from Kaggle. This is optional - only use if you want to demo the pipeline or get updated data.");;
     emit (button "🔄 Refresh from Kaggle")
   else
     emit (info "📥 No database found. Click below to download data from Kaggle.");;
     emit (button "📥 Download from Kaggle & Load"));;
  let db_exists := path_exists db in
  do '(db_ready, _) <- lift (check_database_status db);
  if negb db_exists then emit (warning "⚠️ Load data first before building dbt models")
  else
    (if db_ready then emit (success "✅ dbt models already built") else ret tt);;
    emit (button (if db_ready then "🔨 Rebuild Models" else "🔨 Build All Models"));;
    emit (button "🧪 Run Tests Only").

(** The page "Dashboard". *)
Definition dashboard_page (s : session_state) : ST (list element) unit :=
  do status <- lift (pipeline_status s);
  match status with
  | not_started => emit (warning "⚠️ No data loaded. Please go to **Data Pipeline** to download data first.")
  | data_loaded => emit (warning "⚠️ Analytics models not built. Please run **dbt build** in the Data Pipeline page.")
  | dbt_built => emit database_view
  | loading => ret tt
  end.

(** The page "Data Explorer". *)
Definition explorer_page (s : session_state) : ST (list element) unit :=
  do status <- lift (pipeline_status s);
  match status with
  | not_started => emit (warning "⚠️ No data loaded. Please go to **Data Pipeline** to download data first.")
  | loading | data_loaded | dbt_built => emit database_view
  end.

End Pages.

(** * Theorems *)

Section Prober.
Import DuckDB Streamlit App Spec.

Lemma probe_body_ok db con raw marts :
  connect_read_only db = Ok con →
  count_tables con "raw" = Ok raw →
  count_tables con "marts" = Ok marts →
  close con = Ok tt →
  probe_body db = Ok (0 <? marts, probe_message (true, 0 <? raw, 0 <? marts)).
Proof.
  intros Hc Hr Hm Hcl. unfold probe_body, bind_result.
  rewrite Hc, Hr, Hm, Hcl.
  destruct (0 <? marts), (0 <? raw); reflexivity.
Qed.

Lemma probe_body_raises db e : access_raises db e → probe_body db = Raise e.
Proof.
  unfold probe_body, bind_result.
  intros [Hc | con Hc Hr | con raw Hc Hr Hm | con raw marts Hc Hr Hm Hcl].
  - by rewrite Hc.
  - by rewrite Hc, Hr.
  - by rewrite Hc, Hr, Hm.
  - by rewrite Hc, Hr, Hm, Hcl.
Qed.

Lemma check_database_status_probe db t :
  probe db t → check_database_status db = Ok (t.2, probe_message t).
Proof.
  intros [Hex | con raw marts Hex Hc Hr Hm Hcl]; unfold check_database_status.
  - by rewrite Hex.
  - rewrite Hex. simpl. by rewrite (probe_body_ok _ _ _ _ Hc Hr Hm Hcl).
Qed.

Lemma init_fresh_status db s ready msg :
  ss_pipeline_status s = None →
  check_database_status db = Ok (ready, msg) →
  ∃ s', init_session_state db s = (Ok tt, s') ∧
        ss_pipeline_status s' =
          Some (if path_exists db && ready then dbt_built else not_started).
Proof.
  intros Hs Hck. destruct s as [dl built st]. simpl in Hs. subst st.
  unfold init_session_state, unless_present, bind, get, modify, lift, ret.
  rewrite Hck.
  destruct dl, built, (path_exists db), ready; simpl; eauto.
Qed.

End Prober.

Section ProberClaims.
Import DuckDB Store Streamlit App Spec Examples.

(** C1, as amended.  The probe is a total function of the probe triple:
    it reports ready exactly when marts are present, with one message
    per row of the spec's table.  The status the process derives at
    start follows the ready flag alone: [dbt_built] when marts are
    present, [not_started] otherwise.  It agrees with the spec's
    classification on every triple but (file, raw, no marts), where it
    is [not_started]: [data_loaded] is never derived at start. *)
Theorem startup_status_from_probe db t s :
  probe db t →
  ss_pipeline_status s = None →
  check_database_status db = Ok (t.2, probe_message t) ∧
  ∃ s', init_session_state db s = (Ok tt, s') ∧
        ss_pipeline_status s' = Some (if t.2 then dbt_built else not_started) ∧
        ss_pipeline_status s' =
          Some (if decide (t = (true, true, false)) then not_started
                else spec_status t).
Proof.
  intros Hp Hs. pose proof (check_database_status_probe db t Hp) as Hck.
  split; [exact Hck|].
  destruct (init_fresh_status db s _ _ Hs Hck) as (s' & Hinit & Hst).
  exists s'. split; [exact Hinit|]. rewrite Hst. clear Hinit Hst Hck.
  destruct Hp as [Hex | con raw marts Hex _ _ _ _]; rewrite Hex; simpl.
  - split; reflexivity.
  - destruct (0 <? marts), (0 <? raw); split; reflexivity.
Qed.

Lemma raw_only_probe : probe raw_only_storage (true, true, false).
Proof.
  refine (probe_present raw_only_storage
            {| count_tables := λ s, Ok (count_schema_tables s raw_only);
               close := Ok tt |} 1 0 _ _ _ _ _); reflexivity.
Qed.

Lemma startup_status_from_probe_witness :
  probe raw_only_storage (true, true, false) ∧
  ss_pipeline_status fresh_session = None ∧
  check_database_status raw_only_storage = Ok (false, msg_data_loaded) ∧
  ∃ s', init_session_state raw_only_storage fresh_session = (Ok tt, s') ∧
        ss_pipeline_status s' = Some not_started ∧
        ss_pipeline_status s' = Some not_started.
Proof.
  split; [exact raw_only_probe|]. split; [reflexivity|].
  apply (startup_status_from_probe raw_only_storage (true, true, false)
           fresh_session raw_only_probe).
  reflexivity.
Defined.

(** C1 as the spec states it fails: a database file with a raw table
    and no marts is classified [DataLoaded] by the spec, and the
    process derives [not_started] from it at start. *)
Lemma startup_status_raw_only_counterexample :
  probe raw_only_storage (true, true, false) ∧
  spec_status (true, true, false) = data_loaded ∧
  ss_pipeline_status (init_session_state raw_only_storage fresh_session).2
    = Some not_started ∧
  ¬ (∀ db t s, probe db t → ss_pipeline_status s = None →
       ss_pipeline_status (init_session_state db s).2 = Some (spec_status t)).
Proof.
  split; [exact raw_only_probe|]. split; [reflexivity|].
  split; [vm_compute; reflexivity|].
  intros H.
  specialize (H raw_only_storage (true, true, false) fresh_session
                raw_only_probe eq_refl).
  vm_compute in H. discriminate H.
Qed.

(** C3.  When opening or querying the store raises an exception, the
    probe does not raise: it returns not-ready together with a
    diagnostic, which is [Database error: ] followed by the text of the
    exception. *)
Theorem probe_never_propagates db e :
  access_raises db e →
  is_Exception (exn_cls e) = true →
  ∃ msg, check_database_status db = Ok (false, msg) ∧
         (path_exists db = true → msg = "Database error: " +:+ exn_str e).
Proof.
  intros Hraise Hexn. unfold check_database_status.
  destruct (path_exists db); simpl.
  - rewrite (probe_body_raises db e Hraise). simpl.
    unfold except_Exception. simpl. rewrite Hexn. eauto.
  - exists msg_not_found. split; [reflexivity | discriminate].
Qed.

Lemma probe_never_propagates_witness :
  access_raises locked_storage io_error ∧
  is_Exception (exn_cls io_error) = true ∧
  ∃ msg, check_database_status locked_storage = Ok (false, msg) ∧
         (path_exists locked_storage = true →
          msg = "Database error: " +:+ exn_str io_error).
Proof.
  assert (access_raises locked_storage io_error) as Hraise
    by (apply raises_on_connect; reflexivity).
  split; [exact Hraise|]. split; [reflexivity|].
  apply (probe_never_propagates locked_storage io_error Hraise).
  reflexivity.
Defined.

End ProberClaims.

Section Secrets.
Import Streamlit App Spec.

Ltac step_result :=
  match goal with
  | H : context [match ?r with Ok _ => _ | Raise _ => _ end] |- _ =>
      destruct r eqn:?; simpl in H; try discriminate H
  | H : context [if ?b then _ else _] |- _ =>
      destruct b eqn:?; simpl in H; try discriminate H
  end.

Lemma secrets_body_shape sec t :
  secrets_body sec = Ok (Some t) → token_shape t ∨ legacy_shape t.
Proof.
  unfold secrets_body, bind_result. intros H.
  repeat step_result; injection H as <-;
    first [left; eexists; reflexivity | right; eexists _, _; reflexivity].
Qed.

(** C10.  For every configuration of the secrets, [get_kaggle_credentials]
    returns, and what it returns has one of three shapes:
    [(token, None, None)], [(None, username, key)] or
    [(None, None, None)].  When reading the secrets raises (anything at
    all), it returns [(None, None, None)]. *)
Theorem get_kaggle_credentials_total sec :
  ∃ t, get_kaggle_credentials sec = Ok t ∧
       (token_shape t ∨ legacy_shape t ∨ absent_shape t) ∧
       (∀ e, secrets_body sec = Raise e → absent_shape t).
Proof.
  unfold get_kaggle_credentials, try_except, bind_result.
  destruct (secrets_body sec) as [[t|]|e] eqn:Hbody; simpl.
  - exists t. split; [reflexivity|]. split; [|discriminate].
    destruct (secrets_body_shape sec t Hbody); auto.
  - exists (None, None, None). unfold absent_shape. auto.
  - exists (None, None, None). unfold absent_shape. auto.
Qed.

End Secrets.

Section Transform.
Import World App.
Variable c : collaborators.

(** What [run_dbt_command] returns and the world it leaves, by the
    behaviour of the process. *)
Lemma run_dbt_command_unfold command args w :
  let cmd := dbt_cmd c command args in
  let w1 := set_calls (λ cs, (cs ++ [SubprocessRun cmd])%list) w in
  run_dbt_command c command args w =
    match run_process c cmd (db w) with
    | (CannotStart e, _) =>
        if is_TimeoutExpired (exn_cls e) then (Ok (false, msg_timeout), w1)
        else if is_Exception (exn_cls e)
             then (Ok (false, "Error running dbt: " +:+ exn_str e), w1)
             else (Raise e, w1)
    | (Exits t p, db') =>
        if Qle_bool t (inject_Z 300)
        then (Ok (returncode p =? 0, proc_stdout p +:+ proc_stderr p),
              set_db (λ _, db') w1)
        else (Ok (false, msg_timeout), set_db (λ _, db') w1)
    | (Undecodable t code reason, db') =>
        if Qle_bool t (inject_Z 300)
        then (Ok (false, "Error running dbt: " +:+ reason), set_db (λ _, db') w1)
        else (Ok (false, msg_timeout), set_db (λ _, db') w1)
    | (Hangs, db') => (Ok (false, msg_timeout), set_db (λ _, db') w1)
    end.
Proof.
  unfold run_dbt_command, try_exceptS, subprocess_run, bind, record_call,
    modify, get, raise, ret. simpl.
  destruct (run_process c (dbt_cmd c command args) (db w))
    as [[e | t p | t code reason | ] db']; simpl.
  - unfold except_TimeoutExpired, except_Exception. simpl.
    destruct (is_TimeoutExpired (exn_cls e)); [reflexivity|].
    destruct (is_Exception (exn_cls e)); reflexivity.
  - destruct (Qle_bool t (inject_Z 300)); reflexivity.
  - destruct (Qle_bool t (inject_Z 300)); reflexivity.
  - reflexivity.
Qed.

Lemma timeout_is_not_error text :
  msg_timeout ≠ "Error running dbt: " +:+ text.
Proof. intros H. discriminate H. Qed.

(** C5, as amended.  The outcome of a transform run is read off the
    process: a process that ends within 300 seconds with output that
    can be decoded gives success exactly when its exit code is zero,
    together with its standard output followed by its standard error.
    Success needs more than exit code zero: a process whose output
    cannot be decoded gives a failure with the text [Error running dbt: ]
    followed by the error, whatever its exit code.  A process that has
    not ended within 300 seconds gives a failure whose text is the fixed
    sentence [Command timed out after 5 minutes]; a process that cannot
    be started gives the [Error running dbt: ] failure.  The failures
    carry no tag but their text: the timeout report differs from every
    [Error running dbt: ] report, and it equals the report of a non-zero
    exit exactly when the process printed that very sentence. *)
Theorem run_dbt_command_classifies command args w :
  let b := (run_process c (dbt_cmd c command args) (db w)).1 in
  let r := (run_dbt_command c command args w).1 in
  msg_timeout = "Command timed out after 5 minutes" ∧
  (∀ t p, b = Exits t p → (t <= inject_Z 300)%Q →
     r = Ok (returncode p =? 0, proc_stdout p +:+ proc_stderr p)) ∧
  (∀ t p, b = Exits t p → (inject_Z 300 < t)%Q → r = Ok (false, msg_timeout)) ∧
  (∀ t code reason, b = Undecodable t code reason → (inject_Z 300 < t)%Q →
     r = Ok (false, msg_timeout)) ∧
  (b = Hangs → r = Ok (false, msg_timeout)) ∧
  (∀ t code reason, b = Undecodable t code reason → (t <= inject_Z 300)%Q →
     r = Ok (false, "Error running dbt: " +:+ reason)) ∧
  (∀ out, r = Ok (true, out) ↔
     ∃ t p, b = Exits t p ∧ (t <= inject_Z 300)%Q ∧ returncode p = 0 ∧
            out = proc_stdout p +:+ proc_stderr p) ∧
  (∀ t p, b = Exits t p → (t <= inject_Z 300)%Q → returncode p ≠ 0 →
     r = Ok (false, proc_stdout p +:+ proc_stderr p) ∧
     (r = Ok (false, msg_timeout) ↔
      proc_stdout p +:+ proc_stderr p = msg_timeout)) ∧
  (∀ e, b = CannotStart e → is_Exception (exn_cls e) = true →
        is_TimeoutExpired (exn_cls e) = false →
        r = Ok (false, "Error running dbt: " +:+ exn_str e)) ∧
  (∀ text, msg_timeout ≠ "Error running dbt: " +:+ text).
Proof.
  intros b r. subst b r. rewrite run_dbt_command_unfold.
  assert (Hle : ∀ t', (t' <= inject_Z 300)%Q → Qle_bool t' (inject_Z 300) = true)
    by (intros; by apply Qle_bool_iff).
  assert (Hgt : ∀ t', (inject_Z 300 < t')%Q → Qle_bool t' (inject_Z 300) = false).
  { intros t' Hlt. destruct (Qle_bool t' (inject_Z 300)) eqn:E; [|done].
    apply Qle_bool_iff in E. exfalso. by apply (Qlt_not_le _ _ Hlt). }
  split; [reflexivity|].
  destruct (run_process c (dbt_cmd c command args) (db w))
    as [[e | t p | t code reason | ] db']; simpl;
    (split; [|split; [|split; [|split; [|split; [|split; [|split; [|split]]]]]]]);
    try (intros; discriminate); try apply timeout_is_not_error.
  - (* cannot start: never a success *)
    intros out. split.
    + destruct (is_TimeoutExpired (exn_cls e)); [discriminate|].
      destruct (is_Exception (exn_cls e)); discriminate.
    + intros (t & p & H & _). discriminate H.
  - intros e' [= <-] He Ht. by rewrite Ht, He.
  - intros t' p' [= <- <-] Ht. by rewrite (Hle _ Ht).
  - intros t' p' [= <- <-] Ht. by rewrite (Hgt _ Ht).
  - intros out. split.
    + destruct (Qle_bool t (inject_Z 300)) eqn:E; simpl; [|discriminate].
      intros [= Hrc <-]. exists t, p. apply Qle_bool_iff in E.
      apply Z.eqb_eq in Hrc. auto.
    + intros (t' & p' & [= <- <-] & Ht & Hrc & ->).
      rewrite (Hle _ Ht). simpl. by rewrite Hrc.
  - intros t' p' [= <- <-] Ht Hrc. rewrite (Hle _ Ht). simpl.
    apply Z.eqb_neq in Hrc. rewrite Hrc. split; [reflexivity|].
    split; [by intros [= ->] | by intros ->].
  - intros t' code' reason' [= <- <- <-] Ht. by rewrite (Hgt _ Ht).
  - intros t' code' reason' [= <- <- <-] Ht. by rewrite (Hle _ Ht).
  - (* output that cannot be decoded: never a success *)
    intros out. split.
    + destruct (Qle_bool t (inject_Z 300)); discriminate.
    + intros (t' & p' & H & _). discriminate H.
  - reflexivity.
  - intros out. split; [discriminate|].
    intros (t & p & H & _). discriminate H.
Qed.

End Transform.

Section Resolver.
Import Text Store Streamlit World Scripts App Spec.
Variable c : collaborators.

Ltac unfold_setup :=
  unfold setup_kaggle_credentials, setenv, getenv, print, bind, get,
    modify, raise, ret.

(** C2.  An explicit token shadows every other source.  Whenever the
    token parameter is truthy, whatever the legacy parameters and
    whatever the environment holds, the resolver leaves the legacy
    variables of the environment as they were and prints nothing but the
    token message; and when the token is a string that the environment
    accepts, it is written to [KAGGLE_API_TOKEN] and the resolver
    returns. *)
Theorem explicit_token_shadows api_token username key w :
  truthy api_token = true →
  let r := setup_kaggle_credentials c api_token username key w in
  environ r.2 !! "KAGGLE_USERNAME" = environ w !! "KAGGLE_USERNAME" ∧
  environ r.2 !! "KAGGLE_KEY" = environ w !! "KAGGLE_KEY" ∧
  (stdout r.2 = stdout w ∨
   stdout r.2 = (stdout w ++ ["Using provided Kaggle API token (new format)"])%list) ∧
  (∀ t, api_token = Some (TStr t) → has_nul t = false →
     r = (Ok tt,
          set_stdout (λ out, (out ++ ["Using provided Kaggle API token (new format)"])%list)
            (set_environ (insert "KAGGLE_API_TOKEN" t) w)) ∧
     environ r.2 !! "KAGGLE_API_TOKEN" = Some t).
Proof.
  intros Ha r. subst r. unfold_setup. rewrite Ha.
  destruct api_token as [[t|z|b|items|entries]|]; simpl;
    try (split; [done|]; split; [done|]; split; [by left|]; intros ? [=]).
  destruct (has_nul t) eqn:Hnul; simpl.
  - split; [done|]. split; [done|]. split; [by left|].
    intros t' [= <-] Hnul'. congruence.
  - split; [by destruct w; simpl; rewrite lookup_insert_ne|].
    split; [by destruct w; simpl; rewrite lookup_insert_ne|].
    split; [right; by destruct w|].
    intros t' [= <-] _. split; [done|]. destruct w; simpl.
    apply lookup_insert_eq.
Qed.

(** What the resolver does when nothing matches. *)
Lemma setup_not_found api_token username key w :
  truthy api_token = false →
  truthy username && truthy key = false →
  opt_truthy (environ w !! "KAGGLE_API_TOKEN") = false →
  opt_truthy (environ w !! "KAGGLE_USERNAME")
    && opt_truthy (environ w !! "KAGGLE_KEY") = false →
  kaggle_json w = false →
  setup_kaggle_credentials c api_token username key w =
    (Raise (Exn ValueError credentials_not_found), w).
Proof.
  intros Ha Hl He Hel Hj. unfold_setup. rewrite Ha. simpl. rewrite He.
  destruct (truthy username && truthy key); [discriminate|].
  simpl. rewrite Hel, Hj. reflexivity.
Qed.

Lemma secrets_partial_legacy sec entries :
  lookup_key "kaggle" sec = Some (TTable entries) →
  lookup_key "api_token" entries = None →
  lookup_key "username" entries = None ∨ lookup_key "key" entries = None →
  get_kaggle_credentials (Ok sec) = Ok (None, None, None).
Proof.
  intros Hk Ht Hpartial.
  unfold get_kaggle_credentials, secrets_body, secrets_get, secrets_getitem,
    bind_result, try_except. simpl. rewrite Hk. simpl. rewrite Ht. simpl.
  destruct (lookup_key "username" entries) as [u|] eqn:Hu; simpl; [|reflexivity].
  destruct Hpartial as [Hn | Hn]; [discriminate|]. rewrite Hn. reflexivity.
Qed.

(** C7.  A legacy username without a key, or a key without a username,
    counts as no legacy credential: the resolver does what it does with
    neither of them, so that it falls through to the later sources and,
    when none matches, ends with its not-found error, the environment
    untouched.  The secrets lookup of the application likewise returns
    [(None, None, None)] for a username without key or a key without
    username. *)
Theorem partial_legacy_is_absent api_token username key w :
  truthy username && truthy key = false →
  setup_kaggle_credentials c api_token username key w
    = setup_kaggle_credentials c api_token None None w ∧
  (truthy api_token = false →
   opt_truthy (environ w !! "KAGGLE_API_TOKEN") = false →
   opt_truthy (environ w !! "KAGGLE_USERNAME")
     && opt_truthy (environ w !! "KAGGLE_KEY") = false →
   kaggle_json w = false →
   setup_kaggle_credentials c api_token username key w
     = (Raise (Exn ValueError credentials_not_found), w)) ∧
  (∀ sec entries,
     lookup_key "kaggle" sec = Some (TTable entries) →
     lookup_key "api_token" entries = None →
     lookup_key "username" entries = None ∨ lookup_key "key" entries = None →
     get_kaggle_credentials (Ok sec) = Ok (None, None, None)).
Proof.
  intros Hpartial. split; [|split].
  - unfold_setup. destruct (truthy username && truthy key); [discriminate|].
    reflexivity.
  - intros. by apply setup_not_found.
  - apply secrets_partial_legacy.
Qed.

End Resolver.

Section ResolverEffects.
Import Text Store Streamlit World Scripts App Spec Examples.
Variable c : collaborators.

Ltac unfold_setup :=
  unfold setup_kaggle_credentials, setenv, getenv, print, bind, get,
    modify, raise, ret.


End ResolverEffects.

(** ** Frame lemmas: which parts of the world a computation leaves alone *)

Section Frames.
Import Text Store Streamlit World Scripts App Spec.
Context {A : Type} (f : world → A).

Lemma preserves_ret {B} (b : B) : preserves f (ret b).
Proof. intros w. reflexivity. Qed.

Lemma preserves_raise {B} e : preserves f (@raise world B e).
Proof. intros w. reflexivity. Qed.

Lemma preserves_lift {B} (r : result B) : preserves f (lift r).
Proof. intros w. reflexivity. Qed.

Lemma preserves_get : preserves f get.
Proof. intros w. reflexivity. Qed.

Lemma preserves_bind {B C} (m : ST world B) (k : B → ST world C) :
  preserves f m → (∀ b, preserves f (k b)) → preserves f (bind m k).
Proof.
  intros Hm Hk w. unfold bind. specialize (Hm w).
  destruct (m w) as [[b | e] w1]; simpl in *.
  - rewrite Hk. exact Hm.
  - exact Hm.
Qed.

Lemma preserves_modify (g : world → world) :
  (∀ w, f (g w) = f w) → preserves f (modify g).
Proof. intros Hg w. apply Hg. Qed.

Lemma preserves_try_exceptS {B} (body : ST world B) catches h :
  preserves f body → (∀ e, preserves f (h e)) →
  preserves f (try_exceptS body [(catches, h)]).
Proof.
  intros Hb Hh w. unfold try_exceptS. specialize (Hb w).
  destruct (body w) as [[b | e] w1]; simpl in *; [exact Hb|].
  destruct (catches (exn_cls e)).
  - rewrite Hh. exact Hb.
  - exact Hb.
Qed.

End Frames.

Create HintDb frame discriminated.
#[local] Hint Resolve preserves_ret preserves_raise preserves_lift preserves_get
preserves_bind : frame.
#[local] Hint Extern 1 (Spec.preserves _ (modify _)) =>
(apply preserves_modify; intros []; reflexivity) : frame.
#[local] Hint Extern 2 (Spec.preserves _ (match ?x with _ => _ end)) =>
destruct x : frame.
#[local] Hint Extern 2 (Spec.preserves _ (if ?x then _ else _)) =>
destruct x : frame.

Section ScriptFrames.
Import Text Store Streamlit World Scripts App Spec.
Variable c : collaborators.

(** A component that the setters used by the scripts do not touch. *)
Context {A : Type} (f : world → A).
Hypothesis f_environ : ∀ g w, f (set_environ g w) = f w.
Hypothesis f_raw_dir : ∀ g w, f (set_raw_dir g w) = f w.
Hypothesis f_db : ∀ g w, f (set_db g w) = f w.
Hypothesis f_stdout : ∀ g w, f (set_stdout g w) = f w.
Hypothesis f_calls : ∀ g w, f (set_calls g w) = f w.

Ltac frame := intros; auto 30 with frame.

#[local] Hint Extern 1 (preserves f (modify (set_environ _))) =>
  (apply preserves_modify; apply f_environ) : frame.
#[local] Hint Extern 1 (preserves f (modify (set_raw_dir _))) =>
  (apply preserves_modify; apply f_raw_dir) : frame.
#[local] Hint Extern 1 (preserves f (modify (set_db _))) =>
  (apply preserves_modify; apply f_db) : frame.
#[local] Hint Extern 1 (preserves f (modify (set_stdout _))) =>
  (apply preserves_modify; apply f_stdout) : frame.
#[local] Hint Extern 1 (preserves f (modify (set_calls _))) =>
  (apply preserves_modify; apply f_calls) : frame.

Lemma print_preserves line : preserves f (print line).
Proof. unfold print. frame. Qed.
#[local] Hint Resolve print_preserves : frame.

Lemma record_call_preserves k : preserves f (record_call k).
Proof. unfold record_call. frame. Qed.
#[local] Hint Resolve record_call_preserves : frame.

Lemma setenv_preserves name v : preserves f (setenv name v).
Proof. unfold setenv. frame. Qed.
#[local] Hint Resolve setenv_preserves : frame.

Lemma setup_kaggle_credentials_preserves a u k :
  preserves f (setup_kaggle_credentials c a u k).
Proof. unfold setup_kaggle_credentials, getenv. frame. Qed.
#[local] Hint Resolve setup_kaggle_credentials_preserves : frame.

Lemma download_kaggle_dataset_preserves ds path a u k :
  preserves f (download_kaggle_dataset c ds path a u k).
Proof. unfold download_kaggle_dataset. frame. Qed.
#[local] Hint Resolve download_kaggle_dataset_preserves : frame.

Lemma connect_preserves : preserves f connect.
Proof. unfold connect. frame. Qed.
Lemma execute_preserves stmt : preserves f (execute stmt).
Proof. unfold execute. frame. Qed.
Lemma query_preserves {B} (q : database → result B) : preserves f (query q).
Proof. unfold query. frame. Qed.
#[local] Hint Resolve connect_preserves execute_preserves query_preserves : frame.

Lemma load_files_preserves schema files : preserves f (load_files schema files).
Proof.
  induction files as [|[name file] rest IH]; simpl; frame.
Qed.
#[local] Hint Resolve load_files_preserves : frame.

Lemma load_csv_to_duckdb_preserves dir path schema :
  preserves f (load_csv_to_duckdb dir path schema).
Proof. unfold load_csv_to_duckdb. frame. Qed.
#[local] Hint Resolve load_csv_to_duckdb_preserves : frame.

Lemma load_raw_data_preserves : preserves f (load_raw_data c).
Proof. unfold load_raw_data. frame. Qed.

Lemma download_and_load_data_preserves a u k ds root name :
  preserves f (download_and_load_data c a u k ds root name).
Proof. unfold download_and_load_data. frame. Qed.

End ScriptFrames.

Section Driver.
Import Text Store Streamlit World Scripts App Spec.
Variable c : collaborators.

Lemma calls_set_environ g w : calls (set_environ g w) = calls w.
Proof. by destruct w. Qed.
Lemma calls_set_raw_dir g w : calls (set_raw_dir g w) = calls w.
Proof. by destruct w. Qed.
Lemma calls_set_db g w : calls (set_db g w) = calls w.
Proof. by destruct w. Qed.
Lemma calls_set_stdout g w : calls (set_stdout g w) = calls w.
Proof. by destruct w. Qed.

(** The Kaggle client is called at most once for authentication and at
    most once for the download. *)
Lemma download_kaggle_dataset_calls ds path a u k w :
  let w' := (download_kaggle_dataset c ds path a u k w).2 in
  calls w' = calls w ∨
  calls w' = (calls w ++ [KaggleAuthenticate])%list ∨
  calls w' = (calls w ++ [KaggleAuthenticate; KaggleDownload ds path])%list.
Proof.
  pose proof (setup_kaggle_credentials_preserves c calls calls_set_environ
                calls_set_stdout a u k w) as Hsetup.
  unfold download_kaggle_dataset, bind, lift, get, record_call, print, modify.
  destruct (kaggle_import c); simpl; [|by left].
  destruct (setup_kaggle_credentials c a u k w) as [[[]|e] w1]; simpl in *;
    [|by left].
  destruct (kaggle_authenticate c _ _); simpl; [|right; left; congruence].
  destruct (kaggle_download c ds); simpl.
  - right; right. rewrite Hsetup, <- app_assoc. reflexivity.
  - right; right. rewrite Hsetup, <- app_assoc. reflexivity.
Qed.

Lemma download_and_load_data_calls a u k ds root name w :
  let path := joinpath (joinpath (default (PROJECT_ROOT c) root) "data") "raw" in
  let w' := (download_and_load_data c a u k ds root name w).2 in
  calls w' = calls w ∨
  calls w' = (calls w ++ [KaggleAuthenticate])%list ∨
  calls w' = (calls w ++ [KaggleAuthenticate; KaggleDownload ds path])%list.
Proof.
  intros path. subst path.
  unfold download_and_load_data, bind, lift, print, modify.
  destruct (mkdir_raw c); simpl; [|by left].
  match goal with
  | |- context [download_kaggle_dataset c ds ?p a u k ?w0] =>
      pose proof (download_kaggle_dataset_calls ds p a u k w0) as Hd;
      destruct (download_kaggle_dataset c ds p a u k w0) as [[[]|e] w1]
  end; simpl in *; [|exact Hd].
  match goal with
  | |- context [load_csv_to_duckdb ?dir ?p ?s ?w0] =>
      pose proof (load_csv_to_duckdb_preserves calls calls_set_db
                    calls_set_stdout dir p s w0) as Hl;
      destruct (load_csv_to_duckdb dir p s w0) as [[[]|e] w2]
  end; simpl in *; rewrite Hl; exact Hd.
Qed.

End Driver.

Section Handlers.
Import Text Store Streamlit World Scripts App Spec.
Variable c : collaborators.

(** A download handler whose [try] block raises an ordinary exception
    returns normally, in the rolled-back world. *)
Lemma handler_failure (body : ST world unit) spinner w e w1 :
  body (loading_started spinner w) = (Raise e, w1) →
  is_Exception (exn_cls e) = true →
  (set_status loading;; show (st_spinner spinner);;
   try_exceptS body [except_Exception (on_download_error)]) w
    = (Ok tt, rolled_back e w1).
Proof.
  intros Hbody He. unfold loading_started in Hbody.
  unfold bind, set_status, show, modify, try_exceptS. cbv beta iota.
  rewrite Hbody. simpl. rewrite He. reflexivity.
Qed.

(** Whatever a download handler's [try] block does, the handler either
    returns normally with the status rolled back to [not_started], or
    lets through an exception that is not an [Exception]. *)
Lemma handler_outcomes (body : ST world unit) spinner w r w' :
  (∀ w0 w1, body w0 ≠ (Ok tt, w1)) →
  (set_status loading;; show (st_spinner spinner);;
   try_exceptS body [except_Exception (on_download_error)]) w = (r, w') →
  (r = Ok tt ∧ ss_pipeline_status (session w') = Some not_started) ∨
  (∃ e, r = Raise e ∧ is_Exception (exn_cls e) = false).
Proof.
  intros Hnever. unfold bind, set_status, show, modify, try_exceptS.
  cbv beta iota.
  match goal with |- context [body ?w0] =>
    pose proof (Hnever w0) as Hw0; destruct (body w0) as [[[]|e] w1] end.
  - by destruct (Hw0 w1).
  - simpl. destruct (is_Exception (exn_cls e)) eqn:He.
    + intros [= <- <-]. left. split; reflexivity.
    + intros [= <- <-]. right. eauto.
Qed.

Lemma st_rerun_last {B} (m : ST world B) w0 w1 :
  (m;; st_rerun) w0 ≠ (Ok tt, w1).
Proof.
  unfold bind, st_rerun, raise. destruct (m w0) as [[b|e] w2]; discriminate.
Qed.

Lemma download_body_never_returns w0 w1 : download_body c w0 ≠ (Ok tt, w1).
Proof.
  unfold download_body. unfold bind at 1.
  destruct (lift _ w0) as [[[[a u] k]|e] w2]; [|discriminate].
  unfold bind at 1. destruct (show _ w2) as [[[]|e] w3]; [|discriminate].
  unfold bind at 1.
  destruct (download_and_load_data _ _ _ _ _ _ _ w3) as [[p|e] w4]; [|discriminate].
  unfold bind at 1. destruct (modify _ w4) as [[[]|e] w5]; [|discriminate].
  unfold bind at 1. destruct (set_status _ w5) as [[[]|e] w6]; [|discriminate].
  apply st_rerun_last.
Qed.

Lemma refresh_body_never_returns w0 w1 : refresh_body c w0 ≠ (Ok tt, w1).
Proof.
  unfold refresh_body. unfold bind at 1.
  destruct (db_path_exists w0) as [[present|e] w2]; [|discriminate].
  unfold bind at 1.
  destruct ((if present then db_path_unlink c else ret tt) w2) as [[[]|e] w2'];
    [|discriminate].
  unfold bind at 1.
  destruct (lift _ w2') as [[[[a u] k]|e] w3]; [|discriminate].
  unfold bind at 1.
  destruct (download_and_load_data _ _ _ _ _ _ _ w3) as [[p|e] w4]; [|discriminate].
  unfold bind at 1. destruct (modify _ w4) as [[[]|e] w5]; [|discriminate].
  unfold bind at 1. destruct (set_status _ w5) as [[[]|e] w6]; [|discriminate].
  apply st_rerun_last.
Qed.

Lemma download_body_raises a u k w e w1 :
  get_kaggle_credentials (st_secrets c) = Ok (a, u, k) →
  download_and_load_data c a u k DATASET (Some (PROJECT_ROOT c)) DB_NAME
    (set_ui (λ es, (es ++ [st_text "Downloading data from Kaggle..."])%list) w)
    = (Raise e, w1) →
  download_body c w = (Raise e, w1).
Proof.
  intros Hc Hd. unfold download_body, bind, lift, show, modify.
  rewrite Hc. cbv beta iota. rewrite Hd. reflexivity.
Qed.

Lemma refresh_body_raises a u k w e w1 :
  get_kaggle_credentials (st_secrets c) = Ok (a, u, k) →
  db w = None ∨ unlink_db c = Ok tt →
  download_and_load_data c a u k DATASET (Some (PROJECT_ROOT c)) DB_NAME
    (store_deleted w) = (Raise e, w1) →
  refresh_body c w = (Raise e, w1).
Proof.
  intros Hc Hu Hd. unfold store_deleted in Hd.
  unfold refresh_body, db_path_exists, db_path_unlink, bind, lift, get,
    modify, ret. cbv beta iota.
  destruct (db w) as [d|] eqn:Hdb; simpl.
  - destruct Hu as [|Hu]; [discriminate|]. rewrite Hu, Hc. cbv beta iota.
    rewrite Hd. reflexivity.
  - rewrite Hc. cbv beta iota. rewrite Hd. reflexivity.
Qed.

Lemma refresh_unlink_raises w e d :
  db w = Some d → unlink_db c = Raise e → refresh_body c w = (Raise e, w).
Proof.
  intros Hdb Hu.
  unfold refresh_body, db_path_exists, db_path_unlink, bind, lift, get,
    modify, ret. cbv beta iota. rewrite Hdb. simpl. rewrite Hu. reflexivity.
Qed.

Lemma run_dbt_command_session command args w :
  session (run_dbt_command c command args w).2 = session w.
Proof.
  rewrite run_dbt_command_unfold.
  destruct (run_process c _ _) as [[e | t p | t code reason | ] db']; simpl.
  - destruct (is_TimeoutExpired _); [by destruct w|].
    destruct (is_Exception _); by destruct w.
  - destruct (Qle_bool _ _); by destruct w.
  - destruct (Qle_bool _ _); by destruct w.
  - by destruct w.
Qed.

Lemma run_dbt_command_calls command args w :
  calls (run_dbt_command c command args w).2
    = (calls w ++ [SubprocessRun (dbt_cmd c command args)])%list.
Proof.
  rewrite run_dbt_command_unfold.
  destruct (run_process c _ _) as [[e | t p | t code reason | ] db']; simpl.
  - destruct (is_TimeoutExpired _); [by destruct w|].
    destruct (is_Exception _); by destruct w.
  - destruct (Qle_bool _ _); by destruct w.
  - destruct (Qle_bool _ _); by destruct w.
  - by destruct w.
Qed.

Lemma build_handler_failure w out w1 :
  run_dbt_command c "build" []
    (set_ui (λ es, (es ++ [st_spinner "Running dbt build..."])%list) w)
    = (Ok (false, out), w1) →
  ∃ w', build_handler c w = (Ok tt, w') ∧
        session w' = session w ∧
        calls w' = (calls w ++ [SubprocessRun (dbt_cmd c "build" [])])%list ∧
        ui w' = (ui w1 ++ [st_expander "dbt Output"; st_code out "bash";
                   st_error "❌ dbt build failed. Check output above."])%list.
Proof.
  intros Hrun.
  pose proof (run_dbt_command_session "build" []
    (set_ui (λ es, (es ++ [st_spinner "Running dbt build..."])%list) w)) as Hs.
  pose proof (run_dbt_command_calls "build" []
    (set_ui (λ es, (es ++ [st_spinner "Running dbt build..."])%list) w)) as Hc.
  rewrite Hrun in Hs, Hc. simpl in Hs, Hc.
  unfold build_handler, bind, show, modify. cbv beta iota. rewrite Hrun.
  cbv beta iota. eexists. split; [reflexivity|].
  destruct w, w1; simpl in *. subst.
  split; [reflexivity|]. split; [reflexivity|].
  by rewrite <- !app_assoc.
Qed.

End Handlers.

Section DriverClaims.
Import Text Store Streamlit World Scripts App Spec Examples.
Variable c : collaborators.

Abbreviation download_spinner := "Downloading dataset from Kaggle...".
Abbreviation refresh_spinner := "Downloading fresh dataset from Kaggle...".
Abbreviation raw_path := (joinpath (joinpath (PROJECT_ROOT c) "data") "raw").

(** C4.  When the download or the load raises an exception [e], on the
    first download and on a refresh (where the database file is deleted
    first, and where the deletion itself may be what fails), the
    handler returns normally with the status [not_started], the text
    of [e] shown as an error, and no call to the Kaggle client beyond
    those of the one failed attempt.  Whenever one of the two handlers
    returns, the status is [not_started]; it is never left at
    [loading] by an [Exception].  When a dbt build fails, the handler
    leaves the session, and so the status, as it was, after a single
    run of the command. *)
Theorem stage_failure_rolls_back e w :
  is_Exception (exn_cls e) = true →
  (∀ a u k w1,
     get_kaggle_credentials (st_secrets c) = Ok (a, u, k) →
     download_and_load_data c a u k DATASET (Some (PROJECT_ROOT c)) DB_NAME
       (set_ui (λ es, (es ++ [st_text "Downloading data from Kaggle..."])%list)
          (loading_started download_spinner w)) = (Raise e, w1) →
     download_handler c w = (Ok tt, rolled_back e w1) ∧
     (calls w1 = calls w ∨
      calls w1 = (calls w ++ [KaggleAuthenticate])%list ∨
      calls w1 = (calls w ++ [KaggleAuthenticate;
                              KaggleDownload DATASET raw_path])%list)) ∧
  (∀ a u k w1,
     get_kaggle_credentials (st_secrets c) = Ok (a, u, k) →
     db w = None ∨ unlink_db c = Ok tt →
     download_and_load_data c a u k DATASET (Some (PROJECT_ROOT c)) DB_NAME
       (store_deleted (loading_started refresh_spinner w)) = (Raise e, w1) →
     refresh_handler c w = (Ok tt, rolled_back e w1) ∧
     (calls w1 = calls w ∨
      calls w1 = (calls w ++ [KaggleAuthenticate])%list ∨
      calls w1 = (calls w ++ [KaggleAuthenticate;
                              KaggleDownload DATASET raw_path])%list)) ∧
  (∀ d, db w = Some d → unlink_db c = Raise e →
     refresh_handler c w = (Ok tt, rolled_back e (loading_started refresh_spinner w))) ∧
  (∀ w1,
     ss_pipeline_status (session (rolled_back e w1)) = Some not_started ∧
     ui (rolled_back e w1)
       = (ui w1 ++ [st_error ("❌ Error: " +:+ exn_str e);
                    st_info hint_credentials])%list ∧
     calls (rolled_back e w1) = calls w1 ∧
     db (rolled_back e w1) = db w1) ∧
  (∀ r w',
     download_handler c w = (r, w') ∨ refresh_handler c w = (r, w') →
     (r = Ok tt ∧ ss_pipeline_status (session w') = Some not_started) ∨
     (∃ e', r = Raise e' ∧ is_Exception (exn_cls e') = false)) ∧
  (∀ out w1,
     run_dbt_command c "build" []
       (set_ui (λ es, (es ++ [st_spinner "Running dbt build..."])%list) w)
       = (Ok (false, out), w1) →
     ∃ w', build_handler c w = (Ok tt, w') ∧
           session w' = session w ∧
           calls w' = (calls w ++ [SubprocessRun (dbt_cmd c "build" [])])%list ∧
           ui w' = (ui w1 ++ [st_expander "dbt Output"; st_code out "bash";
                      st_error "❌ dbt build failed. Check output above."])%list).
Proof.
  intros He. split; [|split; [|split; [|split; [|split]]]].
  - intros a u k w1 Hc Hd. split.
    + apply (handler_failure (download_body c) download_spinner w e w1);
        [|exact He].
      by apply (download_body_raises c a u k).
    + match type of Hd with download_and_load_data _ _ _ _ _ _ _ ?w0 = _ =>
        pose proof (download_and_load_data_calls c a u k DATASET
                      (Some (PROJECT_ROOT c)) DB_NAME w0) as H;
        replace (calls w0) with (calls w) in H by (by destruct w)
      end.
      rewrite Hd in H. exact H.
  - intros a u k w1 Hc Hu Hd. split.
    + apply (handler_failure (refresh_body c) refresh_spinner w e w1);
        [|exact He].
      apply (refresh_body_raises c a u k); [exact Hc| |exact Hd].
      destruct Hu as [Hu|Hu]; [left|by right]. by destruct w.
    + pose proof (download_and_load_data_calls c a u k DATASET
                    (Some (PROJECT_ROOT c)) DB_NAME
                    (store_deleted (loading_started refresh_spinner w))) as H.
      rewrite Hd in H. simpl in H.
      replace (calls (store_deleted (loading_started refresh_spinner w)))
        with (calls w) in H; [exact H|].
      unfold store_deleted, loading_started. destruct w as [? ? ? [d|] ? ? ? ?];
        reflexivity.
  - intros d Hdb Hu.
    apply (handler_failure (refresh_body c) refresh_spinner w e); [|exact He].
    apply (refresh_unlink_raises c _ e d); [|exact Hu]. by destruct w.
  - intros w1. destruct w1; simpl. rewrite <- app_assoc. done.
  - intros r w' [H|H].
    + apply (handler_outcomes (download_body c) download_spinner w r w');
        [apply download_body_never_returns | exact H].
    + apply (handler_outcomes (refresh_body c) refresh_spinner w r w');
        [apply refresh_body_never_returns | exact H].
  - apply build_handler_failure.
Qed.

End DriverClaims.

Section DriverWitness.
Import Text Store Streamlit World Scripts App Spec Examples.

(** The refresh scenario of the spec: the status is [dbt_built], the
    refresh deletes the database, the download fails on the network. *)
Lemma stage_failure_rolls_back_witness :
  is_Exception (exn_cls network_error) = true ∧
  ss_pipeline_status (session built) = Some dbt_built ∧
  ∃ w1, refresh_handler offline built = (Ok tt, rolled_back network_error w1) ∧
        db w1 = None ∧
        ss_pipeline_status (session (rolled_back network_error w1))
          = Some not_started.
Proof.
  split; [reflexivity|]. split; [reflexivity|].
  destruct (stage_failure_rolls_back offline network_error built eq_refl)
    as (_ & Hrefresh & _ & Hroll & _).
  set (w1 := (download_and_load_data offline (Some (TStr "KGAT_123")) None None
                DATASET (Some "/app") DB_NAME
                (store_deleted
                   (loading_started "Downloading fresh dataset from Kaggle..."
                      built))).2).
  exists w1.
  destruct (Hrefresh (Some (TStr "KGAT_123")) None None w1) as [H _].
  - reflexivity.
  - right. reflexivity.
  - vm_compute. reflexivity.
  - split; [exact H|]. split; [vm_compute; reflexivity | apply Hroll].
Defined.

End DriverWitness.

Section ResolverClaims.
Import Text Store Streamlit World Scripts App Spec Examples.

Lemma explicit_token_shadows_witness :
  truthy (Some (TStr "KGAT_123")) = true ∧
  opt_truthy (environ with_legacy_env !! "KAGGLE_USERNAME")
    && opt_truthy (environ with_legacy_env !! "KAGGLE_KEY") = true ∧
  setup_kaggle_credentials working (Some (TStr "KGAT_123"))
    (Some (TStr "bob")) (Some (TStr "k3y")) with_legacy_env
  = (Ok tt,
     set_stdout (λ out, (out ++ ["Using provided Kaggle API token (new format)"])%list)
       (set_environ (insert "KAGGLE_API_TOKEN" "KGAT_123") with_legacy_env)) ∧
  environ (setup_kaggle_credentials working (Some (TStr "KGAT_123"))
             (Some (TStr "bob")) (Some (TStr "k3y")) with_legacy_env).2
    !! "KAGGLE_USERNAME" = Some "alice".
Proof.
  split; [reflexivity|]. split; [vm_compute; reflexivity|].
  destruct (explicit_token_shadows working (Some (TStr "KGAT_123"))
              (Some (TStr "bob")) (Some (TStr "k3y")) with_legacy_env eq_refl)
    as (Huser & _ & _ & Htoken).
  destruct (Htoken "KGAT_123" eq_refl eq_refl) as [Hr _].
  split; [exact Hr|]. rewrite Huser. vm_compute. reflexivity.
Defined.

Lemma partial_legacy_is_absent_witness :
  truthy (Some (TStr "alice")) && truthy None = false ∧
  setup_kaggle_credentials working None (Some (TStr "alice")) None bare
    = setup_kaggle_credentials working None None None bare ∧
  setup_kaggle_credentials working None (Some (TStr "alice")) None bare
    = (Raise (Exn ValueError credentials_not_found), bare) ∧
  get_kaggle_credentials (Ok [("kaggle", TTable [("username", TStr "alice")])])
    = Ok (None, None, None).
Proof.
  split; [reflexivity|].
  destruct (partial_legacy_is_absent working None (Some (TStr "alice")) None bare
              eq_refl) as (Hsame & Hnone & Hsecrets).
  split; [exact Hsame|]. split.
  - apply Hnone; reflexivity.
  - apply (Hsecrets _ [("username", TStr "alice")]); [reflexivity..|].
    right. reflexivity.
Defined.

End ResolverClaims.

Section ResolverFrame.
Import Text Store Streamlit World Scripts App Spec Examples.
Variable c : collaborators.




End ResolverFrame.

Section NotFound.
Import Text Store Streamlit World Scripts App Spec Examples.
Variable c : collaborators.

Lemma get_kaggle_credentials_returns sec :
  ∃ t, get_kaggle_credentials sec = Ok t.
Proof.
  unfold get_kaggle_credentials, try_except, bind_result.
  destruct (secrets_body sec) as [[t|]|e]; simpl; eauto.
Qed.

(** C9, as amended.  The secrets lookup of the application never
    raises, and with no credentials in the secrets it returns
    [(None, None, None)].  The resolver of the download script does
    raise when no source matches: a [ValueError] that names the ways to
    provide credentials, the environment untouched.  The handler of the
    download button catches it before any call to the Kaggle client,
    sets the status to [not_started] and shows the text as an error. *)
Theorem not_found_raises_and_is_surfaced w :
  get_kaggle_credentials (st_secrets c) = Ok (None, None, None) →
  mkdir_raw c = Ok tt →
  kaggle_import c = Ok tt →
  opt_truthy (environ w !! "KAGGLE_API_TOKEN") = false →
  opt_truthy (environ w !! "KAGGLE_USERNAME")
    && opt_truthy (environ w !! "KAGGLE_KEY") = false →
  kaggle_json w = false →
  (∀ sec, ∃ t, get_kaggle_credentials sec = Ok t) ∧
  setup_kaggle_credentials c None None None w
    = (Raise (Exn ValueError credentials_not_found), w) ∧
  ∃ w', download_handler c w = (Ok tt, w') ∧
        ss_pipeline_status (session w') = Some not_started ∧
        ui w' = (ui w ++ [st_spinner "Downloading dataset from Kaggle...";
                          st_text "Downloading data from Kaggle...";
                          st_error ("❌ Error: " +:+ credentials_not_found);
                          st_info hint_credentials])%list ∧
        calls w' = calls w ∧
        environ w' = environ w.
Proof.
  intros Hsec Hmk Himp Htok Hleg Hjson.
  split; [apply get_kaggle_credentials_returns|].
  split; [by apply setup_not_found|].
  eexists. split.
  - apply (handler_failure (download_body c) _ _
             (Exn ValueError credentials_not_found)); [|reflexivity].
    apply (download_body_raises c None None None); [exact Hsec|].
    unfold download_and_load_data, download_kaggle_dataset, bind, lift,
      print, modify.
    rewrite Hmk, Himp. cbv beta iota.
    rewrite setup_not_found; [reflexivity | reflexivity | reflexivity | ..];
      by destruct w.
  - destruct w; simpl. rewrite <- !app_assoc. done.
Qed.

End NotFound.

Section NotFoundWitness.
Import Text Store Streamlit World Scripts App Spec Examples.

Lemma not_found_raises_and_is_surfaced_witness :
  get_kaggle_credentials (st_secrets working) = Ok (None, None, None) ∧
  kaggle_json bare = false ∧
  setup_kaggle_credentials working None None None bare
    = (Raise (Exn ValueError credentials_not_found), bare) ∧
  ∃ w', download_handler working bare = (Ok tt, w') ∧
        ss_pipeline_status (session w') = Some not_started ∧
        calls w' = [].
Proof.
  split; [reflexivity|]. split; [reflexivity|].
  destruct (not_found_raises_and_is_surfaced working bare)
    as (_ & Hsetup & w' & Hh & Hst & _ & Hcalls & _); try reflexivity.
  split; [exact Hsetup|]. exists w'. auto.
Defined.

(** C9 as the spec states it fails: with no credential source at all
    the resolver does not return, it raises. *)
Lemma setup_not_found_counterexample :
  setup_kaggle_credentials working None None None bare
    = (Raise (Exn ValueError credentials_not_found), bare) ∧
  ¬ (∃ w', setup_kaggle_credentials working None None None bare = (Ok tt, w')).
Proof.
  assert (setup_kaggle_credentials working None None None bare
          = (Raise (Exn ValueError credentials_not_found), bare)) as H
    by reflexivity.
  split; [exact H|]. intros [w' Hw']. rewrite H in Hw'. discriminate Hw'.
Qed.

End NotFoundWitness.

(** ** The load stage *)

Section LoadTables.
Import Text Store Spec.
Variable schema : string.

Lemma load_tables_cons name file files m :
  load_tables schema ((name, file) :: files) m
    = load_tables schema files
        (match file with
         | Ok rows => <[(schema, fold_case (stem name)) := rows]> m
         | Raise _ => m
         end).
Proof. reflexivity. Qed.

Lemma all_readable_cons name file files :
  all_readable ((name, file) :: files) →
  (∃ rows, file = Ok rows) ∧ is_identifier (stem name) = true ∧
  all_readable files.
Proof.
  intros H. destruct (H name file) as [Hrows Hid]; [left|].
  split; [exact Hrows|]. split; [exact Hid|].
  intros n f Hin. apply (H n). by right.
Qed.

(** A table that no file is loaded into is left as it was. *)
Lemma load_tables_lookup_other files m k :
  k ∉ table_keys schema files → load_tables schema files m !! k = m !! k.
Proof.
  revert m. induction files as [|[name file] files IH]; intros m Hk; [done|].
  rewrite load_tables_cons. simpl in Hk.
  apply not_elem_of_cons in Hk as [Hne Hk]. rewrite (IH _ Hk).
  destruct file; [|done]. by rewrite lookup_insert_ne.
Qed.

(** A table that some file is loaded into does not depend on what
    the database held before. *)
Lemma load_tables_lookup_loaded files m m' k :
  all_readable files → k ∈ table_keys schema files →
  load_tables schema files m !! k = load_tables schema files m' !! k.
Proof.
  revert m m'. induction files as [|[name file] files IH]; intros m m' Hok Hk.
  - by apply elem_of_nil in Hk.
  - apply all_readable_cons in Hok as ([rows ->] & _ & Hok).
    rewrite !load_tables_cons.
    destruct (decide (k ∈ table_keys schema files)) as [Hin|Hout].
    + by apply IH.
    + rewrite !(load_tables_lookup_other _ _ _ Hout).
      simpl in Hk. apply elem_of_cons in Hk as [-> | Hin]; [|done].
      by rewrite !lookup_insert_eq.
Qed.

(** Overwrite: loading [files'] after [files] gives what loading
    [files'] alone gives, when [files'] covers the tables of [files]. *)
Lemma load_tables_overwrite files files' m :
  all_readable files' →
  (∀ k, k ∈ table_keys schema files → k ∈ table_keys schema files') →
  load_tables schema files' (load_tables schema files m)
    = load_tables schema files' m.
Proof.
  intros Hok Hsub. apply map_eq. intros k.
  destruct (decide (k ∈ table_keys schema files')) as [Hin|Hout].
  - by apply load_tables_lookup_loaded.
  - rewrite !(load_tables_lookup_other _ _ _ Hout).
    apply load_tables_lookup_other. intros Hk. apply Hout, Hsub, Hk.
Qed.

Lemma load_tables_dom files m :
  all_readable files →
  dom (load_tables schema files m)
    = dom m ∪ list_to_set (table_keys schema files).
Proof.
  revert m. induction files as [|[name file] files IH]; intros m Hok.
  - simpl. set_solver.
  - apply all_readable_cons in Hok as ([rows ->] & _ & Hok).
    rewrite load_tables_cons, (IH _ Hok), dom_insert_L. simpl. set_solver.
Qed.

(** A table takes the rows of the files loaded into it, when these
    all have the same rows. *)
Lemma load_tables_lookup_stem files m t rows :
  (schema, t) ∈ table_keys schema files →
  (∀ name file, (name, file) ∈ files → fold_case (stem name) = t →
                file = Ok rows) →
  load_tables schema files m !! (schema, t) = Some rows.
Proof.
  revert m. induction files as [|[n f] files IH]; intros m Hin Huniq.
  - by apply elem_of_nil in Hin.
  - rewrite load_tables_cons.
    destruct (decide ((schema, t) ∈ table_keys schema files)) as [Hk|Hk].
    + apply IH; [exact Hk|]. intros n2 f2 Hin2. apply Huniq. by right.
    + rewrite (load_tables_lookup_other _ _ _ Hk).
      apply elem_of_cons in Hin as [[= ->] | Hin]; [|done].
      rewrite (Huniq n f); [|by left|done]. by rewrite lookup_insert_eq.
Qed.

End LoadTables.

Section Steps.
Import Text Store Streamlit World Scripts Spec.

Lemma bind_ok {S A B} (m : ST S A) (k : A → ST S B) s a s1 :
  m s = (Ok a, s1) → bind m k s = k a s1.
Proof. intros H. unfold bind. by rewrite H. Qed.

Lemma bind_raise {S A B} (m : ST S A) (k : A → ST S B) s e s1 :
  m s = (Raise e, s1) → bind m k s = (Raise e, s1).
Proof. intros H. unfold bind. by rewrite H. Qed.

Lemma execute_ok stmt w d d' :
  db w = Some (Healthy d) → stmt d = Ok d' →
  execute stmt w = (Ok tt, set_db (λ _, Some (Healthy d')) w).
Proof.
  intros Hdb Hstmt. unfold execute, bind, get, lift, modify.
  cbv beta iota. rewrite Hdb. cbv beta iota. by rewrite Hstmt.
Qed.

Lemma query_ok {A} (q : database → result A) w d a :
  db w = Some (Healthy d) → q d = Ok a → query q w = (Ok a, w).
Proof.
  intros Hdb Hq. unfold query, bind, get, lift. cbv beta iota.
  rewrite Hdb. by rewrite Hq.
Qed.

Lemma connect_ok w d :
  opened (db w) = Some d →
  ∃ w', connect w = (Ok tt, w') ∧ db w' = Some (Healthy d) ∧
        raw_dir w' = raw_dir w.
Proof.
  intros Hop. unfold connect, bind, get, modify, ret. cbv beta iota.
  destruct (db w) as [[d0|e]|] eqn:Hdb; simpl in Hop; simplify_eq.
  - exists w. by rewrite Hdb.
  - eexists. split; [reflexivity|]. by destruct w.
Qed.

Lemma db_set_db g w : db (set_db g w) = g (db w).
Proof. by destruct w. Qed.
Lemma db_set_stdout g w : db (set_stdout g w) = db w.
Proof. by destruct w. Qed.
Lemma db_set_raw_dir g w : db (set_raw_dir g w) = db w.
Proof. by destruct w. Qed.
Lemma raw_dir_set_stdout g w : raw_dir (set_stdout g w) = raw_dir w.
Proof. by destruct w. Qed.
Lemma raw_dir_set_db g w : raw_dir (set_db g w) = raw_dir w.
Proof. by destruct w. Qed.
Lemma raw_dir_set_raw_dir g w : raw_dir (set_raw_dir g w) = g (raw_dir w).
Proof. by destruct w. Qed.

End Steps.

Section LoadStage.
Import Text Store Streamlit World Scripts Spec.

Lemma load_files_ok schema files w d :
  db w = Some (Healthy d) →
  schema ∈ schemas d →
  all_readable files →
  ∃ w', load_files schema files w = (Ok tt, w') ∧
        db w' = Some (Healthy {| schemas := schemas d;
                                 tables := load_tables schema files (tables d) |}).
Proof.
  revert w d. induction files as [|[name file] files IH]; intros w d Hdb Hs Hok.
  - exists w. split; [reflexivity|]. rewrite Hdb. by destruct d.
  - apply all_readable_cons in Hok as ([rows ->] & Hid & Hok).
    rewrite load_tables_cons. simpl.
    set (d' := {| schemas := schemas d;
                  tables := <[(schema, fold_case (stem name)) := rows]> (tables d) |}).
    rewrite (bind_ok _ _ _ _ _
               (execute_ok (create_or_replace_table schema (stem name) (Ok rows))
                  w d d' Hdb
                  ltac:(unfold create_or_replace_table; rewrite Hid; simpl;
                        by destruct (decide (schema ∈ schemas d))))).
    rewrite (bind_ok _ _ _ _ _
               (query_ok (select_count schema (stem name)) _ d' (length rows)
                  (db_set_db _ w)
                  ltac:(unfold select_count; simpl;
                        by rewrite lookup_insert_eq))).
    unfold bind at 1, print, modify. cbv beta iota.
    apply (IH _ d'); [|exact Hs|exact Hok].
    by rewrite db_set_stdout, db_set_db.
Qed.

Lemma print_ok text w :
  print text w = (Ok tt, set_stdout (λ out, (out ++ [text])%list) w).
Proof. reflexivity. Qed.

(** The statements from [duckdb.connect] to the end of the loop. *)
Lemma load_sequence_ok schema files w d0 :
  opened (db w) = Some d0 →
  all_readable files →
  ∃ w', (connect;;
         execute (λ d, Ok (create_schema_if_not_exists schema d));;
         load_files schema files) w = (Ok tt, w') ∧
        db w' = Some (Healthy {| schemas := {[ schema ]} ∪ schemas d0;
                                 tables := load_tables schema files (tables d0) |}).
Proof.
  intros Hop Hok.
  destruct (connect_ok w d0 Hop) as (w1 & Hc & Hdb1 & _).
  rewrite (bind_ok _ _ _ _ _ Hc).
  rewrite (bind_ok _ _ _ _ _
             (execute_ok (λ d, Ok (create_schema_if_not_exists schema d))
                w1 d0 _ Hdb1 eq_refl)).
  apply (load_files_ok schema files _ (create_schema_if_not_exists schema d0));
    [by rewrite db_set_db | simpl; set_solver | exact Hok].
Qed.

Lemma bind_assoc {S A B C} (m : ST S A) (k : A → ST S B) (h : B → ST S C) s :
  bind (bind m k) h s = bind m (λ a, bind (k a) h) s.
Proof. unfold bind. by destruct (m s) as [[a|e] s1]. Qed.

Lemma load_csv_to_duckdb_ok csv_dir db_path schema w d0 :
  glob_csv (raw_dir w) ≠ [] →
  all_readable (sorted (glob_csv (raw_dir w))) →
  opened (db w) = Some d0 →
  ∃ w', load_csv_to_duckdb csv_dir db_path schema w = (Ok tt, w') ∧
        db w' = Some (Healthy
                  {| schemas := {[ schema ]} ∪ schemas d0;
                     tables := load_tables schema (sorted (glob_csv (raw_dir w)))
                                 (tables d0) |}).
Proof.
  intros Hne Hok Hop. unfold load_csv_to_duckdb.
  rewrite (bind_ok get _ w w w eq_refl).
  destruct (glob_csv (raw_dir w)) as [|file files] eqn:Hglob; [done|].
  rewrite (bind_ok _ _ _ _ _ (print_ok _ _)).
  rewrite (bind_ok _ _ _ _ _ (print_ok _ _)).
  match goal with |- context [bind connect _ ?w2] =>
    destruct (load_sequence_ok schema (sorted (file :: files)) w2 d0)
      as (w' & Hseq & Hdb') end;
    [by rewrite !db_set_stdout | exact Hok |].
  unfold bind in Hseq |- *.
  match type of Hseq with
  | match ?x with _ => _ end = _ => destruct x as [[[]|e] w3]
  end; [|discriminate Hseq].
  match type of Hseq with
  | match ?x with _ => _ end = _ => destruct x as [[[]|e] w4]
  end; [|discriminate Hseq].
  rewrite Hseq. unfold print, modify. eexists. split; [reflexivity|].
  by rewrite db_set_stdout.
Qed.

Lemma load_raw_data_ok c w d0 :
  glob_csv (raw_dir w) ≠ [] →
  all_readable (sorted (glob_csv (raw_dir w))) →
  opened (db w) = Some d0 →
  ∃ w', load_raw_data c w = (Ok tt, w') ∧
        db w' = Some (Healthy
                  {| schemas := {[ "raw" ]} ∪ schemas d0;
                     tables := load_tables "raw" (sorted (glob_csv (raw_dir w)))
                                 (tables d0) |}).
Proof.
  intros Hne Hok Hop. unfold load_raw_data.
  rewrite (bind_ok get _ w w w eq_refl).
  destruct (glob_csv (raw_dir w)) as [|file files] eqn:Hglob; [done|].
  rewrite (bind_ok _ _ _ _ _ (print_ok _ _)).
  match goal with |- context [bind connect _ ?w2] =>
    destruct (load_sequence_ok "raw" (sorted (file :: files)) w2 d0)
      as (w' & Hseq & Hdb') end;
    [by rewrite !db_set_stdout | exact Hok |].
  unfold bind in Hseq |- *.
  match type of Hseq with
  | match ?x with _ => _ end = _ => destruct x as [[[]|e] w3]
  end; [|discriminate Hseq].
  match type of Hseq with
  | match ?x with _ => _ end = _ => destruct x as [[[]|e] w4]
  end; [|discriminate Hseq].
  rewrite Hseq. unfold print, modify. eexists. split; [reflexivity|].
  by rewrite db_set_stdout.
Qed.

Lemma elem_of_sorted_glob dir name file :
  (name, file) ∈ sorted (glob_csv (Some dir)) ↔
  dir !! name = Some file ∧ ends_with ".csv" name = true.
Proof.
  unfold sorted. rewrite merge_sort_Permutation. unfold glob_csv.
  rewrite list_elem_of_filter, elem_of_map_to_list. simpl. tauto.
Qed.

End LoadStage.

Section FileNames.
Import Text Store Spec.

Lemma rfind_dot_csv base :
  rfind "."%char (base +:+ ".csv") = Some (String.length base).
Proof. induction base as [|ch base IH]; [reflexivity|]. simpl. by rewrite IH. Qed.

Lemma length_app_csv base :
  String.length (base +:+ ".csv") = (String.length base + 4)%nat.
Proof. induction base as [|ch base IH]; [reflexivity|]. simpl. by rewrite IH. Qed.

Lemma substring_prefix base s :
  String.substring 0 (String.length base) (base +:+ s) = base.
Proof.
  induction base as [|ch base IH]; simpl; [by destruct s|]. by rewrite IH.
Qed.

Lemma ends_with_app_csv base : ends_with ".csv" (base +:+ ".csv") = true.
Proof.
  induction base as [|ch base IH]; [reflexivity|].
  change (String.eqb ".csv" (String ch base +:+ ".csv")
          || ends_with ".csv" (base +:+ ".csv") = true).
  rewrite IH. apply orb_true_r.
Qed.

Lemma stem_app_csv base : base ≠ "" → stem (base +:+ ".csv") = base.
Proof.
  intros Hne. unfold stem. rewrite rfind_dot_csv, length_app_csv.
  assert (((0 <? String.length base)
           && (String.length base <? String.length base + 4 - 1))%nat = true)
    as ->.
  { destruct base as [|ch base]; [done|].
    apply andb_true_intro. split; apply Nat.ltb_lt; simpl; lia. }
  apply substring_prefix.
Qed.

Lemma ends_with_csv_inv name :
  ends_with ".csv" name = true → ∃ base, name = base +:+ ".csv".
Proof.
  induction name as [|a name IH]; [discriminate|].
  change (String.eqb ".csv" (String a name) || ends_with ".csv" name = true
          → ∃ base, String a name = base +:+ ".csv").
  destruct (String.eqb ".csv" (String a name)) eqn:E.
  - apply String.eqb_eq in E. intros _. exists "". by rewrite <- E.
  - simpl. intros H. destruct (IH H) as [base ->]. by exists (String a base).
Qed.

Lemma app_csv_inj base base' :
  base' +:+ ".csv" = base +:+ ".csv" → base' = base.
Proof.
  intros H. pose proof (f_equal String.length H) as Hlen.
  rewrite !length_app_csv in Hlen.
  rewrite <- (substring_prefix base' ".csv"), <- (substring_prefix base ".csv").
  rewrite H. f_equal. lia.
Qed.

(** In a directory whose CSV files can all be loaded, the file
    [<base>.csv] has the stem [<base>], a plain identifier. *)
Lemma readable_base dir base file :
  readable dir → dir !! (base +:+ ".csv") = Some file →
  is_identifier base = true ∧ stem (base +:+ ".csv") = base ∧
  ∃ rows, file = Ok rows.
Proof.
  intros Hr Hl. destruct (Hr _ _ Hl (ends_with_app_csv base)) as [Hrows Hid].
  destruct base as [|a base]; [discriminate Hid|].
  rewrite stem_app_csv in Hid by done.
  split; [exact Hid|]. split; [by apply stem_app_csv|exact Hrows].
Qed.

End FileNames.

Section LoadClaims.
Import Text Store Streamlit World Scripts Spec Examples.

Lemma readable_all_readable dir :
  readable dir → all_readable (sorted (glob_csv (Some dir))).
Proof.
  intros Hr name file Hin. apply elem_of_sorted_glob in Hin as [Hl He].
  by apply (Hr name).
Qed.

Lemma table_keys_glob schema dir k :
  k ∈ table_keys schema (sorted (glob_csv (Some dir))) ↔
  ∃ name, name ∈ dom dir ∧ ends_with ".csv" name = true ∧
          k = (schema, fold_case (stem name)).
Proof.
  unfold table_keys. rewrite list_elem_of_fmap. split.
  - intros ([name file] & -> & Hin). apply elem_of_sorted_glob in Hin as [Hl He].
    exists name. split; [|done]. apply elem_of_dom. eauto.
  - intros (name & Hdom & He & ->). apply elem_of_dom in Hdom as [file Hl].
    exists (name, file). split; [done|]. by apply elem_of_sorted_glob.
Qed.

(** The tables of a directory whose files can all be loaded, by the
    base names of the files. *)
Lemma table_keys_base schema dir s t :
  readable dir →
  (s, t) ∈ table_keys schema (sorted (glob_csv (Some dir))) ↔
  s = schema ∧ ∃ base, (base +:+ ".csv") ∈ dom dir ∧ t = fold_case base.
Proof.
  intros Hr. rewrite table_keys_glob. split.
  - intros (name & Hdom & He & [= -> ->]). split; [done|].
    destruct (ends_with_csv_inv name He) as [base ->].
    apply elem_of_dom in Hdom as [file Hl].
    destruct (readable_base dir base file Hr Hl) as (_ & -> & _).
    exists base. split; [|done]. apply elem_of_dom. eauto.
  - intros (-> & base & Hdom & ->).
    pose proof Hdom as Hdom'. apply elem_of_dom in Hdom' as [file Hl].
    destruct (readable_base dir base file Hr Hl) as (_ & Hstem & _).
    exists (base +:+ ".csv"). split; [exact Hdom|].
    split; [apply ends_with_app_csv|]. by rewrite Hstem.
Qed.

Lemma glob_csv_nonempty dir dir' :
  dom dir' = dom dir → glob_csv (Some dir) ≠ [] → glob_csv (Some dir') ≠ [].
Proof.
  intros Hdom Hne Hnil.
  destruct (glob_csv (Some dir)) as [|[name file] files] eqn:Hglob; [done|].
  assert ((name, file) ∈ glob_csv (Some dir)) as Hin by (rewrite Hglob; left).
  unfold glob_csv in Hin. apply list_elem_of_filter in Hin as [He Hin].
  apply elem_of_map_to_list in Hin. simpl in *.
  assert (name ∈ dom dir') as Hd by (rewrite Hdom; apply elem_of_dom; eauto).
  apply elem_of_dom in Hd as [file' Hl'].
  assert ((name, file') ∈ glob_csv (Some dir')) as Hin'.
  { unfold glob_csv. apply list_elem_of_filter. split; [done|].
    by apply elem_of_map_to_list. }
  rewrite Hnil in Hin'. by apply elem_of_nil in Hin'.
Qed.

(** C6, as amended.  For a directory whose CSV files can all be read
    and have plain identifiers as base names: loading it and loading it
    again, with the same files holding possibly other rows, succeeds
    both times; the second load adds no table; the tables of the raw
    schema that the loads make are exactly those named by the base
    names of the files, up to the case of the letters; the table of the
    file [<base>.csv] is [raw.<base>], and it holds the rows of that
    file as read by the second load, never more, when no other file of
    the directory has the same base name up to case; the database is the
    one that the second load alone would have given.  Loading the same
    files twice gives the database of loading them once.
    [load_raw_data] leaves the same database as [load_csv_to_duckdb]. *)
Theorem reload_overwrites c csv_dir db_path w dir dir' d0 :
  raw_dir w = Some dir →
  opened (db w) = Some d0 →
  readable dir →
  readable dir' →
  dom dir' = dom dir →
  glob_csv (Some dir) ≠ [] →
  ∃ w1 w2 d1 d2,
    load_csv_to_duckdb csv_dir db_path "raw" w = (Ok tt, w1) ∧
    db w1 = Some (Healthy d1) ∧
    load_csv_to_duckdb csv_dir db_path "raw" (set_raw_dir (λ _, Some dir') w1)
      = (Ok tt, w2) ∧
    db w2 = Some (Healthy d2) ∧
    dom (tables d2) = dom (tables d1) ∧
    size (tables d2) = size (tables d1) ∧
    schemas d2 = schemas d1 ∧
    (∀ s t, (s, t) ∈ dom (tables d2) ↔
            (s, t) ∈ dom (tables d0) ∨
            s = "raw" ∧ ∃ base, (base +:+ ".csv") ∈ dom dir' ∧ t = fold_case base) ∧
    (∀ base rows,
       dir' !! (base +:+ ".csv") = Some (Ok rows) →
       (∀ base', (base' +:+ ".csv") ∈ dom dir' →
                 fold_case base' = fold_case base → base' = base) →
       tables d2 !! ("raw", fold_case base) = Some rows ∧
       select_count "raw" base d2 = Ok (length rows)) ∧
    db w2 = db (load_csv_to_duckdb csv_dir db_path "raw"
                  (set_raw_dir (λ _, Some dir') w)).2 ∧
    (dir' = dir → db w2 = db w1) ∧
    db (load_raw_data c w).2 = db w1.
Proof.
  intros Hraw Hop Hr Hr' Hdom Hne.
  pose proof (readable_all_readable dir Hr) as Hok.
  pose proof (readable_all_readable dir' Hr') as Hok'.
  pose proof (glob_csv_nonempty dir dir' Hdom Hne) as Hne'.
  set (L := sorted (glob_csv (Some dir))) in *.
  set (L' := sorted (glob_csv (Some dir'))) in *.
  assert (Hkeys : ∀ k, k ∈ table_keys "raw" L ↔ k ∈ table_keys "raw" L').
  { intros k. unfold L, L'. rewrite !table_keys_glob. by rewrite Hdom. }
  (* the first load *)
  destruct (load_csv_to_duckdb_ok csv_dir db_path "raw" w d0)
    as (w1 & Hload1 & Hdb1); [by rewrite Hraw..|exact Hop|].
  rewrite Hraw in Hdb1. fold L in Hdb1.
  set (d1 := {| schemas := {[ "raw" ]} ∪ schemas d0;
                tables := load_tables "raw" L (tables d0) |}) in *.
  (* the second load *)
  destruct (load_csv_to_duckdb_ok csv_dir db_path "raw"
              (set_raw_dir (λ _, Some dir') w1) d1)
    as (w2 & Hload2 & Hdb2);
    [by rewrite raw_dir_set_raw_dir.. | by rewrite db_set_raw_dir, Hdb1 |].
  rewrite raw_dir_set_raw_dir in Hdb2. fold L' in Hdb2.
  set (d2 := {| schemas := {[ "raw" ]} ∪ schemas d1;
                tables := load_tables "raw" L' (tables d1) |}) in *.
  (* the second load alone *)
  destruct (load_csv_to_duckdb_ok csv_dir db_path "raw"
              (set_raw_dir (λ _, Some dir') w) d0)
    as (w3 & Hload3 & Hdb3);
    [by rewrite raw_dir_set_raw_dir.. | by rewrite db_set_raw_dir |].
  rewrite raw_dir_set_raw_dir in Hdb3. fold L' in Hdb3.
  (* [load_raw_data] *)
  destruct (load_raw_data_ok c w d0) as (w4 & Hload4 & Hdb4);
    [by rewrite Hraw..|exact Hop|].
  rewrite Hraw in Hdb4. fold L in Hdb4.
  assert (Htables : tables d2 = load_tables "raw" L' (tables d0)).
  { simpl. apply load_tables_overwrite; [exact Hok'|]. intros k. apply Hkeys. }
  assert (Hschemas : schemas d2 = schemas d1) by (simpl; set_solver).
  assert (Hdomeq : dom (tables d2) = dom (tables d1)).
  { rewrite Htables. simpl. rewrite !load_tables_dom by done.
    f_equal. apply set_eq. intros k. rewrite !elem_of_list_to_set. apply symmetry, Hkeys. }
  exists w1, w2, d1, d2.
  split; [exact Hload1|]. split; [exact Hdb1|].
  split; [exact Hload2|]. split; [exact Hdb2|].
  split; [exact Hdomeq|].
  split; [by rewrite <- !size_dom, Hdomeq|].
  split; [exact Hschemas|].
  split; [|split; [|split; [|split]]].
  - intros s t. rewrite Htables, load_tables_dom by exact Hok'.
    rewrite elem_of_union, elem_of_list_to_set. unfold L'.
    by rewrite (table_keys_base "raw" dir' s t Hr').
  - intros base rows Hl Huniq.
    destruct (readable_base dir' base _ Hr' Hl) as (_ & Hstem & _).
    assert (tables d2 !! ("raw", fold_case base) = Some rows) as Hlook.
    { simpl. apply load_tables_lookup_stem.
      - apply list_elem_of_fmap. exists (base +:+ ".csv", Ok rows).
        split; [simpl; by rewrite Hstem|].
        apply elem_of_sorted_glob. split; [exact Hl|apply ends_with_app_csv].
      - intros n f Hin Hfold. apply elem_of_sorted_glob in Hin as [Hl2 He2].
        destruct (ends_with_csv_inv n He2) as [base' ->].
        destruct (readable_base dir' base' f Hr' Hl2) as (_ & Hstem' & _).
        rewrite Hstem' in Hfold.
        assert (base' = base) as ->
          by (apply Huniq; [apply elem_of_dom; eauto|exact Hfold]).
        pose proof (eq_trans (eq_sym Hl2) Hl) as Heq. by injection Heq. }
    split; [exact Hlook|]. unfold select_count. by rewrite Hlook.
  - rewrite Hload3. simpl. rewrite Hdb2, Hdb3. do 2 f_equal.
    destruct d2 as [s2 t2]. simpl in *. rewrite Htables. f_equal. set_solver.
  - intros ->. rewrite Hdb2, Hdb1. do 2 f_equal.
    destruct d2 as [s2 t2]. simpl in *. subst d1. f_equal; [set_solver|].
    rewrite Htables. reflexivity.
  - rewrite Hload4. simpl. by rewrite Hdb4, Hdb1.
Qed.

End LoadClaims.

Section LoadWitness.
Import Text Store Streamlit World Scripts App Spec Examples.

Lemma singleton_readable name rows :
  is_identifier (stem name) = true → readable {[ name := Ok rows ]}.
Proof.
  intros Hid n file Hl _. apply lookup_singleton_Some in Hl as [<- <-]. eauto.
Qed.

Lemma reload_overwrites_witness :
  raw_dir downloaded = Some orders_dir ∧
  opened (db downloaded) = Some empty_database ∧
  readable orders_dir ∧
  readable orders_dir_updated ∧
  dom orders_dir_updated = dom orders_dir ∧
  glob_csv (Some orders_dir) ≠ [] ∧
  ∃ w1 w2 d1 d2,
    load_csv_to_duckdb "/app/data/raw" "/app/ecommerce.duckdb" "raw" downloaded
      = (Ok tt, w1) ∧
    db w1 = Some (Healthy d1) ∧
    load_csv_to_duckdb "/app/data/raw" "/app/ecommerce.duckdb" "raw"
      (set_raw_dir (λ _, Some orders_dir_updated) w1) = (Ok tt, w2) ∧
    db w2 = Some (Healthy d2) ∧
    size (tables d2) = size (tables d1) ∧
    tables d2 !! ("raw", "orders") = Some [["9"; "z"]] ∧
    select_count "raw" "orders" d2 = Ok 1%nat.
Proof.
  assert (glob_csv (Some orders_dir) ≠ []) as Hne by (vm_compute; discriminate).
  assert (dom orders_dir_updated = dom orders_dir) as Hdom
    by (unfold orders_dir_updated, orders_dir; by rewrite !dom_singleton_L).
  assert (readable orders_dir) as Hr by (by apply singleton_readable).
  assert (readable orders_dir_updated) as Hr' by (by apply singleton_readable).
  split; [reflexivity|]. split; [reflexivity|].
  split; [exact Hr|]. split; [exact Hr'|].
  split; [exact Hdom|]. split; [exact Hne|].
  destruct (reload_overwrites working "/app/data/raw" "/app/ecommerce.duckdb"
              downloaded orders_dir orders_dir_updated empty_database
              eq_refl eq_refl Hr Hr' Hdom Hne)
    as (w1 & w2 & d1 & d2 & H1 & Hd1 & H2 & Hd2 & _ & Hsize & _ & _ & Hrows & _).
  exists w1, w2, d1, d2.
  destruct (Hrows "orders" [["9"; "z"]]) as [Hlook Hcount].
  - reflexivity.
  - intros base' Hin _. unfold orders_dir_updated in Hin.
    rewrite dom_singleton_L in Hin. apply elem_of_singleton in Hin.
    by apply app_csv_inj.
  - auto 10.
Defined.

(** C6 as the spec states it fails on two files whose base names differ
    in the case of a letter only: after loading the directory twice
    there is one table for the two files, and the table named by the
    base name of [Orders.csv], a file of one row, holds the two rows of
    [orders.csv]. *)
Lemma reload_overwrites_counterexample :
  let load := load_csv_to_duckdb "/app/data/raw" "/app/ecommerce.duckdb" "raw" in
  let r := load (load case_downloaded).2 in
  raw_dir case_downloaded = Some case_dir ∧
  case_dir !! "Orders.csv" = Some (Ok [["1"]]) ∧
  case_dir !! "orders.csv" = Some (Ok [["1"]; ["2"]]) ∧
  stem "Orders.csv" = "Orders" ∧
  (load case_downloaded).1 = Ok tt ∧
  r.1 = Ok tt ∧
  select_count "raw" "Orders" (default empty_database (opened (db r.2)))
    = Ok 2%nat ∧
  size (tables (default empty_database (opened (db r.2)))) = 1%nat.
Proof. vm_compute. repeat split. Qed.

(** A base name that is not a plain identifier: the statement for
    [a.b.csv] names the table [raw.a.b], DuckDB rejects it, and the load
    ends there with the database file created and no table in it. *)
Example dotted_name_is_rejected :
  let r := load_csv_to_duckdb "/app/data/raw" "/app/ecommerce.duckdb" "raw"
             dotted_downloaded in
  stem "a.b.csv" = "a.b" ∧
  is_identifier "a.b" = false ∧
  r.1 = Raise (rejected_name "a.b") ∧
  db r.2 = Some (Healthy {| schemas := {[ "raw" ]} ∪ ∅; tables := ∅ |}).
Proof. vm_compute. repeat split. Qed.

(** The end-to-end scenario of the spec: on a machine without
    anything, the download handler loads [orders.csv] with 3 rows and
    leaves the status [data_loaded]; the probe then reports not ready,
    data loaded; a process that starts on that database derives
    [not_started]. *)
Example download_then_probe :
  let w := (download_handler online bare).2 in
  ss_pipeline_status (session w) = Some data_loaded ∧
  select_count "raw" "orders"
    (default empty_database (opened (db w))) = Ok 3%nat ∧
  check_database_status (storage_of (db w)) = Ok (false, msg_data_loaded) ∧
  ss_pipeline_status (init_session_state (storage_of (db w)) fresh_session).2
    = Some not_started.
Proof. vm_compute. repeat split. Qed.

End LoadWitness.

Section TransformWitness.
Import Text Store Streamlit World Scripts App Spec Examples.

(** A dbt build that runs for 301 seconds, one that exits with code 1
    after 7 seconds, and one whose output cannot be decoded. *)
Lemma run_dbt_command_classifies_witness :
  (inject_Z 300 < inject_Z 301)%Q ∧
  (run_dbt_command slow_dbt "build" [] built).1 = Ok (false, msg_timeout) ∧
  (inject_Z 7 <= inject_Z 300)%Q ∧
  returncode dbt_failed ≠ 0 ∧
  (run_dbt_command offline "build" [] built).1
    = Ok (false, "Compilation Errorexit 1") ∧
  (run_dbt_command offline "build" [] built).1 ≠ Ok (false, msg_timeout) ∧
  (run_dbt_command garbled_dbt "build" [] built).1
    = Ok (false,
          "Error running dbt: 'utf-8' codec can't decode byte 0xff in position 0: invalid start byte").
Proof.
  assert (inject_Z 300 < inject_Z 301)%Q as Hslow by reflexivity.
  assert (inject_Z 7 <= inject_Z 300)%Q as Hfast by discriminate.
  assert (returncode dbt_failed ≠ 0) as Hrc by discriminate.
  destruct (run_dbt_command_classifies slow_dbt "build" [] built)
    as (_ & _ & Htimeout & _).
  destruct (run_dbt_command_classifies offline "build" [] built)
    as (_ & _ & _ & _ & _ & _ & _ & Hexit & _).
  destruct (run_dbt_command_classifies garbled_dbt "build" [] built)
    as (_ & _ & _ & _ & _ & Hdecode & _).
  destruct (Hexit (inject_Z 7) dbt_failed eq_refl Hfast Hrc) as [Hout Hsame].
  split; [exact Hslow|].
  split; [exact (Htimeout (inject_Z 301) dbt_ok eq_refl Hslow)|].
  split; [exact Hfast|]. split; [exact Hrc|]. split; [exact Hout|].
  split.
  - intros H. apply Hsame in H. discriminate H.
  - exact (Hdecode (inject_Z 7) 0 _ eq_refl Hfast).
Defined.

(** C5 as the spec states it fails twice.  A run that exits with code
    zero is reported as failed when its output cannot be decoded; and a
    run that exits with code 1 after printing the timeout sentence is
    reported exactly as a run that timed out. *)
Lemma run_dbt_command_classifies_counterexample :
  (∃ t reason,
     (run_process garbled_dbt (dbt_cmd garbled_dbt "build" []) (db built)).1
       = Undecodable t 0 reason ∧
     (t <= inject_Z 300)%Q ∧
     (run_dbt_command garbled_dbt "build" [] built).1
       = Ok (false, "Error running dbt: " +:+ reason)) ∧
  (run_process echoing_dbt (dbt_cmd echoing_dbt "build" []) (db built)).1
    = Exits (inject_Z 7) dbt_echo ∧
  returncode dbt_echo ≠ 0 ∧
  (run_process slow_dbt (dbt_cmd slow_dbt "build" []) (db built)).1
    = Exits (inject_Z 301) dbt_ok ∧
  (run_dbt_command echoing_dbt "build" [] built).1
    = (run_dbt_command slow_dbt "build" [] built).1.
Proof.
  split.
  - eexists _, _. split; [reflexivity|]. split; [discriminate|]. reflexivity.
  - split; [reflexivity|]. split; [discriminate|]. split; reflexivity.
Qed.

End TransformWitness.

(** * Further properties of the code *)

Section ProberMore.
Import DuckDB Store Streamlit App Spec Examples.

(** X1.  The probe reports ready only after it has opened the file,
    counted at least one table in the marts schema and closed the
    connection without error; and whenever it reports ready, its message
    is the ready message. *)
Theorem check_database_status_ready_iff db msg :
  check_database_status db = Ok (true, msg) ↔
  path_exists db = true ∧ msg = msg_ready ∧
  ∃ con raw marts,
    connect_read_only db = Ok con ∧
    count_tables con "raw" = Ok raw ∧
    count_tables con "marts" = Ok marts ∧
    close con = Ok tt ∧
    0 < marts.
Proof.
  unfold check_database_status, probe_body, bind_result, try_except.
  split.
  - destruct (path_exists db); simpl; [|discriminate].
    destruct (connect_read_only db) as [con|e] eqn:Hc; simpl.
    2: { destruct (is_Exception (exn_cls e)); discriminate. }
    destruct (count_tables con "raw") as [raw|e] eqn:Hr; simpl.
    2: { destruct (is_Exception (exn_cls e)); discriminate. }
    destruct (count_tables con "marts") as [marts|e] eqn:Hm; simpl.
    2: { destruct (is_Exception (exn_cls e)); discriminate. }
    destruct (close con) as [[]|e] eqn:Hcl; simpl.
    2: { destruct (is_Exception (exn_cls e)); discriminate. }
    destruct (0 <? marts) eqn:Hpos; [|destruct (0 <? raw); discriminate].
    intros [= <-]. split; [done|]. split; [done|].
    exists con, raw, marts. apply Z.ltb_lt in Hpos. done.
  - intros (Hex & -> & con & raw & marts & Hc & Hr & Hm & Hcl & Hpos).
    rewrite Hex, Hc. simpl. rewrite Hr, Hm, Hcl. simpl.
    apply Z.ltb_lt in Hpos. by rewrite Hpos.
Qed.



(** X3.  [init_session_state] only fills in what is missing.  When it
    returns, the three keys are present; a key that was present keeps
    its value, and with a status present the database is not probed at
    all; running it again, on whatever database, changes nothing. *)
Theorem init_session_state_fills_missing db s s' :
  init_session_state db s = (Ok tt, s') →
  (is_Some (ss_data_loaded s') ∧ is_Some (ss_dbt_built s') ∧
   is_Some (ss_pipeline_status s')) ∧
  (∀ b, ss_data_loaded s = Some b → ss_data_loaded s' = Some b) ∧
  (∀ b, ss_dbt_built s = Some b → ss_dbt_built s' = Some b) ∧
  (∀ p, ss_pipeline_status s = Some p → ss_pipeline_status s' = Some p) ∧
  (ss_data_loaded s = None → ss_data_loaded s' = Some false) ∧
  (ss_dbt_built s = None → ss_dbt_built s' = Some false) ∧
  (∀ db', init_session_state db' s' = (Ok tt, s')).
Proof.
  destruct s as [dl built st].
  unfold init_session_state, unless_present, bind, get, modify, lift, ret.
  simpl.
  destruct dl as [dl|], built as [built|], st as [st|]; simpl;
    try (intros [= <-]; simpl; repeat split; eauto; intros; congruence);
    destruct (path_exists db); simpl;
    try (intros [= <-]; simpl; repeat split; eauto; intros; congruence);
    destruct (check_database_status db) as [[[] msg]|e]; simpl;
    try discriminate;
    intros [= <-]; simpl; repeat split; eauto; intros; congruence.
Qed.

Lemma init_session_state_fills_missing_witness :
  init_session_state raw_only_storage (Session (Some true) None None)
    = (Ok tt, Session (Some true) (Some false) (Some not_started)) ∧
  init_session_state locked_storage
      (Session (Some true) (Some false) (Some not_started))
    = (Ok tt, Session (Some true) (Some false) (Some not_started)).
Proof.
  assert (init_session_state raw_only_storage (Session (Some true) None None)
          = (Ok tt, Session (Some true) (Some false) (Some not_started))) as H
    by (vm_compute; reflexivity).
  split; [exact H|].
  destruct (init_session_state_fills_missing _ _ _ H) as (_ & _ & _ & _ & _ & _ & Hid).
  apply Hid.
Defined.

End ProberMore.

Section TransformMore.
Import Text Store Streamlit World Scripts App Spec Examples.
Variable c : collaborators.

Lemma run_dbt_command_ui command args w :
  ui (run_dbt_command c command args w).2 = ui w.
Proof.
  rewrite run_dbt_command_unfold.
  destruct (run_process c _ _) as [[e | t p | t code reason | ] db']; simpl.
  - destruct (is_TimeoutExpired _); [by destruct w|].
    destruct (is_Exception _); by destruct w.
  - destruct (Qle_bool _ _); by destruct w.
  - destruct (Qle_bool _ _); by destruct w.
  - by destruct w.
Qed.

(** X4.  [run_dbt_command] starts exactly one process, with the command
    line [dbt <command> --profiles-dir <root>/dbt --project-dir
    <root>/dbt/ecommerce_analytics] followed by the extra arguments, and
    touches neither the session nor the page.  It never raises an
    [Exception]: a process that cannot be started (dbt is not installed)
    is reported as a failure whose text is [Error running dbt: ]
    followed by the text of the error. *)
Theorem run_dbt_command_launch command args w :
  let r := run_dbt_command c command args w in
  calls r.2 =
    (calls w ++
     [SubprocessRun
        (["dbt"; command;
          "--profiles-dir"; PROJECT_ROOT c +:+ "/" +:+ "dbt";
          "--project-dir";
          (PROJECT_ROOT c +:+ "/" +:+ "dbt") +:+ "/" +:+ "ecommerce_analytics"]
         ++ args)])%list ∧
  session r.2 = session w ∧
  ui r.2 = ui w ∧
  (∀ e, r.1 = Raise e → is_Exception (exn_cls e) = false) ∧
  (∀ e, (run_process c (dbt_cmd c command args) (db w)).1 = CannotStart e →
        is_Exception (exn_cls e) = true →
        is_TimeoutExpired (exn_cls e) = false →
        r.1 = Ok (false, "Error running dbt: " +:+ exn_str e)).
Proof.
  intros r. subst r.
  split; [apply run_dbt_command_calls|].
  split; [apply run_dbt_command_session|].
  split; [apply run_dbt_command_ui|].
  rewrite run_dbt_command_unfold.
  destruct (run_process c _ _) as [[e | t p | t code reason | ] db']; simpl; split.
  - intros e'. destruct (is_TimeoutExpired _); [discriminate|].
    destruct (is_Exception (exn_cls e)) eqn:He; [discriminate|].
    by intros [= <-].
  - intros e' [= <-] He Ht. by rewrite Ht, He.
  - intros e'. destruct (Qle_bool _ _); discriminate.
  - intros e' H. discriminate H.
  - intros e'. destruct (Qle_bool _ _); discriminate.
  - intros e' H. discriminate H.
  - intros e' H. discriminate H.
  - intros e' H. discriminate H.
Qed.

(** X5.  When the dbt build succeeds, the build handler returns with the
    status [dbt_built] and the flag [dbt_built] set, the flag
    [data_loaded] as it was, and the output of dbt shown before the
    success message. *)
Theorem build_handler_success w out w1 :
  run_dbt_command c "build" []
    (set_ui (λ es, (es ++ [st_spinner "Running dbt build..."])%list) w)
    = (Ok (true, out), w1) →
  ∃ w', build_handler c w = (Ok tt, w') ∧
        ss_pipeline_status (session w') = Some dbt_built ∧
        ss_dbt_built (session w') = Some true ∧
        ss_data_loaded (session w') = ss_data_loaded (session w) ∧
        db w' = db w1 ∧
        ui w' = (ui w ++ [st_spinner "Running dbt build...";
                          st_expander "dbt Output"; st_code out "bash";
                          st_success "✅ dbt build completed successfully!"])%list.
Proof.
  intros Hrun.
  pose proof (run_dbt_command_session c "build" []
    (set_ui (λ es, (es ++ [st_spinner "Running dbt build..."])%list) w)) as Hs.
  pose proof (run_dbt_command_ui "build" []
    (set_ui (λ es, (es ++ [st_spinner "Running dbt build..."])%list) w)) as Hu.
  rewrite Hrun in Hs, Hu. simpl in Hs, Hu.
  unfold build_handler, bind, show, modify, set_status. cbv beta iota.
  rewrite Hrun. cbv beta iota. eexists. split; [reflexivity|].
  destruct w, w1; simpl in *. subst.
  repeat split. by rewrite <- !app_assoc.
Qed.

(** X6.  "Run Tests Only" never changes the session, whatever the tests
    do: the status and the two flags are as before, and exactly one
    [dbt test] process has been started. *)
Theorem test_handler_keeps_session w :
  session (test_handler c w).2 = session w ∧
  calls (test_handler c w).2
    = (calls w ++ [SubprocessRun (dbt_cmd c "test" [])])%list.
Proof.
  unfold test_handler, bind, show, modify. cbv beta iota.
  match goal with |- context [run_dbt_command c "test" [] ?w0] =>
    pose proof (run_dbt_command_session c "test" [] w0) as Hs;
    pose proof (run_dbt_command_calls c "test" [] w0) as Hc;
    destruct (run_dbt_command c "test" [] w0) as [[[success out]|e] w1]
  end; simpl in *.
  - destruct success; simpl; destruct w, w1; simpl in *; by subst.
  - destruct w, w1; simpl in *; by subst.
Qed.

End TransformMore.

Section TransformMoreWitness.
Import Text Store Streamlit World Scripts App Spec Examples.

Lemma run_dbt_command_launch_witness :
  (run_process no_dbt (dbt_cmd no_dbt "build" []) (db built)).1
    = CannotStart dbt_missing ∧
  is_Exception (exn_cls dbt_missing) = true ∧
  (run_dbt_command no_dbt "build" [] built).1
    = Ok (false, "Error running dbt: [Errno 2] No such file or directory: 'dbt'").
Proof.
  split; [reflexivity|]. split; [reflexivity|].
  destruct (run_dbt_command_launch no_dbt "build" [] built)
    as (_ & _ & _ & _ & Hlaunch).
  apply (Hlaunch dbt_missing); reflexivity.
Defined.

Lemma build_handler_success_witness :
  ss_pipeline_status (session downloaded) = None ∧
  ∃ w', build_handler working downloaded = (Ok tt, w') ∧
        ss_pipeline_status (session w') = Some dbt_built ∧
        ss_dbt_built (session w') = Some true.
Proof.
  split; [reflexivity|].
  destruct (build_handler_success working downloaded "Completed successfully"
              (run_dbt_command working "build" []
                 (set_ui (λ es, (es ++ [st_spinner "Running dbt build..."])%list)
                    downloaded)).2)
    as (w' & H & Hst & Hb & _).
  - vm_compute. reflexivity.
  - exists w'. auto.
Defined.

End TransformMoreWitness.

Section ResolverMore.
Import Text Store Streamlit World Scripts App Spec Examples.
Variable c : collaborators.

Ltac unfold_setup :=
  unfold setup_kaggle_credentials, setenv, getenv, print, bind, get,
    modify, raise, ret.

(** X7.  A token in the environment shadows explicit legacy parameters:
    without a token parameter and with [KAGGLE_API_TOKEN] set, the
    resolver returns with the environment as it was, whatever username
    and key it was given; they are not written. *)
Theorem env_token_shadows_legacy_parameters api_token username key w :
  truthy api_token = false →
  opt_truthy (environ w !! "KAGGLE_API_TOKEN") = true →
  setup_kaggle_credentials c api_token username key w
    = (Ok tt,
       set_stdout
         (λ out, (out ++ ["Using Kaggle API token from environment variable (new format)"])%list)
         w) ∧
  environ (setup_kaggle_credentials c api_token username key w).2 = environ w.
Proof.
  intros Ha He.
  assert (setup_kaggle_credentials c api_token username key w
    = (Ok tt,
       set_stdout
         (λ out, (out ++ ["Using Kaggle API token from environment variable (new format)"])%list)
         w)) as H.
  { unfold_setup. rewrite Ha. simpl. by rewrite He. }
  split; [exact H|]. rewrite H. by destruct w.
Qed.


(** X9.  The legacy pair is not written atomically.  When the username
    is accepted and the key is truthy but is not a string that the
    environment accepts, the resolver raises after [KAGGLE_USERNAME] has
    been written: the username stays in the environment, [KAGGLE_KEY]
    is as before. *)
Theorem legacy_pair_half_written api_token u key w :
  truthy api_token = false →
  opt_truthy (environ w !! "KAGGLE_API_TOKEN") = false →
  str_truthy u = true → has_nul u = false →
  truthy key = true →
  (∀ k, key = Some (TStr k) → has_nul k = true) →
  ∃ e, setup_kaggle_credentials c api_token (Some (TStr u)) key w
         = (Raise e, set_environ (insert "KAGGLE_USERNAME" u) w) ∧
       is_Exception (exn_cls e) = true ∧
       environ (set_environ (insert "KAGGLE_USERNAME" u) w) !! "KAGGLE_USERNAME"
         = Some u ∧
       environ (set_environ (insert "KAGGLE_USERNAME" u) w) !! "KAGGLE_KEY"
         = environ w !! "KAGGLE_KEY".
Proof.
  intros Ha He Hu Hnu Hk Hbad.
  assert (environ (set_environ (insert "KAGGLE_USERNAME" u) w) !! "KAGGLE_USERNAME"
         = Some u ∧
       environ (set_environ (insert "KAGGLE_USERNAME" u) w) !! "KAGGLE_KEY"
         = environ w !! "KAGGLE_KEY") as Henv.
  { destruct w; simpl. by rewrite lookup_insert_eq, lookup_insert_ne. }
  unfold_setup. rewrite Ha. simpl. rewrite He, Hu, Hk. simpl.
  rewrite Hnu. simpl.
  destruct key as [[k|z|b|items|entries]|]; simpl;
    try (eexists; split; [reflexivity|]; split; [reflexivity|]; exact Henv).
  rewrite (Hbad k eq_refl). simpl.
  eexists; split; [reflexivity|]; split; [reflexivity|]. exact Henv.
Qed.

(** X10.  The resolver ends with its not-found error exactly when no
    source matches: no truthy token parameter, no token in the
    environment, no complete explicit pair, no complete pair in the
    environment and no credentials file.  With only the credentials file
    it returns without touching the environment; a complete pair in the
    environment is preferred to the file. *)
Theorem setup_not_found_iff api_token username key w :
  let r := setup_kaggle_credentials c api_token username key w in
  (r.1 = Raise (Exn ValueError credentials_not_found) ↔
   truthy api_token = false ∧
   opt_truthy (environ w !! "KAGGLE_API_TOKEN") = false ∧
   truthy username && truthy key = false ∧
   opt_truthy (environ w !! "KAGGLE_USERNAME")
     && opt_truthy (environ w !! "KAGGLE_KEY") = false ∧
   kaggle_json w = false) ∧
  (truthy api_token = false →
   opt_truthy (environ w !! "KAGGLE_API_TOKEN") = false →
   truthy username && truthy key = false →
   r = (Ok tt,
        set_stdout
          (λ out,
             (out ++
              [if opt_truthy (environ w !! "KAGGLE_USERNAME")
                  && opt_truthy (environ w !! "KAGGLE_KEY")
               then "Using Kaggle credentials from environment variables (legacy format)"
               else "Using Kaggle credentials from " +:+ kaggle_json_path c])%list) w)
   ∨ (r = (Raise (Exn ValueError credentials_not_found), w) ∧
      opt_truthy (environ w !! "KAGGLE_USERNAME")
        && opt_truthy (environ w !! "KAGGLE_KEY") = false ∧
      kaggle_json w = false)).
Proof.
  intros r. subst r.
  assert (Hnul : Exn ValueError "embedded null byte"
                 ≠ Exn ValueError credentials_not_found).
  { intros H. vm_compute in H. discriminate H. }
  split; [split|].
  - unfold_setup.
    destruct (truthy api_token) eqn:Ha.
    { destruct api_token as [[t| | | |]|]; simpl; try discriminate.
      destruct (has_nul t); simpl; [|discriminate].
      intros H. exfalso. apply Hnul. congruence. }
    simpl.
    destruct (opt_truthy (environ w !! "KAGGLE_API_TOKEN")) eqn:He;
      [discriminate|].
    destruct (truthy username && truthy key) eqn:Hl.
    { destruct username as [[u| | | |]|]; simpl; try discriminate.
      destruct (has_nul u); simpl; [intros H; exfalso; apply Hnul; congruence|].
      destruct key as [[k| | | |]|]; simpl; try discriminate.
      destruct (has_nul k); simpl; [|discriminate].
      intros H. exfalso. apply Hnul. congruence. }
    simpl.
    destruct (opt_truthy (environ w !! "KAGGLE_USERNAME")
              && opt_truthy (environ w !! "KAGGLE_KEY")) eqn:Hel; [discriminate|].
    destruct (kaggle_json w) eqn:Hj; [discriminate|]. done.
  - intros (Ha & He & Hl & Hel & Hj).
    by rewrite (setup_not_found c api_token username key w Ha Hl He Hel Hj).
  - intros Ha He Hl. unfold_setup. rewrite Ha. simpl. rewrite He.
    destruct (truthy username && truthy key); [discriminate|]. simpl.
    destruct (opt_truthy (environ w !! "KAGGLE_USERNAME")
              && opt_truthy (environ w !! "KAGGLE_KEY")) eqn:Hel; [by left|].
    destruct (kaggle_json w) eqn:Hj; [by left | by right].
Qed.

End ResolverMore.

Section ResolverMoreWitness.
Import Text Store Streamlit World Scripts App Spec Examples.

Lemma env_token_shadows_legacy_parameters_witness :
  environ with_token_env !! "KAGGLE_USERNAME" = Some "alice" ∧
  (setup_kaggle_credentials working None (Some (TStr "bob")) (Some (TStr "k3y"))
     with_token_env).1 = Ok tt ∧
  environ (setup_kaggle_credentials working None (Some (TStr "bob"))
             (Some (TStr "k3y")) with_token_env).2 !! "KAGGLE_USERNAME"
    = Some "alice".
Proof.
  split; [reflexivity|].
  destruct (env_token_shadows_legacy_parameters working None (Some (TStr "bob"))
              (Some (TStr "k3y")) with_token_env eq_refl eq_refl) as [Hr Henv].
  split; [by rewrite Hr|]. by rewrite Henv.
Defined.


Lemma legacy_pair_half_written_witness :
  environ with_legacy_env !! "KAGGLE_USERNAME" = Some "alice" ∧
  ∃ e, setup_kaggle_credentials working None (Some (TStr "bob")) (Some (TInt 7))
         with_legacy_env
       = (Raise e, set_environ (insert "KAGGLE_USERNAME" "bob") with_legacy_env) ∧
       environ (set_environ (insert "KAGGLE_USERNAME" "bob") with_legacy_env)
         !! "KAGGLE_KEY" = Some "s3cret".
Proof.
  split; [reflexivity|].
  destruct (legacy_pair_half_written working None "bob" (Some (TInt 7))
              with_legacy_env eq_refl eq_refl eq_refl eq_refl eq_refl)
    as (e & Hr & _ & _ & Hk).
  - intros k H. discriminate H.
  - exists e. split; [exact Hr|]. rewrite Hk. reflexivity.
Defined.

End ResolverMoreWitness.

(** ** The load stage, whatever the files are *)

Section LoaderSteps.
Import Text Store Streamlit World Scripts App Spec.

Lemma glob_csv_nil dir :
  (∀ d name, dir = Some d → name ∈ dom d → ends_with ".csv" name = false) →
  glob_csv dir = [].
Proof.
  intros H. destruct (glob_csv dir) as [|[name file] l] eqn:Hg; [done|].
  assert ((name, file) ∈ glob_csv dir) as Hin by (rewrite Hg; left).
  unfold glob_csv in Hin. apply list_elem_of_filter in Hin as [He Hin].
  apply elem_of_map_to_list in Hin. simpl in *.
  destruct dir as [d|]; simpl in Hin.
  - rewrite (H d name eq_refl) in He; [discriminate|]. apply elem_of_dom. eauto.
  - by rewrite lookup_empty in Hin.
Qed.

Lemma execute_raise stmt w d e :
  db w = Some (Healthy d) → stmt d = Raise e → execute stmt w = (Raise e, w).
Proof.
  intros Hdb Hstmt. unfold execute, bind, get, lift, modify.
  cbv beta iota. rewrite Hdb. cbv beta iota. by rewrite Hstmt.
Qed.

(** One turn of the loop on a file that can be loaded. *)
Lemma load_files_step schema name rows files w d :
  db w = Some (Healthy d) →
  schema ∈ schemas d →
  is_identifier (stem name) = true →
  ∃ w2, (∀ l, l = (name, Ok rows) :: files →
               load_files schema l w = load_files schema files w2) ∧
        db w2 = Some (Healthy
                  {| schemas := schemas d;
                     tables := <[(schema, fold_case (stem name)) := rows]>
                                 (tables d) |}).
Proof.
  intros Hdb Hs Hid.
  cut (∃ w2, load_files schema ((name, Ok rows) :: files) w
               = load_files schema files w2 ∧
             db w2 = Some (Healthy
                       {| schemas := schemas d;
                          tables := <[(schema, fold_case (stem name)) := rows]>
                                      (tables d) |})).
  { intros (w2 & H & Hdb2). exists w2. split; [by intros l ->|exact Hdb2]. }
  simpl.
  set (d' := {| schemas := schemas d;
                tables := <[(schema, fold_case (stem name)) := rows]> (tables d) |}).
  rewrite (bind_ok _ _ _ _ _
             (execute_ok (create_or_replace_table schema (stem name) (Ok rows))
                w d d' Hdb
                ltac:(unfold create_or_replace_table; rewrite Hid; simpl;
                      by destruct (decide (schema ∈ schemas d))))).
  rewrite (bind_ok _ _ _ _ _
             (query_ok (select_count schema (stem name)) _ d' (length rows)
                (db_set_db _ w)
                ltac:(unfold select_count; simpl;
                      by rewrite lookup_insert_eq))).
  unfold bind at 1, print, modify. cbv beta iota.
  eexists. split; [reflexivity|]. by rewrite db_set_stdout, db_set_db.
Qed.

Lemma load_files_unreadable schema name e files w d :
  db w = Some (Healthy d) →
  ∀ l, l = (name, Raise e) :: files → load_files schema l w = (Raise e, w).
Proof.
  intros Hdb l ->. simpl.
  by rewrite (bind_raise _ _ _ _ _
                (execute_raise (create_or_replace_table schema (stem name) (Raise e))
                   w d e Hdb eq_refl)).
Qed.

(** A file whose stem is not a plain identifier stops the loop. *)
Lemma load_files_rejected schema name rows files w d :
  db w = Some (Healthy d) →
  is_identifier (stem name) = false →
  ∀ l, l = (name, Ok rows) :: files →
       load_files schema l w = (Raise (rejected_name (stem name)), w).
Proof.
  intros Hdb Hid l ->. simpl.
  by rewrite (bind_raise _ _ _ _ _
                (execute_raise (create_or_replace_table schema (stem name) (Ok rows))
                   w d (rejected_name (stem name)) Hdb
                   ltac:(unfold create_or_replace_table; by rewrite Hid))).
Qed.

Lemma all_readable_nil : all_readable [].
Proof. intros name file Hin. by apply elem_of_nil in Hin. Qed.

Lemma all_readable_cons_ok name rows files :
  is_identifier (stem name) = true →
  all_readable files → all_readable ((name, Ok rows) :: files).
Proof.
  intros Hid H n f Hin. apply elem_of_cons in Hin as [[= -> ->]|Hin]; [eauto|].
  by apply (H n).
Qed.

(** The loop loads the files in order up to the first one that cannot
    be loaded, and stops there. *)
Lemma load_files_prefix schema files w d :
  db w = Some (Healthy d) →
  schema ∈ schemas d →
  ∃ n, all_readable (take n files) ∧
       db (load_files schema files w).2
         = Some (Healthy {| schemas := schemas d;
                            tables := load_tables schema (take n files) (tables d) |}) ∧
       match (load_files schema files w).1 with
       | Ok _ => n = length files
       | Raise e =>
           ∃ name file, files !! n = Some (name, file) ∧
             (file = Raise e ∨
              is_identifier (stem name) = false ∧ e = rejected_name (stem name))
       end.
Proof.
  revert w d. induction files as [|[name [rows|e]] files IH]; intros w d Hdb Hs.
  - exists 0%nat. split; [apply all_readable_nil|]. simpl. split; [|done].
    rewrite Hdb. by destruct d.
  - destruct (is_identifier (stem name)) eqn:Hid.
    + destruct (load_files_step schema name rows files w d Hdb Hs Hid)
        as (w2 & Hstep & Hdb2).
      match goal with |- context [load_files schema ?l w] =>
        rewrite (Hstep l eq_refl) end.
      destruct (IH w2 _ Hdb2 Hs) as (n & Hok & Hdbn & Hres).
      exists (S n). split; [by apply all_readable_cons_ok|].
      split; [exact Hdbn|].
      destruct (load_files schema files w2).1; [by rewrite Hres|exact Hres].
    + match goal with |- context [load_files schema ?l w] =>
        rewrite (load_files_rejected schema name rows files w d Hdb Hid l eq_refl)
      end.
      exists 0%nat. split; [apply all_readable_nil|]. simpl. split; [|eauto 10].
      rewrite Hdb. by destruct d.
  - match goal with |- context [load_files schema ?l w] =>
      rewrite (load_files_unreadable schema name e files w d Hdb l eq_refl) end.
    exists 0%nat. split; [apply all_readable_nil|]. simpl. split; [|eauto 10].
    rewrite Hdb. by destruct d.
Qed.


Lemma table_keys_schema schema files k :
  k ∈ table_keys schema files → k.1 = schema.
Proof.
  unfold table_keys. rewrite list_elem_of_fmap. by intros (f & -> & _).
Qed.

Lemma load_tables_other_schema schema files m s t :
  s ≠ schema → load_tables schema files m !! (s, t) = m !! (s, t).
Proof.
  intros Hne. apply load_tables_lookup_other. intros Hin.
  by apply table_keys_schema in Hin.
Qed.


Lemma count_schema_tables_pos s d t rows :
  tables d !! (s, t) = Some rows → 0 < count_schema_tables s d.
Proof.
  intros Hl. unfold count_schema_tables.
  assert (size (filter (λ kv : string * string * list row, kv.1.1 = s) (tables d)) ≠ 0%nat)
    as Hne; [|lia].
  apply map_size_ne_0_lookup. exists (s, t). exists rows.
  by apply map_lookup_filter_Some.
Qed.

Lemma count_schema_tables_pos_inv s d :
  0 < count_schema_tables s d → ∃ t rows, tables d !! (s, t) = Some rows.
Proof.
  unfold count_schema_tables. intros Hpos.
  assert (size (filter (λ kv : string * string * list row, kv.1.1 = s) (tables d)) ≠ 0%nat)
    as Hne by lia.
  apply map_size_ne_0_lookup in Hne as [[s' t] [rows Hl]].
  apply map_lookup_filter_Some in Hl as [Hl Hs]. simpl in Hs. subst s'.
  eauto.
Qed.

(** The probe on a database file that opens. *)
Lemma check_database_status_healthy d :
  check_database_status (storage_of (Some (Healthy d)))
    = Ok (0 <? count_schema_tables "marts" d,
          if 0 <? count_schema_tables "marts" d then msg_ready
          else if 0 <? count_schema_tables "raw" d then msg_data_loaded
          else msg_empty).
Proof.
  unfold check_database_status, probe_body, try_except, storage_of. simpl.
  destruct (0 <? count_schema_tables "marts" d),
    (0 <? count_schema_tables "raw" d); reflexivity.
Qed.


(** What [load_csv_to_duckdb] leaves in the database file, whatever
    way it ends. *)
Lemma load_csv_to_duckdb_db csv_dir db_path schema w d0 :
  opened (db w) = Some d0 →
  let files := sorted (glob_csv (raw_dir w)) in
  let r := load_csv_to_duckdb csv_dir db_path schema w in
  (glob_csv (raw_dir w) = [] ∧
   r = (Raise (Exn FileNotFoundError ("No CSV files found in " +:+ csv_dir)), w)) ∨
  (glob_csv (raw_dir w) ≠ [] ∧
   ∃ n, all_readable (take n files) ∧
        db r.2 = Some (Healthy
                   {| schemas := {[ schema ]} ∪ schemas d0;
                      tables := load_tables schema (take n files) (tables d0) |}) ∧
        match r.1 with
        | Ok _ => n = length files
        | Raise e =>
            ∃ name file, files !! n = Some (name, file) ∧
              (file = Raise e ∨
               is_identifier (stem name) = false ∧ e = rejected_name (stem name))
        end).
Proof.
  intros Hop files r. subst files r. unfold load_csv_to_duckdb.
  rewrite (bind_ok get _ w w w eq_refl).
  destruct (glob_csv (raw_dir w)) as [|file files] eqn:Hglob; [by left|].
  right. split; [done|].
  rewrite (bind_ok _ _ _ _ _ (print_ok _ _)).
  rewrite (bind_ok _ _ _ _ _ (print_ok _ _)).
  match goal with |- context [bind connect _ ?w2] =>
    destruct (connect_ok w2 d0) as (w3 & Hc & Hdb3 & _);
      [by rewrite !db_set_stdout|]
  end.
  rewrite (bind_ok _ _ _ _ _ Hc).
  rewrite (bind_ok _ _ _ _ _
             (execute_ok (λ d, Ok (create_schema_if_not_exists schema d))
                w3 d0 _ Hdb3 eq_refl)).
  match goal with |- context [bind (load_files schema ?L) _ ?w4] =>
    destruct (load_files_prefix schema L w4 (create_schema_if_not_exists schema d0))
      as (n & Hok & Hdbn & Hres); [by rewrite db_set_db | simpl; set_solver |];
    exists n; split; [exact Hok|];
    unfold bind at 1 2; destruct (load_files schema L w4) as [[[]|e] w5]
  end; simpl in *.
  - split; [exact Hdbn | exact Hres].
  - split; [exact Hdbn | exact Hres].
Qed.

End LoaderSteps.

Section LoaderInversion.
Import Text Store Streamlit World Scripts App Spec.

Lemma sorted_Permutation files : sorted files ≡ₚ files.
Proof. unfold sorted. apply merge_sort_Permutation. Qed.

Lemma sorted_nonempty files : files ≠ [] → sorted files ≠ [].
Proof.
  intros Hne Hnil. apply Hne. apply Permutation_nil_r.
  rewrite <- Hnil. symmetry. apply sorted_Permutation.
Qed.

Lemma connect_unreadable w e :
  db w = Some (Unreadable e) → connect w = (Raise e, w).
Proof.
  intros Hdb. unfold connect, bind, get, raise. cbv beta iota. by rewrite Hdb.
Qed.

(** A load that returns has found CSV files, has read every one of
    them, and leaves them all in the database. *)
Lemma load_csv_to_duckdb_ok_inv csv_dir db_path schema w w' :
  load_csv_to_duckdb csv_dir db_path schema w = (Ok tt, w') →
  glob_csv (raw_dir w) ≠ [] ∧
  all_readable (sorted (glob_csv (raw_dir w))) ∧
  ∃ d0, opened (db w) = Some d0 ∧
        db w' = Some (Healthy
                  {| schemas := {[ schema ]} ∪ schemas d0;
                     tables := load_tables schema (sorted (glob_csv (raw_dir w)))
                                 (tables d0) |}).
Proof.
  intros Hload.
  destruct (opened (db w)) as [d0|] eqn:Hop.
  - destruct (load_csv_to_duckdb_db csv_dir db_path schema w d0 Hop)
      as [[_ Hr] | (Hne & n & Hok & Hdb & Hres)].
    + rewrite Hload in Hr. discriminate Hr.
    + rewrite Hload in Hdb, Hres. simpl in Hdb, Hres. subst n.
      rewrite firstn_all in Hok, Hdb. eauto.
  - exfalso. destruct (db w) as [[d|e]|] eqn:Hdb; try discriminate Hop.
    unfold load_csv_to_duckdb in Hload.
    rewrite (bind_ok get _ w w w eq_refl) in Hload.
    destruct (glob_csv (raw_dir w)) as [|file files]; [discriminate Hload|].
    rewrite (bind_ok _ _ _ _ _ (print_ok _ _)) in Hload.
    rewrite (bind_ok _ _ _ _ _ (print_ok _ _)) in Hload.
    match type of Hload with context [bind connect _ ?w2] =>
      rewrite (bind_raise _ _ _ _ _ (connect_unreadable w2 e
                 ltac:(by rewrite !db_set_stdout))) in Hload end.
    discriminate Hload.
Qed.

(** Files that were all read leave at least one table in the schema. *)
Lemma load_tables_count_pos schema files m ss :
  files ≠ [] → all_readable files →
  0 < count_schema_tables schema
        {| schemas := ss; tables := load_tables schema files m |}.
Proof.
  intros Hne Hok. destruct files as [|[name file] files]; [done|].
  assert ((schema, fold_case (stem name))
          ∈ dom (load_tables schema ((name, file) :: files) m)) as Hin.
  { rewrite load_tables_dom by done. apply elem_of_union_r.
    apply elem_of_list_to_set. simpl. left. }
  apply elem_of_dom in Hin as [rows Hl].
  by apply (count_schema_tables_pos _ _ (fold_case (stem name)) rows).
Qed.

End LoaderInversion.

Section LoaderMore.
Import Text Store Streamlit World Scripts App Spec Examples.

(** X11.  Without a CSV file in the input directory (or without the
    directory) the two loaders differ: [load_csv_to_duckdb] raises
    [FileNotFoundError] with the text [No CSV files found in <csv_dir>]
    before it prints or opens anything, so no database file is created;
    [load_raw_data] prints one line and returns normally, the database
    file as it was. *)
Theorem load_without_csv_files c csv_dir db_path schema w :
  (∀ dir name, raw_dir w = Some dir → name ∈ dom dir →
               ends_with ".csv" name = false) →
  load_csv_to_duckdb csv_dir db_path schema w
    = (Raise (Exn FileNotFoundError ("No CSV files found in " +:+ csv_dir)), w) ∧
  load_raw_data c w
    = (Ok tt,
       set_stdout
         (λ out, (out ++ ["No CSV files found. Run: python scripts/download_data.py"])%list)
         w) ∧
  db (load_raw_data c w).2 = db w.
Proof.
  intros Hno. pose proof (glob_csv_nil (raw_dir w) Hno) as Hnil.
  assert (load_raw_data c w
    = (Ok tt,
       set_stdout
         (λ out, (out ++ ["No CSV files found. Run: python scripts/download_data.py"])%list)
         w)) as Hraw.
  { unfold load_raw_data. rewrite (bind_ok get _ w w w eq_refl).
    by rewrite Hnil. }
  split; [|split; [exact Hraw|]].
  - unfold load_csv_to_duckdb. rewrite (bind_ok get _ w w w eq_refl).
    by rewrite Hnil.
  - rewrite Hraw. apply db_set_stdout.
Qed.




End LoaderMore.

Section LoaderMoreWitness.
Import Text Store Streamlit World Scripts App Spec Examples.

Lemma load_without_csv_files_witness :
  raw_dir unpacked_notes = Some notes_dir ∧
  load_csv_to_duckdb "/app/data/raw" "/app/ecommerce.duckdb" "raw" unpacked_notes
    = (Raise (Exn FileNotFoundError "No CSV files found in /app/data/raw"),
       unpacked_notes) ∧
  (load_raw_data working unpacked_notes).1 = Ok tt.
Proof.
  split; [reflexivity|].
  destruct (load_without_csv_files working "/app/data/raw" "/app/ecommerce.duckdb"
              "raw" unpacked_notes) as (Hl & Hr & _).
  - intros dir name [= <-] Hin. unfold notes_dir in Hin.
    rewrite dom_singleton_L in Hin. apply elem_of_singleton in Hin.
    by subst name.
  - split; [exact Hl|]. by rewrite Hr.
Defined.



End LoaderMoreWitness.

(** ** The download stage and the two download handlers *)

Section DriverSteps.
Import Text Store Streamlit World Scripts App Spec.
Variable c : collaborators.

Lemma download_kaggle_dataset_db ds path a u k w :
  db (download_kaggle_dataset c ds path a u k w).2 = db w.
Proof. apply (download_kaggle_dataset_preserves c db); by intros ? []. Qed.

Lemma download_and_load_data_session a u k ds root name w :
  session (download_and_load_data c a u k ds root name w).2 = session w.
Proof. apply (download_and_load_data_preserves c session); by intros ? []. Qed.

Lemma download_and_load_data_ui a u k ds root name w :
  ui (download_and_load_data c a u k ds root name w).2 = ui w.
Proof. apply (download_and_load_data_preserves c ui); by intros ? []. Qed.

Lemma setup_kaggle_credentials_raw_dir a u k w :
  raw_dir (setup_kaggle_credentials c a u k w).2 = raw_dir w.
Proof. apply (setup_kaggle_credentials_preserves c raw_dir); by intros ? []. Qed.

Lemma load_csv_to_duckdb_raw_dir dir path schema w :
  raw_dir (load_csv_to_duckdb dir path schema w).2 = raw_dir w.
Proof. apply (load_csv_to_duckdb_preserves raw_dir); by intros ? []. Qed.

Lemma load_csv_to_duckdb_calls dir path schema w :
  calls (load_csv_to_duckdb dir path schema w).2 = calls w.
Proof. apply (load_csv_to_duckdb_preserves calls); by intros ? []. Qed.

(** A download that returns has authenticated, has called the
    download once, and has unpacked the archive over the directory. *)
Lemma download_kaggle_dataset_ok_inv ds path a u k w w1 :
  download_kaggle_dataset c ds path a u k w = (Ok tt, w1) →
  calls w1 = (calls w ++ [KaggleAuthenticate; KaggleDownload ds path])%list ∧
  db w1 = db w ∧
  ∃ files, kaggle_download c ds = Ok files ∧
           raw_dir w1 = Some (files ∪ default ∅ (raw_dir w)).
Proof.
  pose proof (setup_kaggle_credentials_preserves c calls calls_set_environ
                calls_set_stdout a u k w) as Hcalls.
  pose proof (setup_kaggle_credentials_raw_dir a u k w) as Hraw.
  pose proof (download_kaggle_dataset_db ds path a u k w) as Hdb.
  intros Hd. rewrite Hd in Hdb. simpl in Hdb. revert Hd.
  unfold download_kaggle_dataset, bind, lift, get, record_call, print, modify.
  destruct (kaggle_import c); simpl; [|discriminate].
  destruct (setup_kaggle_credentials c a u k w) as [[[]|e] w0]; simpl in *;
    [|discriminate].
  destruct (kaggle_authenticate c _ _); simpl; [|discriminate].
  destruct (kaggle_download c ds) as [files|e]; simpl; [|discriminate].
  intros [= <-]. simpl. split; [|split; [exact Hdb|]].
  - rewrite Hcalls, <- app_assoc. reflexivity.
  - exists files. split; [done|]. by rewrite Hraw.
Qed.

(** A download never removes a file from the directory. *)
Lemma download_kaggle_dataset_keeps_files ds path a u k w name :
  name ∈ dom (default ∅ (raw_dir w)) →
  name ∈ dom (default ∅ (raw_dir (download_kaggle_dataset c ds path a u k w).2)).
Proof.
  pose proof (setup_kaggle_credentials_raw_dir a u k w) as Hraw.
  unfold download_kaggle_dataset, bind, lift, get, record_call, print, modify.
  destruct (kaggle_import c); simpl; [|done].
  destruct (setup_kaggle_credentials c a u k w) as [[[]|e] w0]; simpl in *;
    [|by rewrite Hraw].
  destruct (kaggle_authenticate c _ _); simpl; [|by rewrite Hraw].
  destruct (kaggle_download c ds) as [files|e]; simpl; [|by rewrite Hraw].
  rewrite Hraw. intros Hin. rewrite dom_union. set_solver.
Qed.

End DriverSteps.

Section DriverMore.
Import Text Store Streamlit World Scripts App Spec.
Variable c : collaborators.

(** What [download_and_load_data] makes of the result of its download
    stage and of its load stage. *)
Lemma download_and_load_data_unfold a u k ds root name w :
  let project_root := default (PROJECT_ROOT c) root in
  let path := joinpath (joinpath project_root "data") "raw" in
  let db_path := joinpath project_root name in
  let w0 :=
    set_stdout (λ out, (out ++ [banner])%list)
      (set_stdout (λ out, (out ++ ["STEP 1: DOWNLOADING DATA FROM KAGGLE"])%list)
         (set_stdout (λ out, (out ++ [banner])%list)
            (set_raw_dir (λ d, Some (default ∅ d)) w))) in
  download_and_load_data c a u k ds root name w =
    match mkdir_raw c with
    | Raise e => (Raise e, w)
    | Ok _ =>
        match download_kaggle_dataset c ds path a u k w0 with
        | (Raise e, w1) => (Raise e, w1)
        | (Ok _, w1) =>
            let w2 :=
              set_stdout (λ out, (out ++ [banner])%list)
                (set_stdout (λ out, (out ++ ["STEP 2: LOADING DATA INTO DUCKDB"])%list)
                   (set_stdout (λ out, (out ++ [nl +:+ banner])%list) w1)) in
            match load_csv_to_duckdb path db_path "raw" w2 with
            | (Raise e, w3) => (Raise e, w3)
            | (Ok _, w3) =>
                (Ok db_path,
                 set_stdout
                   (λ out, (out ++ [nl +:+ banner; "SUCCESS! Data pipeline complete";
                                    banner; "Database: " +:+ db_path;
                                    "Run 'dbt run' to build analytics models"])%list)
                   w3)
            end
        end
    end.
Proof.
  intros project_root path db_path w0. subst project_root path db_path w0.
  unfold download_and_load_data, bind, lift, print, modify, ret.
  destruct (mkdir_raw c); [|reflexivity]. cbv beta iota zeta delta [line].
  match goal with |- context [download_kaggle_dataset c ds ?p a u k ?w0] =>
    destruct (download_kaggle_dataset c ds p a u k w0) as [[[]|e] w1]
  end; [|reflexivity]. cbv beta iota zeta.
  match goal with |- context [load_csv_to_duckdb ?dir ?p ?s ?w2] =>
    destruct (load_csv_to_duckdb dir p s w2) as [[[]|e] w3]
  end; [|reflexivity]. cbv beta iota zeta.
  f_equal. destruct w3; unfold set_stdout; simpl. f_equal.
  by rewrite <- !app_assoc.
Qed.

(** X15.  The stages of [download_and_load_data] run in a fixed order.
    The database file is written only after the Kaggle client has
    authenticated and downloaded; no file of the input directory is
    ever removed, so the CSV files of an earlier download are loaded
    again; the session and the page are not touched.  When the function
    returns, it returns the path of the database under the project root,
    both Kaggle calls have been made, once each, and the raw schema
    holds at least one table. *)
Theorem download_and_load_data_stages a u k ds root name w :
  let path := joinpath (joinpath (default (PROJECT_ROOT c) root) "data") "raw" in
  let r := download_and_load_data c a u k ds root name w in
  session r.2 = session w ∧
  ui r.2 = ui w ∧
  (∀ f, f ∈ dom (default ∅ (raw_dir w)) → f ∈ dom (default ∅ (raw_dir r.2))) ∧
  (db r.2 ≠ db w →
   calls r.2 = (calls w ++ [KaggleAuthenticate; KaggleDownload ds path])%list) ∧
  (∀ p, r.1 = Ok p →
     p = joinpath (default (PROJECT_ROOT c) root) name ∧
     calls r.2 = (calls w ++ [KaggleAuthenticate; KaggleDownload ds path])%list ∧
     ∃ d, db r.2 = Some (Healthy d) ∧ "raw" ∈ schemas d ∧
          0 < count_schema_tables "raw" d).
Proof.
  intros path r. subst r.
  split; [apply download_and_load_data_session|].
  split; [apply download_and_load_data_ui|].
  rewrite download_and_load_data_unfold. fold path.
  destruct (mkdir_raw c) as [[]|e0].
  2: { simpl. split; [done|]. split; [done|]. intros p H. discriminate H. }
  match goal with |- context [download_kaggle_dataset c ds path a u k ?x] =>
    set (w0 := x) end.
  match goal with |- context [download_kaggle_dataset c ds path a u k w0] =>
    pose proof (download_kaggle_dataset_db c ds path a u k w0) as Hdb1;
    pose proof (λ f, download_kaggle_dataset_keeps_files c ds path a u k w0 f)
      as Hkeep1;
    pose proof (download_kaggle_dataset_ok_inv c ds path a u k w0) as Hinv1;
    destruct (download_kaggle_dataset c ds path a u k w0) as [[[]|e1] w1]
  end.
  2: { simpl in Hdb1, Hkeep1 |- *. split; [exact Hkeep1|]. split.
       - intros Hne. by destruct Hne.
       - intros p H. discriminate H. }
  destruct (Hinv1 w1 eq_refl) as (Hcalls1 & _ & _). clear Hinv1.
  assert (calls w0 = calls w) as Hcalls0.
  { subst w0. by rewrite !calls_set_stdout, calls_set_raw_dir. }
  rewrite Hcalls0 in Hcalls1. clear Hcalls0.
  simpl in Hdb1, Hkeep1. clearbody w0.
  cbv zeta.
  match goal with |- context [load_csv_to_duckdb ?dir ?p ?s ?w2] =>
    pose proof (load_csv_to_duckdb_raw_dir dir p s w2) as Hraw3;
    pose proof (load_csv_to_duckdb_calls dir p s w2) as Hcalls3;
    pose proof (load_csv_to_duckdb_ok_inv dir p s w2) as Hinv3;
    destruct (load_csv_to_duckdb dir p s w2) as [[[]|e3] w3]
  end; simpl in Hraw3, Hcalls3 |- *.
  - rewrite Hraw3, Hcalls3.
    split; [exact Hkeep1|]. split; [intros _; exact Hcalls1|].
    intros p [= <-]. split; [done|]. split; [exact Hcalls1|].
    destruct (Hinv3 w3 eq_refl) as (Hne & Hok & d0 & _ & Hdb3).
    eexists. split; [exact Hdb3|]. split; [simpl; set_solver|].
    apply load_tables_count_pos; [by apply sorted_nonempty|exact Hok].
  - rewrite Hraw3, Hcalls3.
    split; [exact Hkeep1|]. split; [intros _; exact Hcalls1|].
    intros p H. discriminate H.
Qed.

End DriverMore.

Section HandlerSteps.
Import Text Store Streamlit World Scripts App Spec.
Variable c : collaborators.

Lemma db_set_ui g w : db (set_ui g w) = db w.
Proof. by destruct w. Qed.
Lemma db_set_session g w : db (set_session g w) = db w.
Proof. by destruct w. Qed.

Lemma download_and_load_data_ok_db a u k ds root name w p w' :
  download_and_load_data c a u k ds root name w = (Ok p, w') →
  ∃ d, db w' = Some (Healthy d) ∧ "raw" ∈ schemas d ∧
       0 < count_schema_tables "raw" d.
Proof.
  rewrite download_and_load_data_unfold.
  destruct (mkdir_raw c) as [[]|e0]; [|discriminate].
  destruct (download_kaggle_dataset c ds _ a u k _) as [[[]|e1] w1];
    [|discriminate].
  cbv zeta.
  match goal with |- context [load_csv_to_duckdb ?dir ?q ?s ?w2] =>
    pose proof (load_csv_to_duckdb_ok_inv dir q s w2) as Hinv;
    destruct (load_csv_to_duckdb dir q s w2) as [[[]|e3] w3]
  end; [|discriminate].
  intros [= _ <-].
  destruct (Hinv w3 eq_refl) as (Hne & Hok & d0 & _ & Hdb3).
  eexists. split; [by rewrite db_set_stdout|]. split; [simpl; set_solver|].
  apply load_tables_count_pos; [by apply sorted_nonempty|exact Hok].
Qed.

(** Whatever way [download_and_load_data] ends, it has written to the
    raw schema only. *)
Lemma download_and_load_data_db a u k ds root name w d0 :
  opened (db w) = Some d0 →
  ∃ d', opened (db (download_and_load_data c a u k ds root name w).2) = Some d' ∧
        ∀ s t, s ≠ "raw" → tables d' !! (s, t) = tables d0 !! (s, t).
Proof.
  intros Hop. rewrite download_and_load_data_unfold.
  destruct (mkdir_raw c) as [[]|e0]; [|by exists d0].
  match goal with |- context [download_kaggle_dataset c ds ?q a u k ?w0] =>
    pose proof (download_kaggle_dataset_db c ds q a u k w0) as Hdb1;
    destruct (download_kaggle_dataset c ds q a u k w0) as [[[]|e1] w1]
  end; simpl in Hdb1.
  2: { simpl. rewrite Hdb1. by exists d0. }
  cbv zeta.
  match goal with |- context [load_csv_to_duckdb ?dir ?q ?s ?w2] =>
    destruct (load_csv_to_duckdb_db dir q s w2 d0) as [[_ Hr]|(_ & n & _ & Hdb3 & _)];
      [simpl; by rewrite Hdb1 | |]
  end.
  - rewrite Hr. simpl. rewrite Hdb1. by exists d0.
  - match goal with |- context [load_csv_to_duckdb ?dir ?q ?s ?w2] =>
      destruct (load_csv_to_duckdb dir q s w2) as [[[]|e3] w3]
    end; simpl in Hdb3 |- *; rewrite Hdb3; (eexists; split; [reflexivity|]);
      intros s t Hs; by apply load_tables_other_schema.
Qed.

Lemma download_handler_unfold w :
  ∃ a u k,
    get_kaggle_credentials (st_secrets c) = Ok (a, u, k) ∧
    download_handler c w =
      match download_and_load_data c a u k DATASET (Some (PROJECT_ROOT c)) DB_NAME
              (set_ui (λ es, (es ++ [st_text "Downloading data from Kaggle..."])%list)
                 (loading_started "Downloading dataset from Kaggle..." w)) with
      | (Ok _, w1) =>
          (Raise (Exn RerunException ""),
           set_ui
             (λ es, (es ++ [st_success "✅ Data downloaded and loaded successfully!"])%list)
             (set_session (set_pipeline_status data_loaded)
                (set_session (set_data_loaded true) w1)))
      | (Raise e, w1) =>
          if is_Exception (exn_cls e) then (Ok tt, rolled_back e w1)
          else (Raise e, w1)
      end.
Proof.
  destruct (get_kaggle_credentials_returns (st_secrets c)) as [[[a u] k] Hc].
  exists a, u, k. split; [exact Hc|].
  unfold download_handler, download_body, bind, set_status, show, modify,
    try_exceptS, lift, st_rerun, raise, loading_started, rolled_back,
    on_download_error.
  rewrite Hc. cbv beta iota.
  match goal with |- context [download_and_load_data c a u k ?ds ?root ?n ?w0] =>
    destruct (download_and_load_data c a u k ds root n w0) as [[p|e] w1]
  end; simpl; [reflexivity|].
  destruct (is_Exception (exn_cls e)); reflexivity.
Qed.

Lemma refresh_handler_unfold w :
  db w = None ∨ unlink_db c = Ok tt →
  ∃ a u k,
    get_kaggle_credentials (st_secrets c) = Ok (a, u, k) ∧
    refresh_handler c w =
      match download_and_load_data c a u k DATASET (Some (PROJECT_ROOT c)) DB_NAME
              (store_deleted
                 (loading_started "Downloading fresh dataset from Kaggle..." w)) with
      | (Ok _, w1) =>
          (Raise (Exn RerunException ""),
           set_ui (λ es, (es ++ [st_success "✅ Data refreshed successfully!"])%list)
             (set_session (set_pipeline_status data_loaded)
                (set_session (set_data_loaded true) w1)))
      | (Raise e, w1) =>
          if is_Exception (exn_cls e) then (Ok tt, rolled_back e w1)
          else (Raise e, w1)
      end.
Proof.
  intros Hu.
  destruct (get_kaggle_credentials_returns (st_secrets c)) as [[[a u] k] Hc].
  exists a, u, k. split; [exact Hc|].
  unfold refresh_handler, refresh_body, db_path_exists, db_path_unlink, bind,
    set_status, show, modify, try_exceptS, lift, st_rerun, raise, get, ret,
    loading_started, store_deleted, rolled_back, on_download_error.
  cbv beta iota.
  destruct w as [env kj rd [f|] out cs ss es]; simpl.
  - destruct Hu as [Hu|Hu]; [discriminate Hu|]. rewrite Hu, Hc. cbv beta iota.
    match goal with |- context [download_and_load_data c a u k ?ds ?root ?n ?w0] =>
      destruct (download_and_load_data c a u k ds root n w0) as [[p|e] w1]
    end; simpl; [reflexivity|].
    destruct (is_Exception (exn_cls e)); reflexivity.
  - rewrite Hc. cbv beta iota.
    match goal with |- context [download_and_load_data c a u k ?ds ?root ?n ?w0] =>
      destruct (download_and_load_data c a u k ds root n w0) as [[p|e] w1]
    end; simpl; [reflexivity|].
    destruct (is_Exception (exn_cls e)); reflexivity.
Qed.

End HandlerSteps.

Section HandlersMore.
Import Text Store Streamlit World Scripts App Spec.
Variable c : collaborators.

(** X16.  The handler of "Download from Kaggle & Load" ends in one of
    three ways.  It returns, the status [not_started] and the flag
    [data_loaded] as it was; or it ends with the rerun signal of
    Streamlit, the status [data_loaded] and the flag set, and then the
    database file opens, holds at least one raw table, and the probe
    reports data loaded or ready; or an exception that is not an
    [Exception] passes through, and the status stays [loading].  The
    flag [dbt_built] is never changed. *)
Theorem download_handler_status w :
  let r := download_handler c w in
  ss_dbt_built (session r.2) = ss_dbt_built (session w) ∧
  ((r.1 = Ok tt ∧
    ss_pipeline_status (session r.2) = Some not_started ∧
    ss_data_loaded (session r.2) = ss_data_loaded (session w)) ∨
   (r.1 = Raise (Exn RerunException "") ∧
    ss_pipeline_status (session r.2) = Some data_loaded ∧
    ss_data_loaded (session r.2) = Some true ∧
    ∃ d, db r.2 = Some (Healthy d) ∧
         0 < count_schema_tables "raw" d ∧
         (check_database_status (storage_of (db r.2)) = Ok (false, msg_data_loaded) ∨
          check_database_status (storage_of (db r.2)) = Ok (true, msg_ready))) ∨
   (∃ e, r.1 = Raise e ∧ is_Exception (exn_cls e) = false ∧
         ss_pipeline_status (session r.2) = Some loading ∧
         ss_data_loaded (session r.2) = ss_data_loaded (session w))).
Proof.
  intros r. subst r.
  destruct (download_handler_unfold c w) as (a & u & k & _ & ->).
  match goal with |- context [download_and_load_data c a u k ?ds ?root ?n ?w0] =>
    pose proof (download_and_load_data_session c a u k ds root n w0) as Hs;
    pose proof (download_and_load_data_ok_db c a u k ds root n w0) as Hok;
    destruct (download_and_load_data c a u k ds root n w0) as [[p|e] w1]
  end; simpl in Hs.
  - destruct (Hok p w1 eq_refl) as (d & Hdb & _ & Hpos). simpl.
    rewrite Hs. split; [reflexivity|]. right; left.
    do 3 (split; [reflexivity|]).
    rewrite Hdb. exists d.
    split; [reflexivity|]. split; [exact Hpos|].
    rewrite check_database_status_healthy.
    apply Z.ltb_lt in Hpos. rewrite Hpos.
    destruct (0 <? count_schema_tables "marts" d); auto.
  - destruct (is_Exception (exn_cls e)) eqn:He; simpl; rewrite Hs.
    + split; [reflexivity|]. left. repeat split.
    + split; [reflexivity|]. right; right. exists e. repeat split. exact He.
Qed.

(** X17.  "Refresh from Kaggle" discards the models.  When the
    database file exists and can be deleted, then however the handler
    ends the file is absent or holds nothing outside the raw schema:
    the probe does not report ready, a process started afterwards
    derives [not_started], and the flag [dbt_built] of the session is
    still what it was. *)
Theorem refresh_discards_models w f :
  db w = Some f →
  unlink_db c = Ok tt →
  let w' := (refresh_handler c w).2 in
  (∃ d', opened (db w') = Some d' ∧
         ∀ s t, s ≠ "raw" → tables d' !! (s, t) = None) ∧
  (∀ msg, check_database_status (storage_of (db w')) ≠ Ok (true, msg)) ∧
  ss_pipeline_status (init_session_state (storage_of (db w')) fresh_session).2
    = Some not_started ∧
  ss_dbt_built (session w') = ss_dbt_built (session w).
Proof.
  intros Hdb Hu w'.
  assert (∃ d', opened (db w') = Some d' ∧
                ∀ s t, s ≠ "raw" → tables d' !! (s, t) = None) as Hshape.
  { subst w'.
    destruct (refresh_handler_unfold c w (or_intror Hu)) as (a & u & k & _ & ->).
    match goal with |- context [download_and_load_data c a u k ?ds ?root ?n ?w0] =>
      destruct (download_and_load_data_db c a u k ds root n w0 empty_database)
        as (d' & Hop & Hother);
        [unfold store_deleted, loading_started;
         rewrite db_set_ui, db_set_session, Hdb; reflexivity|];
      destruct (download_and_load_data c a u k ds root n w0) as [[p|e] w1]
    end; simpl in Hop.
    - exists d'. simpl. split; [exact Hop|].
      intros s t Hs. by rewrite Hother.
    - exists d'. destruct (is_Exception (exn_cls e)); simpl.
      + split; [exact Hop|]. intros s t Hs. by rewrite Hother.
      + split; [exact Hop|]. intros s t Hs. by rewrite Hother. }
  assert (∃ msg, check_database_status (storage_of (db w')) = Ok (false, msg))
    as [msg0 Hck].
  { destruct Hshape as (d' & Hop & Hnone).
    destruct (db w') as [[d|e]|]; simpl in Hop; simplify_eq.
    - rewrite check_database_status_healthy.
      destruct (0 <? count_schema_tables "marts" d') eqn:Hm; [|eauto].
      apply Z.ltb_lt, count_schema_tables_pos_inv in Hm as (t & rows & Hl).
      rewrite Hnone in Hl by done. discriminate Hl.
    - by exists msg_not_found. }
  split; [exact Hshape|]. split; [intros msg; rewrite Hck; discriminate|].
  split.
  - destruct (init_fresh_status (storage_of (db w')) fresh_session false msg0
                eq_refl Hck) as (s' & Hinit & Hst).
    rewrite Hinit. simpl. rewrite Hst. by rewrite andb_false_r.
  - subst w'.
    destruct (refresh_handler_unfold c w (or_intror Hu)) as (a & u & k & _ & ->).
    match goal with |- context [download_and_load_data c a u k ?ds ?root ?n ?w0] =>
      pose proof (download_and_load_data_session c a u k ds root n w0) as Hs;
      destruct (download_and_load_data c a u k ds root n w0) as [[p|e] w1]
    end; simpl in Hs.
    + simpl. rewrite Hs. unfold store_deleted. by destruct (db _).
    + destruct (is_Exception (exn_cls e)); simpl; rewrite Hs;
        unfold store_deleted; by destruct (db _).
Qed.

End HandlersMore.

Section HandlersMoreWitness.
Import Text Store Streamlit World Scripts App Spec Examples.

Lemma refresh_discards_models_witness :
  check_database_status (storage_of (db built)) = Ok (true, msg_ready) ∧
  ss_pipeline_status (session built) = Some dbt_built ∧
  check_database_status (storage_of (db (refresh_handler online built).2))
    = Ok (false, msg_data_loaded) ∧
  ss_pipeline_status
    (init_session_state (storage_of (db (refresh_handler online built).2))
       fresh_session).2 = Some not_started ∧
  ss_dbt_built (session (refresh_handler online built).2) = Some true.
Proof.
  split; [vm_compute; reflexivity|]. split; [reflexivity|].
  split; [vm_compute; reflexivity|].
  destruct (refresh_discards_models online built (Healthy built_db) eq_refl eq_refl)
    as (_ & _ & Hinit & Hflag).
  split; [exact Hinit|]. rewrite Hflag. reflexivity.
Defined.

End HandlersMoreWitness.

(** ** The secrets lookup *)

Section SecretsMore.
Import Text Store Streamlit World Scripts App Spec.

(** X18.  With a [kaggle] table in the secrets, the lookup returns the
    entry [api_token] whenever the table has one, whatever its value
    and whatever else the table holds; without it, the entries
    [username] and [key] when the table has both; otherwise three
    [None]. *)
Theorem get_kaggle_credentials_table entries table :
  lookup_key "kaggle" entries = Some (TTable table) →
  get_kaggle_credentials (Ok entries) =
    Ok (match lookup_key "api_token" table with
        | Some token => (Some token, None, None)
        | None =>
            match lookup_key "username" table, lookup_key "key" table with
            | Some username, Some key => (None, Some username, Some key)
            | _, _ => (None, None, None)
            end
        end).
Proof.
  intros Hk.
  unfold get_kaggle_credentials, secrets_body, secrets_get, secrets_getitem,
    contains_key, getitem, try_except, bind_result.
  simpl. rewrite Hk. simpl.
  destruct (lookup_key "api_token" table) as [token|]; simpl; [reflexivity|].
  destruct (lookup_key "username" table) as [username|]; simpl; [|reflexivity].
  destruct (lookup_key "key" table) as [key|]; simpl; reflexivity.
Qed.

(** X19.  A token in the secrets that is empty hides the legacy pair
    of the secrets: the lookup returns the token alone, the resolver
    takes it for no token, and with nothing in the environment and no
    credentials file it raises its not-found error, although the
    secrets hold a username and a key. *)
Theorem falsy_secret_token_hides_legacy_pair c entries table token w :
  lookup_key "kaggle" entries = Some (TTable table) →
  lookup_key "api_token" table = Some token →
  truthy (Some token) = false →
  opt_truthy (environ w !! "KAGGLE_API_TOKEN") = false →
  opt_truthy (environ w !! "KAGGLE_USERNAME")
    && opt_truthy (environ w !! "KAGGLE_KEY") = false →
  kaggle_json w = false →
  get_kaggle_credentials (Ok entries) = Ok (Some token, None, None) ∧
  setup_kaggle_credentials c (Some token) None None w
    = (Raise (Exn ValueError credentials_not_found), w).
Proof.
  intros Hk Ht Hfalsy He Hel Hj. split.
  - unfold get_kaggle_credentials, secrets_body, secrets_get, secrets_getitem,
      contains_key, getitem, try_except, bind_result.
    simpl. rewrite Hk. simpl. by rewrite Ht.
  - by apply setup_not_found.
Qed.

End SecretsMore.

Section SecretsMoreWitness.
Import Text Store Streamlit World Scripts App Spec Examples.

Lemma get_kaggle_credentials_table_witness :
  get_kaggle_credentials
    (Ok [("kaggle", TTable [("username", TStr "alice"); ("key", TStr "s3cret");
                            ("api_token", TStr "KGAT_123")])])
  = Ok (Some (TStr "KGAT_123"), None, None).
Proof.
  apply (get_kaggle_credentials_table
           [("kaggle", TTable [("username", TStr "alice"); ("key", TStr "s3cret");
                               ("api_token", TStr "KGAT_123")])]
           [("username", TStr "alice"); ("key", TStr "s3cret");
            ("api_token", TStr "KGAT_123")] eq_refl).
Defined.

Lemma falsy_secret_token_hides_legacy_pair_witness :
  get_kaggle_credentials
    (Ok [("kaggle", TTable [("api_token", TStr ""); ("username", TStr "alice");
                            ("key", TStr "s3cret")])])
  = Ok (Some (TStr ""), None, None) ∧
  setup_kaggle_credentials working (Some (TStr "")) None None bare
    = (Raise (Exn ValueError credentials_not_found), bare).
Proof.
  apply (falsy_secret_token_hides_legacy_pair working
           [("kaggle", TTable [("api_token", TStr ""); ("username", TStr "alice");
                               ("key", TStr "s3cret")])]
           [("api_token", TStr ""); ("username", TStr "alice"); ("key", TStr "s3cret")]
           (TStr "") bare eq_refl eq_refl eq_refl eq_refl eq_refl eq_refl).
Defined.

End SecretsMoreWitness.

(** ** The pages *)

Section PagesMore.
Import DuckDB Text Store Streamlit World Scripts App Spec Pages.

(** X20.  What the sidebar shows when a process starts.  Under the
    message of the probe it shows "Setup required" when there is no
    database file, "Dashboard ready" when the probe reports ready, and
    "Build dbt models" for every other file, also one that is empty or
    cannot be opened; it never shows "Loading data...". *)
Theorem sidebar_after_startup db ready msg s' :
  check_database_status db = Ok (ready, msg) →
  init_session_state db fresh_session = (Ok tt, s') →
  sidebar db s' [] =
    (Ok tt,
     [caption msg;
      if negb (path_exists db) then warning "⏳ Setup required"
      else if ready then success "✅ Dashboard ready"
      else info "📊 Build dbt models"]).
Proof.
  intros Hck Hinit.
  destruct (init_fresh_status db fresh_session ready msg eq_refl Hck)
    as (s'' & Hinit' & Hst).
  rewrite Hinit in Hinit'. injection Hinit' as <-.
  unfold sidebar, bind, lift, emit, modify, pipeline_status.
  rewrite Hck. cbv beta iota. rewrite Hst.
  destruct (path_exists db), ready; reflexivity.
Qed.

(** X21.  A process that starts on a database file without models
    (raw data only, an empty file, a file that cannot be opened) treats
    it in two ways at once.  The status is [not_started], so the home
    page points to the pipeline page, and the dashboard and the data
    explorer warn that no data is loaded and do not open the file; the
    pipeline page reports that the database
    exists with data and offers to refresh it, to build the models and
    to run the tests, and does not offer the first download. *)
Theorem pages_after_startup_unbuilt db msg s' :
  path_exists db = true →
  check_database_status db = Ok (false, msg) →
  init_session_state db fresh_session = (Ok tt, s') →
  ss_pipeline_status s' = Some not_started ∧
  home_page s' [] = (Ok tt, [info "👉 Go to **Data Pipeline** to get started!"]) ∧
  dashboard_page s' [] = (Ok tt, [warning "⚠️ No data loaded. Please go to **Data Pipeline** to download data first."]) ∧
  explorer_page s' [] = (Ok tt, [warning "⚠️ No data loaded. Please go to **Data Pipeline** to download data first."]) ∧
  pipeline_page db [] =
    (Ok tt,
     [success "✅ Database exists with data";
      warning "⚠️ This will delete the existing database and download fresh data from Kaggle. This is optional - only use if you want to demo the pipeline or get updated data.";
      button "🔄 Refresh from Kaggle";
      button "🔨 Build All Models";
      button "🧪 Run Tests Only"]).
Proof.
  intros Hex Hck Hinit.
  destruct (init_fresh_status db fresh_session false msg eq_refl Hck)
    as (s'' & Hinit' & Hst).
  rewrite Hinit in Hinit'. injection Hinit' as <-.
  rewrite andb_false_r in Hst.
  split; [exact Hst|].
  unfold home_page, dashboard_page, explorer_page, pipeline_page, bind, lift,
    emit, modify, pipeline_status, ret.
  rewrite Hst, Hex, Hck. repeat split.
Qed.

(** X22.  The buttons of the pipeline page follow the database file
    alone, not the status of the session.  Exactly one of "Download"
    and "Refresh" is offered, by the absence or the presence of the
    file; "Run Tests Only" and one build button are offered exactly
    when the file exists; the build button is "Rebuild Models" when the
    probe reports ready and "Build All Models" otherwise. *)
Theorem pipeline_page_offers db ready msg :
  check_database_status db = Ok (ready, msg) →
  ∃ es, pipeline_page db [] = (Ok tt, es) ∧
    (button "📥 Download from Kaggle & Load" ∈ es ↔ path_exists db = false) ∧
    (button "🔄 Refresh from Kaggle" ∈ es ↔ path_exists db = true) ∧
    (button "🧪 Run Tests Only" ∈ es ↔ path_exists db = true) ∧
    (button "🔨 Build All Models" ∈ es ↔ path_exists db = true ∧ ready = false) ∧
    (button "🔨 Rebuild Models" ∈ es ↔ path_exists db = true ∧ ready = true).
Proof.
  intros Hck.
  unfold pipeline_page, bind, lift, emit, modify, ret. rewrite Hck.
  destruct (path_exists db), ready; cbv beta iota; simpl;
    (eexists; split; [reflexivity|]);
    (split; [|split; [|split; [|split]]]);
    (split; intros H);
    first [done | by destruct H | by split | set_solver].
Qed.

End PagesMore.

Section PagesMoreWitness.
Import DuckDB Text Store Streamlit World Scripts App Spec Examples Pages.

Lemma sidebar_after_startup_witness :
  sidebar locked_storage
    (init_session_state locked_storage fresh_session).2 []
  = (Ok tt,
     [caption "Database error: IO Error: Could not set lock on file";
      info "📊 Build dbt models"]).
Proof.
  apply (sidebar_after_startup locked_storage false
           "Database error: IO Error: Could not set lock on file");
    reflexivity.
Defined.

Lemma pages_after_startup_unbuilt_witness :
  check_database_status raw_only_storage = Ok (false, msg_data_loaded) ∧
  dashboard_page (init_session_state raw_only_storage fresh_session).2 []
    = (Ok tt, [warning "⚠️ No data loaded. Please go to **Data Pipeline** to download data first."]).
Proof.
  assert (check_database_status raw_only_storage = Ok (false, msg_data_loaded))
    as Hck by (vm_compute; reflexivity).
  split; [exact Hck|].
  destruct (pages_after_startup_unbuilt raw_only_storage msg_data_loaded
              (init_session_state raw_only_storage fresh_session).2
              eq_refl Hck) as (_ & _ & Hd & _).
  - vm_compute. reflexivity.
  - exact Hd.
Defined.

Lemma pipeline_page_offers_witness :
  ∃ es, pipeline_page locked_storage [] = (Ok tt, es) ∧
        button "🔨 Build All Models" ∈ es ∧
        button "🧪 Run Tests Only" ∈ es.
Proof.
  destruct (pipeline_page_offers locked_storage false
              "Database error: IO Error: Could not set lock on file" eq_refl)
    as (es & Hp & _ & _ & Ht & Hb & _).
  exists es. split; [exact Hp|]. split.
  - apply Hb. split; reflexivity.
  - apply Ht. reflexivity.
Defined.

End PagesMoreWitness.

(** ** The names of the tables *)

Section TableNames.
Import Text Store Streamlit World Scripts App Spec.


End TableNames.

Section TableNamesWitness.
Import Text Store Streamlit World Scripts App Spec Examples.


End TableNamesWitness.

(** ** The order of the steps of a download *)

Section DownloadOrder.
Import Text Store Streamlit World Scripts App Spec.
Variable c : collaborators.

(** X24.  [download_kaggle_dataset] imports the Kaggle client before
    anything else, resolves the credentials before it authenticates,
    and authenticates before it downloads.  When the import fails
    nothing has happened, not even the write of an explicit token to
    the environment; when the resolver raises, the client has not been
    called; the client authenticates against the environment as the
    resolver left it, so an explicit token reaches it through
    [KAGGLE_API_TOKEN]; when authentication fails, the download has not
    been called and the input directory is as it was. *)
Theorem download_kaggle_dataset_order ds path a u k w :
  let r := download_kaggle_dataset c ds path a u k w in
  (∀ e, kaggle_import c = Raise e → r = (Raise e, w)) ∧
  (∀ e w1, kaggle_import c = Ok tt →
     setup_kaggle_credentials c a u k w = (Raise e, w1) →
     r = (Raise e, w1) ∧ calls w1 = calls w) ∧
  (∀ e w1, kaggle_import c = Ok tt →
     setup_kaggle_credentials c a u k w = (Ok tt, w1) →
     kaggle_authenticate c (environ w1) (kaggle_json w1) = Raise e →
     r = (Raise e, set_calls (λ cs, (cs ++ [KaggleAuthenticate])%list) w1) ∧
     calls r.2 = (calls w ++ [KaggleAuthenticate])%list ∧
     raw_dir r.2 = raw_dir w) ∧
  (∀ t e, kaggle_import c = Ok tt →
     a = Some (TStr t) → str_truthy t = true → has_nul t = false →
     kaggle_authenticate c (<["KAGGLE_API_TOKEN" := t]> (environ w)) (kaggle_json w)
       = Raise e →
     r.1 = Raise e ∧
     environ r.2 !! "KAGGLE_API_TOKEN" = Some t ∧
     calls r.2 = (calls w ++ [KaggleAuthenticate])%list).
Proof.
  intros r. subst r.
  pose proof (setup_kaggle_credentials_preserves c calls calls_set_environ
                calls_set_stdout a u k w) as Hcalls.
  pose proof (setup_kaggle_credentials_raw_dir c a u k w) as Hraw.
  split; [|split; [|split]].
  - intros e Hi. unfold download_kaggle_dataset, bind, lift. by rewrite Hi.
  - intros e w1 Hi Hs. rewrite Hs in Hcalls. simpl in Hcalls.
    unfold download_kaggle_dataset, bind, lift. rewrite Hi, Hs. done.
  - intros e w1 Hi Hs Ha. rewrite Hs in Hcalls, Hraw. simpl in Hcalls, Hraw.
    unfold download_kaggle_dataset, bind, lift, get, record_call, modify.
    rewrite Hi, Hs. cbv beta iota.
    destruct w1 as [env kj rd f out cs ss es]. simpl in *. rewrite Ha.
    subst. done.
  - intros t e Hi -> Ht Hn Ha.
    unfold download_kaggle_dataset, setup_kaggle_credentials, setenv, print,
      bind, lift, get, record_call, modify.
    rewrite Hi. simpl. rewrite Ht, Hn. cbv beta iota.
    destruct w as [env kj rd f out cs ss es]. simpl in *. rewrite Ha. simpl.
    split; [reflexivity|]. split; [apply lookup_insert_eq|reflexivity].
Qed.

End DownloadOrder.

Section DownloadOrderWitness.
Import Text Store Streamlit World Scripts App Spec Examples.

Lemma download_kaggle_dataset_order_witness :
  let r := download_kaggle_dataset rejecting DATASET "/app/data/raw"
             (Some (TStr "KGAT_bad")) None None bare in
  r.1 = Raise unauthorized ∧
  environ r.2 !! "KAGGLE_API_TOKEN" = Some "KGAT_bad" ∧
  calls r.2 = [KaggleAuthenticate] ∧
  raw_dir r.2 = None.
Proof.
  destruct (download_kaggle_dataset_order rejecting DATASET "/app/data/raw"
              (Some (TStr "KGAT_bad")) None None bare) as (_ & _ & _ & Htoken).
  destruct (Htoken "KGAT_bad" unauthorized eq_refl eq_refl eq_refl eq_refl eq_refl)
    as (Hr & Henv & Hcalls).
  split; [exact Hr|]. split; [exact Henv|]. split; [exact Hcalls|].
  vm_compute. reflexivity.
Defined.

End DownloadOrderWitness.
